(** * Transcoding of domain events: a shallow embedding of
    [eventsourcing/domain/services/transcoding.py]

    The development follows the module top to bottom: the Python values a
    domain event can hold, the exceptions the module raises, the JSON
    documents that [json.dumps] and [json.loads] exchange, the two codec
    classes [ObjectJSONEncoder] and [ObjectJSONDecoder], and the
    [Transcoder] with its [serialize] and [deserialize] methods, written in
    a small state-and-exception monad over the transcoder object and the
    store of attribute dictionaries.  The properties come after the
    definitions. *)

From stdpp Require Import gmap strings list fin_maps pretty.
From Stdlib Require Import ZArith Ascii.
From Corelib Require SpecFloat.

Set Warnings "-register-all".

Open Scope string_scope.

(** ** Python values *)

(** [datetime.date], [datetime.datetime] and one [numpy.ndarray] are the
    three special values the encoder knows; they are kept as plain records
    of their fields.  How they are printed and parsed belongs to the
    standard library, [dateutil] and [numpy], see [World] below. *)
Record date := Date { year : Z; month : Z; day : Z }.

Record datetime := Datetime {
  dt_date : date;
  hour : Z; minute : Z; second : Z; microsecond : Z;
  utcoffset : option Z   (* minutes east of UTC; [None] for a naive value *)
}.

Record ndarray := Ndarray {
  ndim : nat;            (* [obj.ndim] *)
  npy : string           (* what [numpy.save] writes for the array *)
}.

(** A [float] is an IEEE 754 value: a signed zero, a signed infinity, NaN,
    or a sign, a mantissa and a binary exponent.  Python's are the ones of
    64 bits; the transcoder never computes with them. *)
Abbreviation float := SpecFloat.spec_float.

(** The values an attribute of a domain event can hold.  Dictionaries have
    string keys (attribute bags and JSON objects have no others) and are
    finite maps: Python compares them key by key, whatever their order.
    [VObj m q attrs] is an instance of any other class: [m] is what
    [obj.__module__] evaluates to, [q] what [obj.__class__.__qualname__]
    evaluates to, and [attrs] is [obj.__dict__]. *)
Inductive pyval :=
| VNone
| VBool (b : bool)
| VInt (n : Z)
| VFloat (x : float)
| VStr (s : string)
| VList (l : list pyval)
| VTuple (l : list pyval)
| VDict (d : gmap string pyval)
| VDate (d : date)
| VDatetime (t : datetime)
| VNdarray (a : ndarray)
| VObj (module qualname : string) (attrs : gmap string pyval).

Abbreviation attrs := (gmap string pyval).

(** ** JSON documents and texts *)

(** A JSON document.  With [sort_keys=True] and fixed separators the text
    [json.dumps] writes is determined by the document, so an object is a
    finite map.  A number written with a fraction or an exponent, and the
    tokens [NaN], [Infinity] and [-Infinity] that Python's [json] writes
    and reads, is the float it denotes: [json.dumps] writes the [repr] of a
    float, the shortest text that [float] parses back to the same value. *)
Inductive json :=
| JNull
| JBool (b : bool)
| JInt (n : Z)
| JFloat (x : float)
| JStr (s : string)
| JArr (l : list json)
| JObj (o : gmap string json).

(** A Python string used as a payload: the text of a JSON document, which
    is identified with the document, or any other string. *)
Inductive text :=
| TJson (doc : json)
| TRaw (s : string).

(** The dictionaries that are shared by reference, the [__dict__] of an
    instance and a dictionary held by a stored event, live in a store and
    are known by their address. *)
Abbreviation loc := positive.

(** What the [event_attrs] field of a stored event, and the local variable
    of that name, can hold: a dictionary (by reference), a string, or any
    other value. *)
Inductive payload :=
| PDict (l : loc)
| PText (t : text)
| PVal (v : pyval).

(** ** Exceptions and results *)

(** The messages of the [ValueError]s the transcoder raises itself, with
    the values they are formatted with. *)
Inductive message :=
| CantEncrypt                 (* "Can't encrypt without a cipher" *)
| CantDecrypt                 (* "Can't decrypt stored event without a cipher" *)
| NotAType (symbol : pyval)   (* "Event class is not a type: {}" *)
| NotADomainEvent (module qualname : string)
                              (* "Event class is not a DomainEvent: {}" *)
| UnableToInstantiate (topic : string) (data : payload)
                              (* "Unable to instantiate class '{}' with data '{}'" *)
| Builtin (text : string).    (* a message of the interpreter's own *)

Inductive exn :=
| AssertionError
| AttributeError (what : string)
| ImportError (name : string)
| IndexError
| JSONDecodeError
| KeyError (key : string)
| NameError (name : string)
| RecursionError
| TopicResolutionError (topic : string)
| TypeError (what : string)
| ValueError (msg : message)
| Raised (name : string)      (* any exception of a user's class or hook *)
| Unmodelled (what : string). (* Python does something this model has no value for *)

Inductive result (A : Type) :=
| Ok (a : A)
| Err (e : exn).
Arguments Ok {A} a.
Arguments Err {A} e.

Global Instance result_ret : MRet result := λ A a, Ok a.
Global Instance result_bind : MBind result :=
  λ A B f m, match m with Ok a => f a | Err e => Err e end.
Global Instance result_fmap : FMap result :=
  λ A B f m, match m with Ok a => Ok (f a) | Err e => Err e end.

(** Traversal of a dictionary with a function that may raise. *)
Definition map_mapM {A B} (f : A → result B) (m : gmap string A)
  : result (gmap string B) :=
  map_fold (λ k x acc, m' ← acc; y ← f x; mret (<[k:=y]> m')) (mret ∅) m.

(** ** Classes and the running program *)

(** What [object.__new__(cls)] gives. *)
Inductive new_outcome :=
| NewDict        (* a bare instance with an empty [__dict__] *)
| NewSlots       (* a bare instance of a class with fixed attributes: no [__dict__] *)
| NewTypeError.  (* [TypeError]: an abstract class, or a foreign base layout *)

Record pyclass := PyClass {
  cls_module : string;                  (* [cls.__module__] *)
  cls_qualname : string;                (* [cls.__qualname__] *)
  cls_is_domain_event : bool;           (* [issubclass(cls, DomainEvent)] *)
  cls_always_encrypt : bool;            (* [cls.always_encrypt] *)
  cls_new : new_outcome;                (* [object.__new__(cls)] *)
  cls_call : attrs → result pyval       (* [cls] called with keyword arguments *)
}.

(** What a name of a module is bound to. *)
Inductive symbol :=
| SymType (c : pyclass)
| SymOther (v : pyval).

Record Numpy := {
  np_save : ndarray → string;           (* [json.dumps(save(a).decode('latin-1'))] *)
  np_load : string → result ndarray     (* [load(json.loads(s).encode('latin-1'))] *)
}.

(** The program the transcoder runs in: the importable modules, the topic
    registry of [eventsourcing.domain.model.events], and the library
    functions the codec calls. *)
Class World := {
  modules : gmap string (gmap string symbol);
  topics : gmap string symbol;
  numpy : option Numpy;
  strftime : datetime → string;         (* [t.strftime('%Y-%m-%dT%H:%M:%S.%f%z')] *)
  isoformat : date → string;            (* [d.isoformat()] *)
  dateutil_parse : string → result datetime;
  strptime_date : string → result date; (* [strptime(s, '%Y-%m-%d').date()] *)
  repr : pyval → string;
  recursionlimit : nat
}.

(** ** Operators of the interpreter *)

Fixpoint is_prefix (p s : string) : bool :=
  match p, s with
  | EmptyString, _ => true
  | String a p', String b s' => Ascii.eqb a b && is_prefix p' s'
  | String _ _, EmptyString => false
  end.

Fixpoint is_substring (p s : string) : bool :=
  is_prefix p s ||
  match s with
  | EmptyString => false
  | String _ s' => is_substring p s'
  end.

Definition type_name (v : pyval) : string :=
  match v with
  | VNone => "NoneType" | VBool _ => "bool" | VInt _ => "int"
  | VFloat _ => "float" | VStr _ => "str"
  | VList _ => "list" | VTuple _ => "tuple" | VDict _ => "dict"
  | VDate _ => "date" | VDatetime _ => "datetime" | VNdarray _ => "ndarray"
  | VObj _ q _ => q
  end.

(** [key in d] for a string [key]: key membership on a dictionary, a
    substring test on a string, element membership on a list or a tuple;
    any other value is not a container. *)
Definition py_contains (d : pyval) (key : string) : result bool :=
  match d with
  | VDict m => Ok (bool_decide (is_Some (m !! key)))
  | VStr s => Ok (is_substring key s)
  | VList l | VTuple l =>
      Ok (existsb (λ x, match x with VStr s => String.eqb s key | _ => false end) l)
  | VNdarray _ => Err (Unmodelled "in ndarray")
  | _ => Err (TypeError ("argument of type " ++ type_name d ++ " is not iterable"))
  end.

(** [d[key]] for a string [key]. *)
Definition py_getitem (d : pyval) (key : string) : result pyval :=
  match d with
  | VDict m => match m !! key with Some v => Ok v | None => Err (KeyError key) end
  | VNdarray _ => Err IndexError
  | _ => Err (TypeError (type_name d ++ " is not subscriptable by str"))
  end.

(** [d.pop(key)]: the value and what is left of [d]. *)
Definition py_pop (d : pyval) (key : string) : result (pyval * attrs) :=
  match d with
  | VDict m =>
      match m !! key with
      | Some v => Ok (v, delete key m)
      | None => Err (KeyError key)
      end
  | VList _ => Err (TypeError "str cannot be interpreted as an integer")
  | _ => Err (AttributeError "pop")
  end.

(** [obj.__dict__[attr] = value] *)
Definition set_in_dict (obj : pyval) (attr : string) (value : pyval) : result pyval :=
  match obj with
  | VObj m q a => Ok (VObj m q (<[attr:=value]> a))
  | _ => Err (AttributeError "__dict__")
  end.

(** Calling whatever a name resolved to, with keyword arguments. *)
Definition call (cls : symbol) (kwargs : attrs) : result pyval :=
  match cls with
  | SymType c => cls_call c kwargs
  | SymOther v => Err (TypeError (type_name v ++ " object is not callable"))
  end.

(** [importlib.import_module(name)] *)
Definition import_module `{World} (name : pyval) : result (gmap string symbol) :=
  match name with
  | VStr "" => Err (ValueError (Builtin "Empty module name"))
  | VStr n =>
      if is_prefix "." n then Err (TypeError "relative import without a package")
      else match modules !! n with
           | Some m => Ok m
           | None => Err (ImportError n)
           end
  | _ => Err (AttributeError "startswith")
  end.

(** Modelled from the spec: [resolve_attr] of
    [eventsourcing.domain.model.events] is not among the sources; section
    4.2 says decode resolves that name to a type, so the qualified name is
    looked up in the module's names and a name that is not there is an
    [AttributeError]. *)
Definition resolve_attr (module : gmap string symbol) (path : pyval) : result symbol :=
  match path with
  | VStr p =>
      match module !! p with
      | Some s => Ok s
      | None => Err (AttributeError p)
      end
  | _ => Err (AttributeError "partition")
  end.

(** Modelled from the spec: [resolve_domain_topic] of
    [eventsourcing.domain.model.events] is not among the sources; by
    section 4.1 it maps a topic to the loadable symbol it names and fails
    with a type resolution error when the module or type cannot be
    located. *)
Definition resolve_domain_topic `{World} (topic : string) : result symbol :=
  match topics !! topic with
  | Some s => Ok s
  | None => Err (TopicResolutionError topic)
  end.

(** Modelled from the spec: [topic_from_domain_class] of
    [eventsourcing.domain.model.events] is not among the sources; by
    section 6 a topic is a dotted path of the module and the qualified
    class name. *)
Definition topic_from_domain_class (c : pyclass) : string :=
  cls_module c ++ "." ++ cls_qualname c.

(** ** [json.dumps] and [json.loads] *)

(** A [json.JSONEncoder] class is known by its [default] method, a
    [json.JSONDecoder] class by the [object_hook] it installs. *)
Record JSONEncoderCls := { enc_default : pyval → result pyval }.
Record JSONDecoderCls := { object_hook : option (pyval → result pyval) }.

(** [json.JSONEncoder.default] *)
Definition JSONEncoder_default (obj : pyval) : result pyval :=
  Err (TypeError ("Object of type " ++ type_name obj ++ " is not JSON serializable")).

(** The encoder: native values map to JSON, tuples become arrays, anything
    else goes through [default] and the value it returns is encoded in its
    place.  Every level of nesting takes one unit of the recursion limit. *)
Fixpoint encode (fuel : nat) (default : pyval → result pyval) (o : pyval)
  : result json :=
  match fuel with
  | 0 => Err RecursionError
  | S fuel =>
      match o with
      | VNone => Ok JNull
      | VBool b => Ok (JBool b)
      | VInt n => Ok (JInt n)
      | VFloat x => Ok (JFloat x)
      | VStr s => Ok (JStr s)
      | VList l | VTuple l => JArr <$> mapM (encode fuel default) l
      | VDict d => JObj <$> map_mapM (encode fuel default) d
      | _ => o' ← default o; encode fuel default o'
      end
  end.

Definition json_dumps `{World} (cls : JSONEncoderCls) (obj : pyval) : result text :=
  TJson <$> encode recursionlimit (enc_default cls) obj.

(** The decoder: arrays become lists, and every object, innermost first,
    is handed to the hook. *)
Fixpoint decode (hook : pyval → result pyval) (j : json) : result pyval :=
  match j with
  | JNull => Ok VNone
  | JBool b => Ok (VBool b)
  | JInt n => Ok (VInt n)
  | JFloat x => Ok (VFloat x)
  | JStr s => Ok (VStr s)
  | JArr l => VList <$> mapM (decode hook) l
  | JObj o => d ← map_mapM (decode hook) o; hook (VDict d)
  end.

Definition json_loads (cls : JSONDecoderCls) (s : text) : result pyval :=
  match s with
  | TJson doc => decode (default Ok (object_hook cls)) doc
  | TRaw _ => Err JSONDecodeError
  end.

(** ** [ObjectJSONEncoder] *)

(** The last branch of [default]: the tag of any other object, read from
    [obj.__class__.__qualname__] and [obj.__module__].  Instances of
    built-in types have no [__module__] attribute. *)
Definition class_tag (obj : pyval) : result pyval :=
  match obj with
  | VObj m q _ => Ok (VDict {[ "__class__" := VStr q; "__module__" := VStr m ]})
  | VNdarray _ => Err (Unmodelled "ndarray.__module__")
  | _ => Err (AttributeError "__module__")
  end.

(** [ObjectJSONEncoder.default] *)
Definition ObjectJSONEncoder_default `{World} (obj : pyval) : result pyval :=
  match JSONEncoder_default obj with
  | Ok r => Ok r
  | Err (TypeError e) =>
      if negb (is_substring "not JSON serializable" e) then Err (TypeError e)
      else
        match obj with
        | VDatetime t => Ok (VDict {[ "ISO8601_datetime" := VStr (strftime t) ]})
        | VDate d => Ok (VDict {[ "ISO8601_date" := VStr (isoformat d) ]})
        | _ =>
            match numpy, obj with
            | Some np, VNdarray a =>
                if (ndim a =? 1)%nat
                then Ok (VDict {[ "__ndarray__" := VStr (np_save np a) ]})
                else class_tag obj
            | _, _ => class_tag obj
            end
        end
  | Err e => Err e
  end.

Definition ObjectJSONEncoder `{World} : JSONEncoderCls :=
  {| enc_default := ObjectJSONEncoder_default |}.

(** ** [ObjectJSONDecoder] *)

(** [ObjectJSONDecoder._decode_ndarray] *)
Definition _decode_ndarray `{World} (d : pyval) : result pyval :=
  serialized ← py_getitem d "__ndarray__";
  match numpy with
  | None => Err (NameError "BytesIO")
  | Some np =>
      match serialized with
      | VStr s => VNdarray <$> np_load np s
      | _ => Err (TypeError "the JSON object must be str")
      end
  end.

(** [ObjectJSONDecoder._decode_class].  [values] holds [from_jsonable value]
    for every item of [d]: the calls the loop of the [except] branch makes
    on the items that are left after the two [pop]s. *)
Definition _decode_class `{World}
    (values : gmap string (result pyval)) (d : pyval) : result pyval :=
  '(class_name, d) ← py_pop d "__class__";
  '(module_name, d) ← py_pop (VDict d) "__module__";
  module ← import_module module_name;
  cls ← resolve_attr module class_name;
  match call cls d with
  | Ok obj => Ok obj
  | Err _ =>
      obj ← call cls ∅;
      map_fold
        (λ attr r acc, obj ← acc; value ← r; set_in_dict obj attr value)
        (Ok obj)
        (delete "__module__" (delete "__class__" values))
  end.

(** [ObjectJSONDecoder._decode_date] *)
Definition _decode_date `{World} (d : pyval) : result pyval :=
  s ← py_getitem d "ISO8601_date";
  match s with
  | VStr s => VDate <$> strptime_date s
  | _ => Err (TypeError "strptime() argument 1 must be str")
  end.

(** [ObjectJSONDecoder._decode_datetime] *)
Definition _decode_datetime `{World} (d : pyval) : result pyval :=
  s ← py_getitem d "ISO8601_datetime";
  match s with
  | VStr s => VDatetime <$> dateutil_parse s
  | _ => Err (TypeError "Parser must be a string")
  end.

(** [ObjectJSONDecoder.from_jsonable] *)
Fixpoint from_jsonable `{World} (d : pyval) {struct d} : result pyval :=
  has_ndarray ← py_contains d "__ndarray__";
  if has_ndarray : bool then _decode_ndarray d
  else
    has_class ← py_contains d "__class__";
    has_module ← (if has_class : bool then py_contains d "__module__" else Ok false);
    if has_class && has_module then
      _decode_class
        (match d with VDict m => from_jsonable <$> m | _ => ∅ end) d
    else
      has_datetime ← py_contains d "ISO8601_datetime";
      if has_datetime : bool then _decode_datetime d
      else
        has_date ← py_contains d "ISO8601_date";
        if has_date : bool then _decode_date d
        else Ok d.

Definition ObjectJSONDecoder `{World} : JSONDecoderCls :=
  {| object_hook := Some from_jsonable |}.

(** ** Objects and the interpreter state *)

(** The cipher is a collaborator: two functions on strings. *)
Record Cipher := { encrypt : text → text; decrypt : text → text }.

(** A [Transcoder] object: the two class attributes and the four instance
    attributes set by [__init__]. *)
Record Transcoder := {
  serialize_without_json : bool;
  serialize_with_uuid1 : bool;
  json_encoder_cls : option JSONEncoderCls;
  json_decoder_cls : option JSONDecoderCls;
  cipher : option Cipher;
  always_encrypt : bool
}.

(** An instance of a class; [inst_dict] is the address of its [__dict__],
    if it has one. *)
Record instance := { inst_class : pyclass; inst_dict : option loc }.

(** [Transcoder.StoredEvent] *)
Record StoredEvent := {
  event_id : pyval;
  stored_entity_id : string;
  event_topic : string;
  event_attrs : payload
}.

(** The state a method call runs in: the transcoder it is called on and
    the store of dictionaries. *)
Record PyState := { self : Transcoder; heap : gmap loc attrs }.

(** Computations that read and write the state and may raise. *)
Definition Py (A : Type) : Type := PyState → result A * PyState.

Global Instance Py_ret : MRet Py := λ A a s, (Ok a, s).
Global Instance Py_bind : MBind Py :=
  λ A B f m s,
    match m s with
    | (Ok a, s') => f a s'
    | (Err e, s') => (Err e, s')
    end.

Definition raise {A} (e : exn) : Py A := λ s, (Err e, s).

Definition lift {A} (r : result A) : Py A := λ s, (r, s).

Definition get_self : Py Transcoder := λ s, (Ok (self s), s).

Definition set_self (t : Transcoder) : Py unit :=
  λ s, (Ok (), {| self := t; heap := heap s |}).

(** A new dictionary object holding [d]. *)
Definition alloc (d : attrs) : Py loc :=
  λ s, let l := fresh (dom (heap s)) in
       (Ok l, {| self := self s; heap := <[l:=d]> (heap s) |}).

Definition read (l : loc) : Py attrs :=
  λ s, match heap s !! l with
       | Some d => (Ok d, s)
       | None => (Err (Unmodelled "dangling reference"), s)
       end.

Definition write (l : loc) (d : attrs) : Py unit :=
  λ s, (Ok (), {| self := self s; heap := <[l:=d]> (heap s) |}).

(** [try: body except TypeError: handler] *)
Definition except_TypeError {A} (body handler : Py A) : Py A :=
  λ s, match body s with
       | (Err (TypeError _), s') => handler s'
       | r => r
       end.

(** [obj.__dict__] *)
Definition get_dict (obj : instance) : Py loc :=
  match inst_dict obj with
  | Some l => mret l
  | None => raise (AttributeError "__dict__")
  end.

(** Modelled from the spec: the class [DomainEvent] of
    [eventsourcing.domain.model.events] is not among the sources; by
    section 2 a domain event is a plain attribute bag with an [entity_id],
    so [domain_event.entity_id] is the item of that name in the bag: the
    property reads [self.__dict__['entity_id']], and a bag without the key
    is the [KeyError] of that lookup. *)
Definition DomainEvent_entity_id (domain_event : instance) : Py pyval :=
  l ← get_dict domain_event;
  d ← read l;
  match d !! "entity_id" with
  | Some v => mret v
  | None => raise (KeyError "entity_id")
  end.

(** [object.__new__(cls)] *)
Definition object_new (cls : pyclass) : Py instance :=
  match cls_new cls with
  | NewDict => l ← alloc ∅; mret {| inst_class := cls; inst_dict := Some l |}
  | NewSlots => mret {| inst_class := cls; inst_dict := None |}
  | NewTypeError => raise (TypeError "object.__new__")
  end.

(** [d.pop(key)] on a dictionary of the store. *)
Definition dict_pop (l : loc) (key : string) : Py pyval :=
  d ← read l;
  match d !! key with
  | Some v => write l (delete key d);; mret v
  | None => raise (KeyError key)
  end.

(** [event_attrs[key] = value] *)
Definition setitem (event_attrs : payload) (key : string) (value : pyval)
  : Py payload :=
  match event_attrs with
  | PDict l => d ← read l; write l (<[key:=value]> d);; mret (PDict l)
  | PText _ => raise (TypeError "str does not support item assignment")
  | PVal (VDict d) => mret (PVal (VDict (<[key:=value]> d)))
  | PVal (VNdarray _) => raise IndexError
  | PVal v => raise (TypeError (type_name v ++ " does not support item assignment"))
  end.

(** One element of a sequence given to [dict.update]: a key and a value. *)
Definition update_pair (e : pyval) : result (string * pyval) :=
  match e with
  | VList [VStr k; v] | VTuple [VStr k; v] => Ok (k, v)
  | VList [VList _; _] | VTuple [VList _; _]
  | VList [VDict _; _] | VTuple [VDict _; _] => Err (TypeError "unhashable type")
  | VList [_; _] | VTuple [_; _] => Err (Unmodelled "a key that is not a string")
  | VStr (String a (String b EmptyString)) =>
      Ok (String a EmptyString, VStr (String b EmptyString))
  | VList _ | VTuple _ | VStr _ =>
      Err (ValueError (Builtin "dictionary update sequence element has not length 2"))
  | VDict _ | VNdarray _ => Err (Unmodelled "update from the keys of a container")
  | _ => Err (TypeError "cannot convert dictionary update sequence element to a sequence")
  end.

(** The items [dict.update(v)] adds, in order, for a [v] that is not a
    mapping. *)
Definition update_items (v : pyval) : result (list (string * pyval)) :=
  match v with
  | VDict _ => Err (Unmodelled "update from the keys of a container")
  | VList l | VTuple l => mapM update_pair l
  | VStr EmptyString => Ok []
  | VStr _ =>
      Err (ValueError (Builtin "dictionary update sequence element has not length 2"))
  | VNdarray _ => Err (Unmodelled "update from an ndarray")
  | _ => Err (TypeError (type_name v ++ " object is not iterable"))
  end.

(** [target.update(event_attrs)] *)
Definition dict_update (target : loc) (event_attrs : payload) : Py unit :=
  match event_attrs with
  | PDict l => d ← read l; t ← read target; write target (d ∪ t)
  | PText (TRaw EmptyString) => mret ()
  | PText _ =>
      raise (ValueError (Builtin "dictionary update sequence element has not length 2"))
  | PVal (VDict d) => t ← read target; write target (d ∪ t)
  | PVal v =>
      items ← lift (update_items v);
      t ← read target;
      write target (foldl (λ acc kv, <[kv.1:=kv.2]> acc) t items)
  end.

(** The value a payload is formatted from: a dictionary read by value. *)
Definition snapshot (event_attrs : payload) : Py payload :=
  match event_attrs with
  | PDict l => d ← read l; mret (PVal (VDict d))
  | p => mret p
  end.

(** ** Stored entity ids *)

(** [str(v)], as [format] applies it to an argument. *)
Definition py_str `{World} (v : pyval) : string :=
  match v with
  | VStr s => s
  | VInt n => pretty n
  | VNone => "None"
  | VBool true => "True"
  | VBool false => "False"
  | _ => repr v
  end.

(** [s.split(sep)] for a separator of one character. *)
Fixpoint split (sep : Ascii.ascii) (s : string) : list string :=
  match s with
  | EmptyString => [EmptyString]
  | String c s' =>
      if Ascii.eqb c sep then EmptyString :: split sep s'
      else match split sep s' with
           | h :: t => String c h :: t
           | [] => [String c EmptyString]
           end
  end.

(** [l[0]] *)
Definition first_item (l : list string) : result string :=
  match l !! 0%nat with
  | Some x => Ok x
  | None => Err IndexError
  end.

Definition make_stored_entity_id `{World} (id_prefix entity_id : pyval) : string :=
  py_str id_prefix ++ "::" ++ py_str entity_id.

Definition id_prefix_from_event_class (domain_event_class : pyclass) : result string :=
  if negb (cls_is_domain_event domain_event_class) then Err AssertionError
  else first_item (split "."%char (cls_qualname domain_event_class)).

Definition id_prefix_from_event (domain_event : instance) : result string :=
  if negb (cls_is_domain_event (inst_class domain_event)) then Err AssertionError
  else id_prefix_from_event_class (inst_class domain_event).

(** ** [Transcoder] *)

(** [if self.json_encoder_cls is None: self.json_encoder_cls = ObjectJSONEncoder] *)
Definition default_json_encoder_cls `{World} : Py JSONEncoderCls :=
  t ← get_self;
  match json_encoder_cls t with
  | Some cls => mret cls
  | None =>
      set_self {| serialize_without_json := serialize_without_json t;
                  serialize_with_uuid1 := serialize_with_uuid1 t;
                  json_encoder_cls := Some ObjectJSONEncoder;
                  json_decoder_cls := json_decoder_cls t;
                  cipher := cipher t;
                  always_encrypt := always_encrypt t |};;
      mret ObjectJSONEncoder
  end.

(** [if self.json_decoder_cls is None: self.json_decoder_cls = ObjectJSONDecoder] *)
Definition default_json_decoder_cls `{World} : Py JSONDecoderCls :=
  t ← get_self;
  match json_decoder_cls t with
  | Some cls => mret cls
  | None =>
      set_self {| serialize_without_json := serialize_without_json t;
                  serialize_with_uuid1 := serialize_with_uuid1 t;
                  json_encoder_cls := json_encoder_cls t;
                  json_decoder_cls := Some ObjectJSONDecoder;
                  cipher := cipher t;
                  always_encrypt := always_encrypt t |};;
      mret ObjectJSONDecoder
  end.

(** [Transcoder.serialize].  [uuid4_hex] is the value [uuid.uuid4().hex]
    takes in this call. *)
Definition serialize `{World} (uuid4_hex : string) (domain_event : instance)
  : Py StoredEvent :=
  (* Copy the state of the domain event. *)
  d ← (l ← get_dict domain_event; read l);
  event_attrs ← alloc d;
  (* Get, or make, the domain event ID. *)
  t ← get_self;
  event_id ← (if serialize_with_uuid1 t
              then dict_pop event_attrs "domain_event_id"
              else mret (VStr uuid4_hex));
  (* Make stored entity ID and topic. *)
  id_prefix ← lift (id_prefix_from_event domain_event);
  entity_id ← DomainEvent_entity_id domain_event;
  let stored_entity_id := make_stored_entity_id (VStr id_prefix) entity_id in
  let event_topic := topic_from_domain_class (inst_class domain_event) in
  (* Serialise event attributes to JSON, optionally encrypted with cipher. *)
  event_attrs ←
    (if negb (serialize_without_json t) then
       cls ← default_json_encoder_cls;
       d ← read event_attrs;
       event_attrs ← lift (json_dumps cls (VDict d));
       if always_encrypt t || cls_always_encrypt (inst_class domain_event) then
         match cipher t with
         | None => raise (ValueError CantEncrypt)
         | Some c => mret (PText (encrypt c event_attrs))
         end
       else mret (PText event_attrs)
     else mret (PDict event_attrs));
  (* Return a named tuple. *)
  mret {| event_id := event_id;
          stored_entity_id := stored_entity_id;
          event_topic := event_topic;
          event_attrs := event_attrs |}.

(** [json.loads(event_attrs, cls=...)] on whatever the variable holds.  A
    payload that is a string is a [PText]; a [PVal] stands for a value
    that is not a string, which [json.loads] refuses. *)
Definition loads_payload (cls : JSONDecoderCls) (event_attrs : payload)
  : result pyval :=
  match event_attrs with
  | PText s => json_loads cls s
  | _ => Err (TypeError "the JSON object must be str, bytes or bytearray")
  end.

(** [self.cipher.decrypt(event_attrs)]; a cipher takes strings only. *)
Definition decrypt_payload (c : Cipher) (event_attrs : payload) : result payload :=
  match event_attrs with
  | PText s => Ok (PText (decrypt c s))
  | _ => Err (TypeError "decrypt takes a string")
  end.

(** The block of [deserialize] that decodes the payload: "Deserialize
    event attributes from JSON, optionally decrypted with cipher". *)
Definition decode_event_attrs `{World} (t : Transcoder) (event_class : pyclass)
    (event_attrs : payload) : Py payload :=
  if negb (serialize_without_json t) then
    cls ← default_json_decoder_cls;
    event_attrs ←
      (if always_encrypt t || cls_always_encrypt event_class then
         match cipher t with
         | None => raise (ValueError CantDecrypt)
         | Some c => lift (decrypt_payload c event_attrs)
         end
       else mret event_attrs);
    lift (PVal <$> loads_payload cls event_attrs)
  else mret event_attrs.

(** The block of [deserialize] that builds the event: "Reinstantiate and
    return the domain event object". *)
Definition reinstantiate (event_class : pyclass) (topic : string)
    (event_attrs : payload) : Py instance :=
  except_TypeError
    (domain_event ← object_new event_class;
     l ← get_dict domain_event;
     dict_update l event_attrs;;
     mret domain_event)
    (data ← snapshot event_attrs;
     raise (ValueError (UnableToInstantiate topic data))).

(** [Transcoder.deserialize] *)
Definition deserialize `{World} (stored_event : StoredEvent) : Py instance :=
  (* Get the domain event class from the topic. *)
  sym ← lift (resolve_domain_topic (event_topic stored_event));
  event_class ← match sym with
                | SymType c => mret c
                | SymOther v => raise (ValueError (NotAType v))
                end;
  if negb (cls_is_domain_event event_class) then
    raise (ValueError (NotADomainEvent (cls_module event_class)
                                       (cls_qualname event_class)))
  else
  (* Deserialize event attributes from JSON, optionally decrypted with cipher. *)
  t ← get_self;
  event_attrs ← decode_event_attrs t event_class (event_attrs stored_event);
  (* Set the domain event ID. *)
  event_attrs ← (if serialize_with_uuid1 t
                 then setitem event_attrs "domain_event_id" (event_id stored_event)
                 else mret event_attrs);
  (* Reinstantiate and return the domain event object. *)
  reinstantiate event_class (event_topic stored_event) event_attrs.

(** ** Values that JSON keeps *)

(** The units of the recursion limit [encode] needs for a value. *)
Fixpoint levels (v : pyval) : nat :=
  match v with
  | VList l | VTuple l => S (foldr (λ x n, levels x `max` n) 0 l)
  | VDict d => S (map_fold (λ _ x n, levels x `max` n) 0 d)
  | VDate _ | VDatetime _ | VNdarray _ | VObj _ _ _ => 3
  | _ => 1
  end.

(** [from_jsonable] hands a dictionary with one of these keys to the
    decoder of a special value. *)
Definition has_key {A} (d : gmap string A) (key : string) : bool :=
  bool_decide (is_Some (d !! key)).

Definition reserved {A} (d : gmap string A) : bool :=
  has_key d "__ndarray__"
  || (has_key d "__class__" && has_key d "__module__")
  || has_key d "ISO8601_datetime"
  || has_key d "ISO8601_date".

(** The document [ObjectJSONEncoder] writes for a value. *)
Fixpoint document `{World} (v : pyval) : json :=
  match v with
  | VNone => JNull
  | VBool b => JBool b
  | VInt n => JInt n
  | VFloat x => JFloat x
  | VStr s => JStr s
  | VList l | VTuple l => JArr (document <$> l)
  | VDict d => JObj (document <$> d)
  | VDate d => JObj {[ "ISO8601_date" := JStr (isoformat d) ]}
  | VDatetime t => JObj {[ "ISO8601_datetime" := JStr (strftime t) ]}
  | VNdarray a =>
      match numpy with
      | Some np => JObj {[ "__ndarray__" := JStr (np_save np a) ]}
      | None => JNull
      end
  | VObj m q _ => JObj {[ "__class__" := JStr q; "__module__" := JStr m ]}
  end.

(** The values that come back from JSON as they went in: the native
    scalars (floats among them: a NaN comes back as a NaN), lists and
    dictionaries of such values that carry no reserved key, and the
    dates, timestamps and one-dimensional arrays that the libraries parse
    back from what they printed.  Tuples and other objects do not. *)
Fixpoint faithful `{World} (v : pyval) : Prop :=
  match v with
  | VNone | VBool _ | VInt _ | VFloat _ | VStr _ => True
  | VList l => foldr (λ x P, faithful x ∧ P) True l
  | VDict d => reserved d = false ∧ map_fold (λ _ x P, faithful x ∧ P) True d
  | VDate d => strptime_date (isoformat d) = Ok d
  | VDatetime t => dateutil_parse (strftime t) = Ok t
  | VNdarray a =>
      ndim a = 1%nat ∧ ∃ np, numpy = Some np ∧ np_load np (np_save np a) = Ok a
  | VTuple _ | VObj _ _ _ => False
  end.

(** The value of an attribute kept in the [__dict__] of an instance. *)
Definition attribute (s : PyState) (obj : instance) (name : string) : option pyval :=
  l ← inst_dict obj; d ← heap s !! l; d !! name.

(** The attribute bag of an instance. *)
Definition bag (s : PyState) (obj : instance) : option attrs :=
  l ← inst_dict obj; heap s !! l.

(** What the two assignments of a default codec class leave of a
    transcoder. *)
Definition with_encoder_default `{World} (t : Transcoder) : Transcoder :=
  {| serialize_without_json := serialize_without_json t;
     serialize_with_uuid1 := serialize_with_uuid1 t;
     json_encoder_cls := Some (default ObjectJSONEncoder (json_encoder_cls t));
     json_decoder_cls := json_decoder_cls t;
     cipher := cipher t;
     always_encrypt := always_encrypt t |}.

Definition with_decoder_default `{World} (t : Transcoder) : Transcoder :=
  {| serialize_without_json := serialize_without_json t;
     serialize_with_uuid1 := serialize_with_uuid1 t;
     json_encoder_cls := json_encoder_cls t;
     json_decoder_cls := Some (default ObjectJSONDecoder (json_decoder_cls t));
     cipher := cipher t;
     always_encrypt := always_encrypt t |}.

Definition with_default_codecs `{World} (t : Transcoder) : Transcoder :=
  with_decoder_default (with_encoder_default t).

(** What a caller can see of a payload: a dictionary is read by value. *)
Definition content (h : gmap loc attrs) (p : payload) : option payload :=
  match p with
  | PDict l => d ← h !! l; Some (PVal (VDict d))
  | _ => Some p
  end.

(** Two stores show the same payload, and it is there. *)
Definition same_payload (h1 h2 : gmap loc attrs) (p : payload) : Prop :=
  is_Some (content h1 p) ∧ content h1 p = content h2 p.

(** What a caller can see of the outcome of [serialize], whatever the
    address of a dictionary: the record with its payload read by value. *)
Definition record_of (x : result StoredEvent * PyState)
  : result (pyval * string * string * option payload) :=
  r ← x.1;
  Ok (event_id r, stored_entity_id r, event_topic r,
      content (heap x.2) (event_attrs r)).

(** What a caller can see of the outcome of [deserialize]: the class of
    the new instance and its attribute bag. *)
Definition event_of (x : result instance * PyState)
  : result (string * string * option attrs) :=
  e ← x.1;
  Ok (cls_module (inst_class e), cls_qualname (inst_class e), bag x.2 e).

(** [deserialize(serialize(domain_event))], as a caller sees it. *)
Definition there_and_back `{World} (uuid4_hex : string) (domain_event : instance)
    (s : PyState) : result (string * string * option attrs) :=
  match serialize uuid4_hex domain_event s with
  | (Ok r, s1) => event_of (deserialize r s1)
  | (Err x, _) => Err x
  end.

(** ** Domain entities *)

(** [object.__new__] applied to whatever a topic resolved to; Python
    refuses an argument that is not a type. *)
Definition object_new_of (domain_class : symbol) : Py instance :=
  match domain_class with
  | SymType c => object_new c
  | SymOther v => raise (TypeError "object.__new__(X): X is not a type object")
  end.

(** [deserialize_domain_entity]: no check of the class and no [try]. *)
Definition deserialize_domain_entity `{World} (entity_topic : string)
    (entity_attrs : payload) : Py instance :=
  (* Get the domain entity class from the entity topic. *)
  domain_class ← lift (resolve_domain_topic entity_topic);
  (* Instantiate the domain entity class. *)
  entity ← object_new_of domain_class;
  (* Set the attributes. *)
  l ← get_dict entity;
  dict_update l entity_attrs;;
  (* Return a new domain entity object. *)
  mret entity.

(** What the last two functions of the module read of the class of an
    entity: its [__name__], and whether it is a subclass of
    [EventSourcedEntity]. *)
Record entity_class := {
  ent_name : string;          (* [cls.__name__] *)
  ent_is_entity : bool        (* [issubclass(cls, EventSourcedEntity)] *)
}.

Definition id_prefix_from_entity_class (domain_class : entity_class) : result string :=
  if negb (ent_is_entity domain_class) then Err AssertionError
  else Ok (ent_name domain_class).

(** [type(domain_entity)] stands for the entity. *)
Definition id_prefix_from_entity (type_of_domain_entity : entity_class) : result string :=
  if negb (ent_is_entity type_of_domain_entity) then Err AssertionError
  else id_prefix_from_entity_class type_of_domain_entity.

(** ** [SearchableContentApplication] *)

Module SearchableContentApplication.

(** What [save] reads of a [Page] aggregate. *)
Record Page := {
  slug : string;
  body : string;
  version : Z;
  pending_events : list pyval
}.

(** An argument of [save]: a page, or any other aggregate or event;
    [None] is [None]. *)
Inductive saveable :=
| APage (p : Page)
| AnyOther (v : pyval).

(** A keyword argument: a dictionary of page bodies, or any other value. *)
Inductive kwarg :=
| Bodies (d : gmap string string)
| Any (v : pyval).

(** [obj.version == len(obj.pending_events)] *)
Definition is_new (p : Page) : bool :=
  bool_decide (version p = Z.of_nat (length (pending_events p))).

(** The body of the [for] loop of [save], on the two dictionaries. *)
Definition save_step (bodies : gmap string string * gmap string string)
    (obj : option saveable) : gmap string string * gmap string string :=
  let '(insert_page_bodies, update_page_bodies) := bodies in
  match obj with
  | Some (APage p) =>
      if is_new p
      then (<[slug p:=body p]> insert_page_bodies, update_page_bodies)
      else (insert_page_bodies, <[slug p:=body p]> update_page_bodies)
  | _ => bodies
  end.

(** [SearchableContentApplication.save]; [super_save] is the [save] of
    [ContentManagementApplication]. *)
Definition save {R} (super_save : list (option saveable) → gmap string kwarg → R)
    (objs : list (option saveable)) (kwargs : gmap string kwarg) : R :=
  let '(insert_page_bodies, update_page_bodies) := foldl save_step (∅, ∅) objs in
  let kwargs := <["insert_page_bodies":=Bodies insert_page_bodies]> kwargs in
  let kwargs := <["update_page_bodies":=Bodies update_page_bodies]> kwargs in
  super_save objs kwargs.

(** [SearchableContentApplication.search]; [search_page_bodies] is the
    recorder's method and [get_page_details] the application's. *)
Definition search {D} (search_page_bodies : string → result (list string))
    (get_page_details : string → result D) (query : string) : result (list D) :=
  slugs ← search_page_bodies query;
  foldl (λ (pages : result (list D)) (slug : string),
           pages ← pages; page ← get_page_details slug; Ok (pages ++ [page])%list)
        (Ok []) slugs.

(** The pages among the arguments of [save], in order. *)
Definition pages (objs : list (option saveable)) : list Page :=
  omap (λ obj, match obj with Some (APage p) => Some p | _ => None end) objs.

(** The body of the last page of a list that has the given slug and is new,
    or is not new. *)
Definition last_body (new : bool) (s : string) (ps : list Page) : option string :=
  body <$> last (filter (λ p, is_new p = new ∧ slug p = s) ps).

End SearchableContentApplication.

(** ** A small program *)

(** A program with one module, [shop], for the examples.  The library
    functions are given as far as the examples use them. *)
Module Shop.

(** [class Money: def __init__(self): self.amount = 0] *)
Definition Money : pyclass :=
  {| cls_module := "shop"; cls_qualname := "Money";
     cls_is_domain_event := false; cls_always_encrypt := false;
     cls_new := NewDict;
     cls_call := λ kwargs,
       if decide (size kwargs = 0%nat)
       then Ok (VObj "shop" "Money" {[ "amount" := VInt 0 ]})
       else Err (TypeError "__init__() got an unexpected keyword argument") |}.

(** [class Order: class Placed(DomainEvent): pass] *)
Definition Placed : pyclass :=
  {| cls_module := "shop"; cls_qualname := "Order.Placed";
     cls_is_domain_event := true; cls_always_encrypt := false;
     cls_new := NewDict;
     cls_call := λ kwargs, Ok (VObj "shop" "Order.Placed" kwargs) |}.

(** [class Order: class Paid(DomainEvent): always_encrypt = True] *)
Definition Paid : pyclass :=
  {| cls_module := "shop"; cls_qualname := "Order.Paid";
     cls_is_domain_event := true; cls_always_encrypt := true;
     cls_new := NewDict;
     cls_call := λ kwargs, Ok (VObj "shop" "Order.Paid" kwargs) |}.

(** A member of the event family declared with [__slots__], whose
    instances have no [__dict__]. *)
Definition Archived : pyclass :=
  {| cls_module := "shop"; cls_qualname := "Order.Archived";
     cls_is_domain_event := true; cls_always_encrypt := false;
     cls_new := NewSlots;
     cls_call := λ kwargs, Ok (VObj "shop" "Order.Archived" ∅) |}.

(** [class OrderPlaced(DomainEvent): pass], a class of the module's top
    level. *)
Definition OrderPlaced : pyclass :=
  {| cls_module := "shop"; cls_qualname := "OrderPlaced";
     cls_is_domain_event := true; cls_always_encrypt := false;
     cls_new := NewDict;
     cls_call := λ kwargs, Ok (VObj "shop" "OrderPlaced" kwargs) |}.

Definition digit (c : ascii) : option Z :=
  let n := Z.of_nat (nat_of_ascii c) in
  if decide (48 ≤ n ≤ 57)%Z then Some (n - 48)%Z else None.

Fixpoint number (acc : Z) (s : string) : option Z :=
  match s with
  | EmptyString => Some acc
  | String c s' => d ← digit c; number (10 * acc + d) s'
  end.

(** [strptime(s, '%Y-%m-%d').date()] on the strings [isoformat] writes. *)
Definition strptime_ymd (s : string) : result date :=
  match split "-" s with
  | [y; m; d] =>
      match number 0 y, number 0 m, number 0 d with
      | Some y, Some m, Some d =>
          if decide (1 ≤ y ≤ 9999 ∧ 1 ≤ m ≤ 12 ∧ 1 ≤ d ≤ 31)%Z
          then Ok (Date y m d)
          else Err (ValueError (Builtin "day is out of range"))
      | _, _, _ => Err (ValueError (Builtin "time data does not match format"))
      end
  | _ => Err (ValueError (Builtin "time data does not match format"))
  end.

Fixpoint zeros (n : nat) : string :=
  match n with
  | 0 => EmptyString
  | S n => String "0" (zeros n)
  end.

Definition pad (width : nat) (n : Z) : string :=
  let s := pretty n in zeros (width - String.length s) ++ s.

Definition isoformat_ymd (d : date) : string :=
  pad 4 (year d) ++ "-" ++ pad 2 (month d) ++ "-" ++ pad 2 (day d).

Definition shop : gmap string symbol :=
  {[ "Money" := SymType Money;
     "Order.Placed" := SymType Placed;
     "Order.Paid" := SymType Paid;
     "Order.Archived" := SymType Archived;
     "OrderPlaced" := SymType OrderPlaced;
     "VERSION" := SymOther (VStr "1.0") ]}.

Definition program : World :=
  {| modules := {[ "shop" := shop ]};
     topics := {[ "shop.Money" := SymType Money;
                  "shop.Order.Placed" := SymType Placed;
                  "shop.Order.Paid" := SymType Paid;
                  "shop.Order.Archived" := SymType Archived;
                  "shop.OrderPlaced" := SymType OrderPlaced;
                  "shop.VERSION" := SymOther (VStr "1.0") ]};
     numpy := None;
     strftime := λ t, isoformat_ymd (dt_date t);
     isoformat := isoformat_ymd;
     dateutil_parse := λ s, Err (ValueError (Builtin "Unknown string format"));
     strptime_date := strptime_ymd;
     repr := type_name;
     recursionlimit := 1000 |}.

(** A cipher that seals a text in an envelope. *)
Definition envelope : Cipher :=
  {| encrypt := λ t,
       match t with
       | TJson doc => TJson (JArr [JStr "sealed"; doc])
       | TRaw s => TJson (JArr [JStr "sealed raw"; JStr s])
       end;
     decrypt := λ t,
       match t with
       | TJson (JArr [JStr "sealed"; doc]) => TJson doc
       | TJson (JArr [JStr "sealed raw"; JStr s]) => TRaw s
       | _ => TRaw ""
       end |}.

(** A transcoder as [Transcoder(cipher=..., always_encrypt=...)] makes it,
    in a class with the given two class attributes. *)
Definition transcoder (without_json with_uuid1 : bool)
    (c : option Cipher) (always : bool) : Transcoder :=
  {| serialize_without_json := without_json;
     serialize_with_uuid1 := with_uuid1;
     json_encoder_cls := None;
     json_decoder_cls := None;
     cipher := c;
     always_encrypt := always |}.

(** An [Order.Placed] event and the store that holds its attributes. *)
Definition placed_attrs : attrs :=
  {[ "domain_event_id" := VStr "0001";
     "entity_id" := VStr "ord-1";
     "total" := VInt 1999;
     "lines" := VList [VStr "tea"; VStr "cup"] ]}.

Definition placed : instance :=
  {| inst_class := Placed; inst_dict := Some 1%positive |}.

Definition paid : instance :=
  {| inst_class := Paid; inst_dict := Some 1%positive |}.

Definition store : gmap loc attrs := {[ 1%positive := placed_attrs ]}.

Definition state (t : Transcoder) : PyState := {| self := t; heap := store |}.

(** The float [19.99]: the nearest value of 64 bits,
    [0x1.3fd70a3d70a3dp+4]. *)
Definition total : float := SpecFloat.S754_finite false 5626684784446013 (-48).

(** An [OrderPlaced] event with a price, and a state whose store holds
    its attributes. *)
Definition order_attrs : attrs :=
  {[ "domain_event_id" := VStr "0003";
     "entity_id" := VStr "ord-1";
     "total" := VFloat total ]}.

Definition order_placed : instance :=
  {| inst_class := OrderPlaced; inst_dict := Some 1%positive |}.

Definition order_store : gmap loc attrs := {[ 1%positive := order_attrs ]}.

Definition order_state (t : Transcoder) : PyState :=
  {| self := t; heap := order_store |}.

(** A stored event of the given topic, with a small JSON payload. *)
Definition stored (topic : string) : StoredEvent :=
  {| event_id := VStr "0001";
     stored_entity_id := "Order::ord-1";
     event_topic := topic;
     event_attrs := PText (TJson (JObj {[ "entity_id" := JStr "ord-1" ]})) |}.

(** The attributes of an event that holds a tuple and an object. *)
Definition basket_attrs : attrs :=
  {[ "domain_event_id" := VStr "0002";
     "entity_id" := VStr "ord-1";
     "lines" := VTuple [VStr "tea"; VStr "cup"];
     "price" := VObj "shop" "Money" {[ "amount" := VInt 5 ]} ]}.

Definition basket_state (t : Transcoder) : PyState :=
  {| self := t; heap := {[ 1%positive := basket_attrs ]} |}.

(** A stored event whose payload is the JSON text of a list. *)
Definition stored_list : StoredEvent :=
  {| event_id := VStr "0001";
     stored_entity_id := "Order::ord-1";
     event_topic := "shop.Order.Placed";
     event_attrs := PText (TJson (JArr [JInt 1])) |}.

End Shop.

(** * Properties *)

(** ** Traversals *)

Lemma mapM_ok {A B} (f : A → result B) (g : A → B) (l : list A) :
  Forall (λ x, f x = Ok (g x)) l → mapM f l = Ok (g <$> l).
Proof.
  induction 1 as [|x l Hx _ IH]; [done|].
  cbn. rewrite Hx. cbn. rewrite IH. done.
Qed.

Lemma map_mapM_ok {A B} (f : A → result B) (g : A → B) (m : gmap string A) :
  map_Forall (λ _ x, f x = Ok (g x)) m → map_mapM f m = Ok (g <$> m).
Proof.
  unfold map_mapM.
  apply (map_fold_weak_ind
    (λ r m, map_Forall (λ _ x, f x = Ok (g x)) m → r = Ok (g <$> m))).
  - intros _. by rewrite fmap_empty.
  - intros i x m' r Hi IH Hall.
    apply map_Forall_insert in Hall as [Hx Hm]; [|done].
    rewrite (IH Hm). cbn. rewrite Hx. cbn. by rewrite fmap_insert.
Qed.

Lemma foldr_and_Forall {A} (P : A → Prop) (l : list A) :
  foldr (λ x Q, P x ∧ Q) True l ↔ Forall P l.
Proof.
  induction l as [|x l IH]; cbn.
  - split; [constructor|done].
  - rewrite IH, Forall_cons. done.
Qed.

Lemma map_fold_and_Forall {A} (P : A → Prop) (m : gmap string A) :
  map_fold (λ _ x Q, P x ∧ Q) True m ↔ map_Forall (λ _, P) m.
Proof.
  apply (map_fold_weak_ind (λ r m, r ↔ map_Forall (λ _, P) m)).
  - split; [intros _; apply map_Forall_empty|done].
  - intros i x m' r Hi IH. rewrite map_Forall_insert by done. by rewrite IH.
Qed.

Lemma foldr_max_le {A} (f : A → nat) (l : list A) (x : A) :
  x ∈ l → (f x ≤ foldr (λ y n, f y `max` n) 0 l)%nat.
Proof.
  induction 1 as [|x y l _ IH]; cbn; lia.
Qed.

Lemma map_fold_max_le {A} (f : A → nat) (m : gmap string A) k (x : A) :
  m !! k = Some x → (f x ≤ map_fold (λ _ y n, f y `max` n) 0 m)%nat.
Proof.
  revert k x.
  apply (map_fold_weak_ind (λ r m, ∀ k x, m !! k = Some x → (f x ≤ r)%nat)).
  - intros k x. by rewrite lookup_empty.
  - intros i y m' r Hi IH k x. rewrite lookup_insert.
    case_decide; intros Hk; simplify_eq.
    + lia.
    + specialize (IH _ _ Hk). lia.
Qed.

(** ** The store *)

Lemma fresh_loc_ne (h : gmap loc attrs) (l : loc) (d : attrs) :
  h !! l = Some d → fresh (dom h) ≠ l.
Proof.
  intros Hl Heq.
  apply (is_fresh (dom h)). rewrite Heq. apply elem_of_dom. eauto.
Qed.

Lemma fresh_loc_None (h : gmap loc attrs) : h !! fresh (dom h) = None.
Proof. apply not_elem_of_dom, is_fresh. Qed.

(** ** [serialize], step by step *)

Ltac unfold_py :=
  unfold mbind, Py_bind, mret, Py_ret, raise, lift,
    get_self, set_self, read, alloc, write; cbn.

(** A call that returns a record has found the dictionary of the event,
    its identifier, its prefix and its entity id. *)
Lemma serialize_Ok `{World} u e s r s' :
  serialize u e s = (Ok r, s') →
  ∃ l d prefix entity_id,
    inst_dict e = Some l ∧ heap s !! l = Some d ∧
    id_prefix_from_event e = Ok prefix ∧
    d !! "entity_id" = Some entity_id ∧
    (serialize_with_uuid1 (self s) = true → is_Some (d !! "domain_event_id")).
Proof.
  destruct s as [t h].
  unfold serialize, DomainEvent_entity_id, get_dict, dict_pop, default_json_encoder_cls.
  unfold_py.
  destruct (inst_dict e) as [l|] eqn:Hl; cbn; [|done].
  destruct (h !! l) as [d|] eqn:Hd; cbn; [|done].
  pose proof (fresh_loc_ne h l d Hd) as Hne.
  destruct (serialize_with_uuid1 t) eqn:Hu; cbn;
    rewrite ?lookup_insert_eq; cbn;
    [destruct (d !! "domain_event_id") as [i|] eqn:Hi; cbn; [|done]|];
    (destruct (id_prefix_from_event e) as [p|] eqn:Hp; cbn; [|done]);
    rewrite ?insert_insert_eq, lookup_insert_ne by done; rewrite Hd; cbn;
    (destruct (d !! "entity_id") as [eid|] eqn:He; cbn; [|done]);
    intros _; eexists l, d, p, eid; by eauto 10.
Qed.

(** What a call does once these are found. *)
Lemma serialize_run `{World} u e t h l d prefix entity_id :
  inst_dict e = Some l → h !! l = Some d →
  id_prefix_from_event e = Ok prefix →
  d !! "entity_id" = Some entity_id →
  (serialize_with_uuid1 t = true → is_Some (d !! "domain_event_id")) →
  let l' := fresh (dom h) in
  let d' := if serialize_with_uuid1 t then delete "domain_event_id" d else d in
  let record p :=
    {| event_id := if serialize_with_uuid1 t
                   then default VNone (d !! "domain_event_id") else VStr u;
       stored_entity_id := make_stored_entity_id (VStr prefix) entity_id;
       event_topic := topic_from_domain_class (inst_class e);
       event_attrs := p |} in
  serialize u e {| self := t; heap := h |} =
    if serialize_without_json t
    then (Ok (record (PDict l')), {| self := t; heap := <[l':=d']> h |})
    else
      let s' := {| self := with_encoder_default t; heap := <[l':=d']> h |} in
      match json_dumps (default ObjectJSONEncoder (json_encoder_cls t)) (VDict d') with
      | Err x => (Err x, s')
      | Ok text =>
          if always_encrypt t || cls_always_encrypt (inst_class e) then
            match cipher t with
            | None => (Err (ValueError CantEncrypt), s')
            | Some c => (Ok (record (PText (encrypt c text))), s')
            end
          else (Ok (record (PText text)), s')
      end.
Proof.
  intros Hl Hd Hp He Hi.
  pose proof (fresh_loc_ne h l d Hd) as Hne.
  unfold serialize, DomainEvent_entity_id, get_dict, dict_pop, default_json_encoder_cls.
  unfold_py. rewrite Hl. cbn. rewrite Hd. cbn.
  assert (Hself : ∀ cls, json_encoder_cls t = Some cls → with_encoder_default t = t).
  { intros cls Hc. unfold with_encoder_default. destruct t; cbn in *. by subst. }
  destruct (serialize_with_uuid1 t) eqn:Hu; cbn;
    rewrite ?lookup_insert_eq; cbn;
    [destruct Hi as [i Hi]; [done|]; rewrite Hi; cbn|];
    rewrite Hp; cbn;
    rewrite ?insert_insert_eq, lookup_insert_ne by done; rewrite Hd; cbn;
    rewrite He; cbn;
    (destruct (serialize_without_json t) eqn:Hw; cbn; [done|]);
    destruct (json_encoder_cls t) as [cls|] eqn:Hc; cbn;
    rewrite lookup_insert_eq; cbn;
    rewrite ?(Hself cls) by done;
    destruct (json_dumps _ _) as [tx|]; cbn;
    destruct (always_encrypt t || cls_always_encrypt (inst_class e)); cbn;
    try destruct (cipher t) as [c|] eqn:Hci; cbn;
    try done;
    unfold with_encoder_default; rewrite ?Hu, ?Hw, ?Hc, ?Hci; done.
Qed.

(** Whatever a call does, it writes to a new dictionary only, and changes
    the transcoder at most by the default encoder class. *)
Lemma serialize_frame `{World} u e s :
  (∀ l, is_Some (heap s !! l) →
        heap (serialize u e s).2 !! l = heap s !! l) ∧
  (self (serialize u e s).2 = self s ∨
   self (serialize u e s).2 = with_encoder_default (self s)).
Proof.
  destruct s as [t h].
  assert (Hfr : ∀ (d : attrs) l, is_Some (h !! l) →
            <[fresh (dom h):=d]> h !! l = h !! l).
  { intros d l [d0 Hd0]. rewrite lookup_insert_ne; [done|].
    by eapply fresh_loc_ne. }
  unfold serialize, DomainEvent_entity_id, get_dict, dict_pop, default_json_encoder_cls.
  unfold_py.
  destruct (inst_dict e) as [l|] eqn:Hl; cbn; [|by split; eauto].
  destruct (h !! l) as [d|] eqn:Hd; cbn; [|by split; eauto].
  pose proof (fresh_loc_ne h l d Hd) as Hne.
  destruct (serialize_with_uuid1 t) eqn:Hu; cbn;
    rewrite ?lookup_insert_eq; cbn;
    [destruct (d !! "domain_event_id") as [i|] eqn:Hi; cbn|];
    try (destruct (id_prefix_from_event e) as [p|] eqn:Hp; cbn);
    rewrite ?insert_insert_eq, ?lookup_insert_ne by done; rewrite ?Hd; cbn;
    try (destruct (d !! "entity_id") as [eid|] eqn:He; cbn);
    try (destruct (serialize_without_json t) eqn:Hw; cbn);
    try (destruct (json_encoder_cls t) as [cls|] eqn:Hc; cbn;
    rewrite lookup_insert_eq; cbn;
    destruct (json_dumps _ _) as [tx|]; cbn;
    destruct (always_encrypt t || cls_always_encrypt (inst_class e)); cbn;
    try destruct (cipher t) as [c|] eqn:Hci; cbn);
    (split; [intros; by rewrite ?Hfr by done|]);
    unfold with_encoder_default; rewrite ?Hu, ?Hw, ?Hc, ?Hci; by eauto.
Qed.

(** A run whose result is known. *)
Lemma run_eq {A} (x : result A * PyState) (a : A) : x.1 = Ok a → x = (Ok a, x.2).
Proof. destruct x as [r s]. cbn. by intros ->. Qed.

(** The fields of a record that [serialize] returns. *)
Lemma serialize_Ok_fields `{World} u e s r s' :
  serialize u e s = (Ok r, s') →
  ∃ l d prefix entity_id,
    inst_dict e = Some l ∧ heap s !! l = Some d ∧
    id_prefix_from_event e = Ok prefix ∧
    d !! "entity_id" = Some entity_id ∧
    event_id r = (if serialize_with_uuid1 (self s)
                  then default VNone (d !! "domain_event_id") else VStr u) ∧
    stored_entity_id r = make_stored_entity_id (VStr prefix) entity_id ∧
    event_topic r = topic_from_domain_class (inst_class e) ∧
    if serialize_without_json (self s)
    then event_attrs r = PDict (fresh (dom (heap s)))
    else ∃ text,
      json_dumps (default ObjectJSONEncoder (json_encoder_cls (self s)))
        (VDict (if serialize_with_uuid1 (self s)
                then delete "domain_event_id" d else d)) = Ok text ∧
      if always_encrypt (self s) || cls_always_encrypt (inst_class e)
      then ∃ c, cipher (self s) = Some c ∧ event_attrs r = PText (encrypt c text)
      else event_attrs r = PText text.
Proof.
  intros Hrun.
  destruct (serialize_Ok _ _ _ _ _ Hrun) as (l & d & p & eid & Hl & Hd & Hp & He & Hi).
  exists l, d, p, eid. destruct s as [t h]; cbn in *.
  rewrite (serialize_run u e t h l d p eid Hl Hd Hp He Hi) in Hrun.
  cbn in Hrun.
  destruct (serialize_without_json t); [by simplify_eq|].
  destruct (json_dumps _ _) as [tx|]; [|done].
  destruct (always_encrypt t || cls_always_encrypt (inst_class e));
    [destruct (cipher t) as [c|]; [|done]|];
    simplify_eq; cbn; eauto 20.
Qed.

(** ** Stored entity ids *)

Lemma split_cons sep s : ∃ h t, split sep s = h :: t.
Proof. induction s as [|c s [h [t IH]]]; cbn; [by eauto|]. rewrite IH. destruct (Ascii.eqb c sep); eauto. Qed.

(** The first item of [s.split(sep)] is the part of [s] before the first
    separator: it holds no separator, and [s] is that part, or that part
    followed by a separator and the rest. *)
Lemma split_first sep s h t :
  split sep s = h :: t →
  is_substring (String sep EmptyString) h = false ∧
  (s = h ∧ t = [] ∨ ∃ rest, s = h ++ String sep rest).
Proof.
  revert h t. induction s as [|c s IH]; cbn; intros h t.
  - intros [= <- <-]. auto.
  - destruct (Ascii.eqb c sep) eqn:Hc.
    + apply Ascii.eqb_eq in Hc as ->. intros [= <- <-]. split; [done|].
      right. by exists s.
    + destruct (split_cons sep s) as (h' & t' & Hs). rewrite Hs.
      intros [= <- <-]. destruct (IH _ _ Hs) as [Hno Hor]. split.
      * cbn. rewrite Ascii.eqb_sym, Hc. cbn. done.
      * destruct Hor as [[-> ->]|[rest ->]]; [by left|right]. by exists rest.
Qed.

(** In a text without a colon followed by a colon and more, the part
    before the colon is determined. *)
Lemma app_colon_inj (p1 p2 r1 r2 : string) :
  is_substring ":" p1 = false → is_substring ":" p2 = false →
  p1 ++ String ":"%char r1 = p2 ++ String ":"%char r2 →
  p1 = p2 ∧ r1 = r2.
Proof.
  revert p2. induction p1 as [|a p1 IH]; intros [|b p2] H1 H2.
  - change (String ":"%char r1 = String ":"%char r2 → "" = "" ∧ r1 = r2).
    by intros [= ->].
  - change (String ":"%char r1 = String b (p2 ++ String ":"%char r2) →
            "" = String b p2 ∧ r1 = r2).
    intros [= <- _]. cbn in H2. discriminate H2.
  - change (String a (p1 ++ String ":"%char r1) = String ":"%char r2 →
            String a p1 = "" ∧ r1 = r2).
    intros [= -> _]. cbn in H1. discriminate H1.
  - change (String a (p1 ++ String ":"%char r1)
            = String b (p2 ++ String ":"%char r2) →
            String a p1 = String b p2 ∧ r1 = r2).
    intros [= -> Heq]. cbn in H1, H2.
    apply orb_false_iff in H1 as [_ H1]. apply orb_false_iff in H2 as [_ H2].
    destruct (IH p2 H1 H2 Heq) as [-> ->]. done.
Qed.

(** C7.  The stream key is a function of its two arguments: for every
    pair of values it is what [str] gives for the prefix, two colons and
    what [str] gives for the entity id, so for a prefix and an entity id
    that are strings it is the prefix, two colons and the entity id, and
    for an entity id that is an integer the prefix, two colons and its
    decimal digits.  The key keeps its two parts apart: two keys made from
    prefixes without a colon are the same only if the prefixes are the
    same and the entity ids are printed the same.  The prefix of an event
    class is a function of the class: for a member of the event family it
    is the outermost name of its qualified name, the part before the first
    dot; two classes of the same qualified name get the same prefix.  The
    [stored_entity_id] of a record that [serialize] returns is the key
    made of the prefix of the class of the event and of its [entity_id]
    attribute, whatever the transcoder, the draw and the rest of the
    store. *)
Theorem stored_entity_id_deterministic `{World} :
  (∀ id_prefix entity_id : pyval,
     make_stored_entity_id id_prefix entity_id
     = py_str id_prefix ++ "::" ++ py_str entity_id) ∧
  (∀ prefix entity_id : string,
     make_stored_entity_id (VStr prefix) (VStr entity_id)
     = prefix ++ "::" ++ entity_id) ∧
  (∀ (prefix : string) (entity_id : Z),
     make_stored_entity_id (VStr prefix) (VInt entity_id)
     = prefix ++ "::" ++ pretty entity_id) ∧
  (∀ (prefix1 prefix2 : string) (entity_id1 entity_id2 : pyval),
     is_substring ":" prefix1 = false → is_substring ":" prefix2 = false →
     make_stored_entity_id (VStr prefix1) entity_id1
     = make_stored_entity_id (VStr prefix2) entity_id2 →
     prefix1 = prefix2 ∧ py_str entity_id1 = py_str entity_id2) ∧
  (∀ c : pyclass, cls_is_domain_event c = true →
     ∃ prefix,
       id_prefix_from_event_class c = Ok prefix ∧
       is_substring "." prefix = false ∧
       (cls_qualname c = prefix ∨ ∃ rest, cls_qualname c = prefix ++ "." ++ rest)) ∧
  (∀ c1 c2 : pyclass,
     cls_qualname c1 = cls_qualname c2 →
     cls_is_domain_event c1 = cls_is_domain_event c2 →
     id_prefix_from_event_class c1 = id_prefix_from_event_class c2) ∧
  (∀ u e s r s',
     serialize u e s = (Ok r, s') →
     ∃ prefix entity_id,
       id_prefix_from_event_class (inst_class e) = Ok prefix ∧
       attribute s e "entity_id" = Some entity_id ∧
       stored_entity_id r = make_stored_entity_id (VStr prefix) entity_id).
Proof.
  split; [done|]. split; [done|]. split; [done|]. split; [|split; [|split]].
  - intros p1 p2 e1 e2 H1 H2. unfold make_stored_entity_id. cbn [py_str].
    change ("::" ++ py_str e1) with (String ":"%char (String ":"%char (py_str e1))).
    change ("::" ++ py_str e2) with (String ":"%char (String ":"%char (py_str e2))).
    intros Heq. destruct (app_colon_inj _ _ _ _ H1 H2 Heq) as [-> Hrest].
    split; [done|]. by injection Hrest.
  - intros c Hc. unfold id_prefix_from_event_class. rewrite Hc. cbn.
    destruct (split_cons "." (cls_qualname c)) as (h & t & Hs).
    rewrite Hs. cbn. exists h. split; [done|].
    destruct (split_first _ _ _ _ Hs) as [Hno Hor]. split; [done|].
    destruct Hor as [[-> _]|[rest ->]]; eauto.
  - intros c1 c2 Hq Hd. unfold id_prefix_from_event_class. by rewrite Hq, Hd.
  - intros u e s r s' Hrun.
    destruct (serialize_Ok_fields _ _ _ _ _ Hrun)
      as (l & d & p & eid & Hl & Hd & Hp & He & _ & Hid & _).
    exists p, eid. split; [|split; [|done]].
    + unfold id_prefix_from_event in Hp.
      by destruct (cls_is_domain_event (inst_class e)).
    + unfold attribute. rewrite Hl. cbn. rewrite Hd. done.
Qed.

Lemma stored_entity_id_deterministic_witness :
  (∃ r,
    (serialize (H:=Shop.program) "ffff" Shop.order_placed
      (Shop.order_state (Shop.transcoder false true None false))).1 = Ok r ∧
    stored_entity_id r = "OrderPlaced::ord-1") ∧
  make_stored_entity_id (H:=Shop.program) (VStr "Order") (VInt 7) = "Order::7" ∧
  ("Order" = "Order" ∧
   py_str (H:=Shop.program) (VStr "ord-1") = py_str (H:=Shop.program) (VStr "ord-1")).
Proof.
  destruct (stored_entity_id_deterministic (H:=Shop.program))
    as (_ & _ & Hint & Hinj & _ & _ & Hkey).
  split; [|split].
  - eassert (Hrun : (serialize (H:=Shop.program) "ffff" Shop.order_placed
        (Shop.order_state (Shop.transcoder false true None false))).1 = Ok _)
      by (vm_compute; reflexivity).
    eexists. split; [exact Hrun|].
    destruct (Hkey _ _ _ _ _ (run_eq _ _ Hrun)) as (prefix & eid & Hp & He & ->).
    vm_compute in Hp, He. injection Hp as <-. injection He as <-. reflexivity.
  - rewrite Hint. vm_compute. reflexivity.
  - apply (Hinj "Order" "Order" (VStr "ord-1") (VStr "ord-1"));
      [reflexivity|reflexivity|reflexivity].
Defined.

(** ** [deserialize], step by step *)

(** An instance that comes out of the last block is a bare instance of
    the class, made by [object.__new__]. *)
Lemma reinstantiate_Ok c topic p s e s' :
  reinstantiate c topic p s = (Ok e, s') →
  inst_class e = c ∧ cls_new c = NewDict ∧
  inst_dict e = Some (fresh (dom (heap s))).
Proof.
  destruct s as [t h].
  unfold reinstantiate, except_TypeError, object_new, get_dict, snapshot.
  destruct (cls_new c); unfold_py; cbn.
  - destruct (dict_update _ _ _) as [[[]|x] s1] eqn:Hup; cbn.
    + by intros [= <- <-].
    + destruct x; try done.
      destruct p; unfold_py; try done.
      by destruct (heap s1 !! l).
  - done.
  - destruct p; unfold_py; try done. by destruct (h !! l).
Qed.

Lemma reinstantiate_NewSlots c topic p s :
  cls_new c = NewSlots →
  reinstantiate c topic p s = (Err (AttributeError "__dict__"), s).
Proof.
  intros Hc. unfold reinstantiate, except_TypeError, object_new, get_dict.
  rewrite Hc. by unfold_py.
Qed.


Lemma reinstantiate_NewDict c topic d s :
  cls_new c = NewDict →
  reinstantiate c topic (PVal (VDict d)) s
  = (Ok {| inst_class := c; inst_dict := Some (fresh (dom (heap s))) |},
     {| self := self s; heap := <[fresh (dom (heap s)):=d]> (heap s) |}).
Proof.
  intros Hc. unfold reinstantiate, except_TypeError, object_new, get_dict, dict_update.
  rewrite Hc. unfold_py. rewrite lookup_insert_eq. cbn.
  by rewrite insert_insert_eq, (right_id_L ∅ (∪)).
Qed.

(** C4, as the code has it.  [deserialize] reports a topic that does not
    resolve to an event type in three ways, one per case, and coerces none
    of them.  When the resolver cannot locate the topic, the error it
    raises leaves [deserialize] as it is.  A symbol that is not a type is
    the built-in [ValueError] "Event class is not a type", and a type
    outside the event family is the built-in [ValueError] "Event class is
    not a DomainEvent": neither is a type resolution error.  In each case
    the state is left as it was.  In the one case that is left, a type of
    the family, the call goes on to decode the payload and to build the
    event, so the three cases are the only ones in which the resolution
    step raises; and a call that returns an event has resolved the topic
    to a type of the family, which is the class of the event. *)
Theorem deserialize_resolution_errors `{World} (stored_event : StoredEvent) (s : PyState) :
  (∀ x, resolve_domain_topic (event_topic stored_event) = Err x →
   deserialize stored_event s = (Err x, s)) ∧
  (∀ v, resolve_domain_topic (event_topic stored_event) = Ok (SymOther v) →
   deserialize stored_event s = (Err (ValueError (NotAType v)), s)) ∧
  (∀ c, resolve_domain_topic (event_topic stored_event) = Ok (SymType c) →
   cls_is_domain_event c = false →
   deserialize stored_event s
   = (Err (ValueError (NotADomainEvent (cls_module c) (cls_qualname c))), s)) ∧
  (∀ c, resolve_domain_topic (event_topic stored_event) = Ok (SymType c) →
   cls_is_domain_event c = true →
   deserialize stored_event s
   = (event_attrs ← decode_event_attrs (self s) c (event_attrs stored_event);
      event_attrs ← (if serialize_with_uuid1 (self s)
                     then setitem event_attrs "domain_event_id"
                            (event_id stored_event)
                     else mret event_attrs);
      reinstantiate c (event_topic stored_event) event_attrs) s) ∧
  (∀ e s', deserialize stored_event s = (Ok e, s') →
   ∃ c, resolve_domain_topic (event_topic stored_event) = Ok (SymType c) ∧
        cls_is_domain_event c = true ∧ inst_class e = c).
Proof.
  unfold deserialize.
  split_and!.
  - intros x ->. by unfold_py.
  - intros v ->. by unfold_py.
  - intros c -> Hc. unfold_py. by rewrite Hc.
  - intros c -> Hc. unfold_py. by rewrite Hc.
  - intros e s'.
    destruct (resolve_domain_topic (event_topic stored_event)) as [[c|v]|x];
      unfold_py; try done.
    destruct (cls_is_domain_event c) eqn:Hc; cbn; [|done].
    destruct (decode_event_attrs _ _ _ _) as [[p|x] s1]; cbn; [|done].
    match goal with |- context [?m s1] =>
      destruct (m s1) as [[p'|x] s2] end; cbn; [|done].
    intros Hre. apply reinstantiate_Ok in Hre as (? & ? & ?). eauto.
Qed.

Lemma deserialize_resolution_errors_witness :
  deserialize (H:=Shop.program) (Shop.stored "shop.Nothing")
    (Shop.state (Shop.transcoder false true None false))
  = (Err (TopicResolutionError "shop.Nothing"),
     Shop.state (Shop.transcoder false true None false)) ∧
  deserialize (H:=Shop.program) (Shop.stored "shop.VERSION")
    (Shop.state (Shop.transcoder false true None false))
  = (Err (ValueError (NotAType (VStr "1.0"))),
     Shop.state (Shop.transcoder false true None false)) ∧
  deserialize (H:=Shop.program) (Shop.stored "shop.Money")
    (Shop.state (Shop.transcoder false true None false))
  = (Err (ValueError (NotADomainEvent "shop" "Money")),
     Shop.state (Shop.transcoder false true None false)).
Proof.
  split; [|split].
  - destruct (deserialize_resolution_errors (H:=Shop.program)
      (Shop.stored "shop.Nothing")
      (Shop.state (Shop.transcoder false true None false))) as (Hr & _).
    apply Hr. vm_compute. reflexivity.
  - destruct (deserialize_resolution_errors (H:=Shop.program)
      (Shop.stored "shop.VERSION")
      (Shop.state (Shop.transcoder false true None false))) as (_ & Hr & _).
    apply Hr. vm_compute. reflexivity.
  - destruct (deserialize_resolution_errors (H:=Shop.program)
      (Shop.stored "shop.Money")
      (Shop.state (Shop.transcoder false true None false))) as (_ & _ & Hr & _).
    apply (Hr Shop.Money); [vm_compute|]; reflexivity.
Defined.

(** A symbol that is not a type, and a type outside the event family, are
    reported by a [ValueError], the class of exception that [deserialize]
    raises for a missing cipher too, not by a type resolution error. *)
Lemma not_an_event_type_is_a_value_error :
  (deserialize (H:=Shop.program) (Shop.stored "shop.VERSION")
     (Shop.state (Shop.transcoder false true None false))).1
  = Err (ValueError (NotAType (VStr "1.0"))) ∧
  (deserialize (H:=Shop.program) (Shop.stored "shop.Money")
     (Shop.state (Shop.transcoder false true None false))).1
  = Err (ValueError (NotADomainEvent "shop" "Money")) ∧
  (deserialize (H:=Shop.program) (Shop.stored "shop.Order.Paid")
     (Shop.state (Shop.transcoder false true None false))).1
  = Err (ValueError CantDecrypt) ∧
  (∀ topic,
     (deserialize (H:=Shop.program) (Shop.stored "shop.VERSION")
        (Shop.state (Shop.transcoder false true None false))).1
     ≠ Err (TopicResolutionError topic) ∧
     (deserialize (H:=Shop.program) (Shop.stored "shop.Money")
        (Shop.state (Shop.transcoder false true None false))).1
     ≠ Err (TopicResolutionError topic)).
Proof.
  assert (H1 : (deserialize (H:=Shop.program) (Shop.stored "shop.VERSION")
     (Shop.state (Shop.transcoder false true None false))).1
    = Err (ValueError (NotAType (VStr "1.0")))) by (vm_compute; reflexivity).
  assert (H2 : (deserialize (H:=Shop.program) (Shop.stored "shop.Money")
     (Shop.state (Shop.transcoder false true None false))).1
    = Err (ValueError (NotADomainEvent "shop" "Money"))) by (vm_compute; reflexivity).
  split; [exact H1|]. split; [exact H2|]. split; [vm_compute; reflexivity|].
  intros topic. rewrite H1, H2. split; discriminate.
Qed.

(** C5.  Two stored events on which the failure to build the event is not
    reported as the [ValueError] "Unable to instantiate class" that
    carries the topic and the attributes.  The first names a member of the
    event family declared with fixed attributes: [object.__new__] gives an
    instance without a [__dict__], and reading [domain_event.__dict__]
    raises an [AttributeError], which the [except TypeError] clause does
    not catch.  The second holds a JSON list in the place of the attribute
    bag: in uuid1 mode the assignment of the identifier, which comes
    before the [try], raises a [TypeError] that leaves [deserialize] as it
    is, while in random-token mode the same payload reaches
    [__dict__.update] inside the [try] and is reported as the claim
    says. *)
Theorem deserialize_reconstruction_escapes :
  (deserialize (H:=Shop.program) (Shop.stored "shop.Order.Archived")
     (Shop.state (Shop.transcoder false true None false))).1
  = Err (AttributeError "__dict__") ∧
  (deserialize (H:=Shop.program) Shop.stored_list
     (Shop.state (Shop.transcoder false true None false))).1
  = Err (TypeError "list does not support item assignment") ∧
  (deserialize (H:=Shop.program) Shop.stored_list
     (Shop.state (Shop.transcoder false false None false))).1
  = Err (ValueError (UnableToInstantiate "shop.Order.Placed"
                       (PVal (VList [VInt 1])))).
Proof. split_and!; vm_compute; reflexivity. Qed.

(** ** Encryption *)

(** C2, as the code has it.  When the transcoder writes JSON
    ([serialize_without_json] is off) and the class of the event or the
    transcoder asks for encryption, the [event_attrs] of a record that
    [serialize] returns is what the cipher's [encrypt] gives for the JSON
    text of the attributes. *)
Theorem always_encrypt_ciphertext `{World} u e s r s' :
  serialize u e s = (Ok r, s') →
  serialize_without_json (self s) = false →
  always_encrypt (self s) || cls_always_encrypt (inst_class e) = true →
  ∃ c d text,
    cipher (self s) = Some c ∧ bag s e = Some d ∧
    json_dumps (default ObjectJSONEncoder (json_encoder_cls (self s)))
      (VDict (if serialize_with_uuid1 (self s)
              then delete "domain_event_id" d else d)) = Ok text ∧
    event_attrs r = PText (encrypt c text).
Proof.
  intros Hrun Hjson Henc.
  destruct (serialize_Ok_fields _ _ _ _ _ Hrun)
    as (l & d & p & eid & Hl & Hd & _ & _ & _ & _ & _ & Hp).
  rewrite Hjson, Henc in Hp. destruct Hp as (text & Hdumps & c & Hc & Hattrs).
  exists c, d, text. repeat split; try done.
  unfold bag. rewrite Hl. done.
Qed.

Lemma always_encrypt_ciphertext_witness :
  ∃ r,
    (serialize (H:=Shop.program) "ffff" Shop.paid
       (Shop.state (Shop.transcoder false true (Some Shop.envelope) false))).1 = Ok r ∧
    event_attrs r
    = PText (TJson (JArr [JStr "sealed";
               JObj {[ "entity_id" := JStr "ord-1";
                       "lines" := JArr [JStr "tea"; JStr "cup"];
                       "total" := JInt 1999 ]}])).
Proof.
  eassert (Hrun : (serialize (H:=Shop.program) "ffff" Shop.paid
       (Shop.state (Shop.transcoder false true (Some Shop.envelope) false))).1 = Ok _)
    by (vm_compute; reflexivity).
  eexists. split; [exact Hrun|].
  destruct (always_encrypt_ciphertext (H:=Shop.program) _ _ _ _ _
              (run_eq _ _ Hrun) eq_refl eq_refl)
    as (c & d & text & Hc & Hd & Hdumps & ->).
  injection Hc as <-. injection Hd as <-.
  vm_compute in Hdumps. injection Hdumps as <-.
  vm_compute. reflexivity.
Defined.

(** In pass-through mode nothing is encrypted: for an event of a class
    with [always_encrypt] set, a transcoder with [always_encrypt=True] and
    a cipher, the record holds the dictionary of the attributes as it
    is. *)
Lemma passthrough_keeps_cleartext :
  let x := serialize (H:=Shop.program) "ffff" Shop.paid
             (Shop.state (Shop.transcoder true true (Some Shop.envelope) true)) in
  ∃ r, x.1 = Ok r ∧
    (∀ text, event_attrs r ≠ PText (encrypt Shop.envelope text)) ∧
    content (heap x.2) (event_attrs r)
    = Some (PVal (VDict {[ "entity_id" := VStr "ord-1";
                           "lines" := VList [VStr "tea"; VStr "cup"];
                           "total" := VInt 1999 ]})).
Proof.
  eexists. split; [vm_compute; reflexivity|]. split.
  - intros text. cbn. discriminate.
  - vm_compute. reflexivity.
Qed.

(** The attributes of the event are as they were, whatever the call did. *)
Lemma serialize_bag `{World} u e s : bag (serialize u e s).2 e = bag s e.
Proof.
  destruct (serialize_frame u e s) as [Hframe _].
  unfold bag. destruct (inst_dict e) as [l|] eqn:Hl; cbn; [|done].
  destruct (heap s !! l) as [d|] eqn:Hd.
  - rewrite Hframe, Hd; eauto.
  - destruct s as [t h]. cbn in Hd.
    unfold serialize, get_dict. rewrite Hl. unfold_py. rewrite Hd. cbn. done.
Qed.

(** C3, as the code has it.  When the transcoder writes JSON, encryption is
    asked for and no cipher is configured, [serialize] never returns a
    record, every dictionary of the store, the attributes of the event
    among them, is as it was, and the error is the [ValueError] "Can't
    encrypt without a cipher" whenever the steps before the cipher check
    succeed: the event has its identifier (in uuid1 mode), a prefix and an
    entity id, and its attributes encode to JSON. *)
Theorem serialize_without_cipher `{World} u e s :
  serialize_without_json (self s) = false →
  cipher (self s) = None →
  always_encrypt (self s) || cls_always_encrypt (inst_class e) = true →
  (∀ r, (serialize u e s).1 ≠ Ok r) ∧
  (∀ l, is_Some (heap s !! l) → heap (serialize u e s).2 !! l = heap s !! l) ∧
  bag (serialize u e s).2 e = bag s e ∧
  (∀ d prefix entity_id text,
     bag s e = Some d →
     id_prefix_from_event e = Ok prefix →
     d !! "entity_id" = Some entity_id →
     (serialize_with_uuid1 (self s) = true → is_Some (d !! "domain_event_id")) →
     json_dumps (default ObjectJSONEncoder (json_encoder_cls (self s)))
       (VDict (if serialize_with_uuid1 (self s)
               then delete "domain_event_id" d else d)) = Ok text →
     (serialize u e s).1 = Err (ValueError CantEncrypt)).
Proof.
  intros Hjson Hcipher Henc.
  destruct (serialize_frame u e s) as [Hframe _].
  split; [|split; [done|split; [apply serialize_bag|]]].
  - intros r Hr. apply run_eq in Hr.
    destruct (serialize_Ok_fields _ _ _ _ _ Hr)
      as (l & d & p & eid & _ & _ & _ & _ & _ & _ & _ & Hp).
    rewrite Hjson, Henc in Hp. destruct Hp as (text & _ & c & Hc & _).
    congruence.
  - intros d p eid text Hbag Hp He Hi Hdumps.
    unfold bag in Hbag. destruct (inst_dict e) as [l|] eqn:Hl; [|done].
    cbn in Hbag. destruct s as [t h]. cbn in *.
    rewrite (serialize_run u e t h l d p eid Hl Hbag Hp He Hi). cbn.
    by rewrite Hjson, Hdumps, Henc, Hcipher.
Qed.

Lemma serialize_without_cipher_witness :
  (serialize (H:=Shop.program) "ffff" Shop.paid
     (Shop.state (Shop.transcoder false true None false))).1
  = Err (ValueError CantEncrypt).
Proof.
  destruct (serialize_without_cipher (H:=Shop.program) "ffff" Shop.paid
              (Shop.state (Shop.transcoder false true None false))
              eq_refl eq_refl eq_refl) as (_ & _ & _ & Hraise).
  eapply (Hraise Shop.placed_attrs "Order" (VStr "ord-1")).
  - reflexivity.
  - vm_compute. reflexivity.
  - vm_compute. reflexivity.
  - intros _. eexists. vm_compute. reflexivity.
  - vm_compute. reflexivity.
Defined.

(** In pass-through mode the cipher is never looked at: with encryption
    asked for and no cipher, [serialize] returns a record. *)
Lemma passthrough_needs_no_cipher :
  let x := serialize (H:=Shop.program) "ffff" Shop.paid
             (Shop.state (Shop.transcoder true true None true)) in
  cls_always_encrypt (inst_class Shop.paid) = true ∧
  cipher (self (Shop.state (Shop.transcoder true true None true))) = None ∧
  record_of x
  = Ok (VStr "0001", "Order::ord-1", "shop.Order.Paid",
        Some (PVal (VDict {[ "entity_id" := VStr "ord-1";
                             "lines" := VList [VStr "tea"; VStr "cup"];
                             "total" := VInt 1999 ]}))).
Proof. split; [reflexivity|split; [reflexivity|vm_compute; reflexivity]]. Qed.

(** ** The JSON codec *)

Lemma mapM_fmap_ok {A B} (f : B → result A) (h : A → B) (l : list A) :
  Forall (λ x, f (h x) = Ok x) l → mapM f (h <$> l) = Ok l.
Proof.
  induction 1 as [|x l Hx _ IH]; [done|].
  rewrite fmap_cons. cbn. rewrite Hx. cbn. rewrite IH. done.
Qed.

Lemma map_mapM_fmap_ok {A B} (f : B → result A) (h : A → B) (m : gmap string A) :
  map_Forall (λ _ x, f (h x) = Ok x) m → map_mapM f (h <$> m) = Ok m.
Proof.
  unfold map_mapM. rewrite map_fold_fmap.
  apply (map_fold_weak_ind
    (λ r m, map_Forall (λ _ x, f (h x) = Ok x) m → r = Ok m)).
  - done.
  - intros i x m' r Hi IH Hall.
    apply map_Forall_insert in Hall as [Hx Hm]; [|done].
    rewrite (IH Hm). cbn. rewrite Hx. done.
Qed.

(** A dictionary without a reserved key is handed back as it is. *)
Lemma from_jsonable_unreserved `{World} (d : attrs) :
  reserved d = false → from_jsonable (VDict d) = Ok (VDict d).
Proof.
  unfold reserved, has_key. intros Hr.
  apply orb_false_iff in Hr as [Hr Hdate].
  apply orb_false_iff in Hr as [Hr Hdatetime].
  apply orb_false_iff in Hr as [Hnd Hcls].
  cbn. rewrite Hnd. cbn.
  destruct (bool_decide (is_Some (d !! "__class__"))) eqn:Hc; cbn.
  - cbn in Hcls. rewrite Hcls. cbn. rewrite Hdatetime. cbn. rewrite Hdate. done.
  - rewrite Hdatetime. cbn. rewrite Hdate. done.
Qed.

Lemma levels_list_le l x n :
  (levels (VList l) ≤ S n)%nat → x ∈ l → (levels x ≤ n)%nat.
Proof.
  cbn. intros Hl Hx.
  pose proof (foldr_max_le levels l x Hx). lia.
Qed.

Lemma levels_dict_le (d : attrs) k x n :
  (levels (VDict d) ≤ S n)%nat → d !! k = Some x → (levels x ≤ n)%nat.
Proof.
  cbn. intros Hl Hx.
  pose proof (map_fold_max_le levels d k x Hx). lia.
Qed.

Lemma faithful_list `{World} l : faithful (VList l) ↔ Forall faithful l.
Proof. cbn. apply foldr_and_Forall. Qed.

Lemma faithful_dict `{World} (d : attrs) :
  faithful (VDict d) ↔ reserved d = false ∧ map_Forall (λ _, faithful) d.
Proof. cbn. by rewrite map_fold_and_Forall. Qed.

Lemma is_substring_app_r p x y :
  is_substring p y = true → is_substring p (x ++ y) = true.
Proof.
  intros Hy. induction x as [|c x IH]; [done|].
  change (String c x ++ y) with (String c (x ++ y)). cbn [is_substring].
  rewrite IH. apply orb_true_r.
Qed.

(** What [default] returns for the four kinds of special values. *)
Lemma default_datetime `{World} t :
  ObjectJSONEncoder_default (VDatetime t)
  = Ok (VDict {[ "ISO8601_datetime" := VStr (strftime t) ]}).
Proof. reflexivity. Qed.

Lemma default_date `{World} d :
  ObjectJSONEncoder_default (VDate d)
  = Ok (VDict {[ "ISO8601_date" := VStr (isoformat d) ]}).
Proof. reflexivity. Qed.

Lemma default_ndarray `{World} np a :
  numpy = Some np → ndim a = 1%nat →
  ObjectJSONEncoder_default (VNdarray a)
  = Ok (VDict {[ "__ndarray__" := VStr (np_save np a) ]}).
Proof.
  intros Hnp Hdim. unfold ObjectJSONEncoder_default.
  cbn. by rewrite Hnp, Hdim.
Qed.

Lemma default_object `{World} m q a :
  ObjectJSONEncoder_default (VObj m q a)
  = Ok (VDict {[ "__class__" := VStr q; "__module__" := VStr m ]}).
Proof.
  unfold ObjectJSONEncoder_default, JSONEncoder_default. cbn [type_name].
  rewrite is_substring_app_r by (by apply is_substring_app_r).
  cbn. by destruct numpy.
Qed.

(** A dictionary of strings, such as a tag, is encoded and decoded key by
    key. *)
Lemma encode_strings n (f : pyval → result pyval) (d : gmap string string) :
  encode (S (S n)) f (VDict (VStr <$> d)) = Ok (JObj (JStr <$> d)).
Proof.
  cbn [encode].
  rewrite (map_mapM_ok _ (λ v, match v with VStr s => JStr s | _ => JNull end)).
  - cbn. f_equal. f_equal. rewrite <-map_fmap_compose. done.
  - intros k x. rewrite lookup_fmap. destruct (d !! k); cbn; [|done].
    by intros [= <-].
Qed.

Lemma decode_strings (hook : pyval → result pyval) (d : gmap string string) :
  decode hook (JObj (JStr <$> d)) = hook (VDict (VStr <$> d)).
Proof.
  cbn [decode].
  rewrite (map_mapM_ok _ (λ v, match v with JStr s => VStr s | _ => VNone end)).
  - cbn. f_equal. f_equal. rewrite <-map_fmap_compose. done.
  - intros k x. rewrite lookup_fmap. destruct (d !! k); cbn; [|done].
    by intros [= <-].
Qed.

Lemma has_key_insert {A} (d : gmap string A) k k' v :
  has_key (<[k:=v]> d) k' = bool_decide (k = k') || has_key d k'.
Proof.
  unfold has_key. rewrite lookup_insert.
  case_decide as Hk.
  - rewrite (bool_decide_eq_true_2 (k = k')) by done.
    apply bool_decide_eq_true_2. eauto.
  - by rewrite (bool_decide_eq_false_2 (k = k')) by done.
Qed.

Lemma has_key_empty {A} k : has_key (∅ : gmap string A) k = false.
Proof. unfold has_key. rewrite lookup_empty. apply bool_decide_eq_false_2. by intros []. Qed.

Lemma has_key_singleton {A} k k' (v : A) :
  has_key ({[k := v]} : gmap string A) k' = bool_decide (k = k').
Proof.
  rewrite <-insert_empty, has_key_insert, has_key_empty. apply orb_false_r.
Qed.

(** [from_jsonable] looks at the keys of a dictionary only. *)
Lemma from_jsonable_dispatch `{World} (d : attrs) :
  from_jsonable (VDict d) =
    if has_key d "__ndarray__" then _decode_ndarray (VDict d)
    else if has_key d "__class__" && has_key d "__module__"
         then _decode_class (from_jsonable <$> d) (VDict d)
    else if has_key d "ISO8601_datetime" then _decode_datetime (VDict d)
    else if has_key d "ISO8601_date" then _decode_date (VDict d)
    else Ok (VDict d).
Proof.
  unfold has_key. cbn.
  destruct (bool_decide (is_Some (d !! "__ndarray__"))); cbn; [done|].
  destruct (bool_decide (is_Some (d !! "__class__"))); cbn;
    [destruct (bool_decide (is_Some (d !! "__module__"))); cbn; [done|]|];
    destruct (bool_decide (is_Some (d !! "ISO8601_datetime"))); cbn; try done;
    destruct (bool_decide (is_Some (d !! "ISO8601_date"))); cbn; done.
Qed.

Ltac keys :=
  rewrite ?has_key_insert, ?has_key_singleton, ?has_key_empty;
  repeat first
    [ rewrite bool_decide_eq_true_2 by done
    | rewrite bool_decide_eq_false_2 by done ];
  cbn [orb andb].

(** [ObjectJSONEncoder] writes the document of a faithful value, given
    enough of the recursion limit. *)
Lemma encode_document `{World} n v :
  (levels v ≤ n)%nat → faithful v →
  encode n ObjectJSONEncoder_default v = Ok (document v).
Proof.
  revert v. induction n as [|n IH]; intros v Hn Hv.
  { destruct v; cbn in Hn; lia. }
  destruct v as [| | | | |l|l|d|d|t|a|m q a]; try done.
  - apply faithful_list in Hv. cbn [encode document].
    rewrite (mapM_ok _ document); [done|].
    apply Forall_forall. intros x Hx. apply IH.
    + by eapply levels_list_le.
    + by eapply Forall_forall in Hv.
  - apply faithful_dict in Hv as [_ Hv]. cbn [encode document].
    rewrite (map_mapM_ok _ document); [done|].
    intros k x Hx. apply IH.
    + by eapply levels_dict_le.
    + by eapply Hv.
  - cbn in Hn. destruct n as [|[|n]]; [lia..|]. cbn [encode document].
    rewrite default_date. cbn [mbind result_bind].
    rewrite <-!map_fmap_singleton. apply encode_strings.
  - cbn in Hn. destruct n as [|[|n]]; [lia..|]. cbn [encode document].
    rewrite default_datetime. cbn [mbind result_bind].
    rewrite <-!map_fmap_singleton. apply encode_strings.
  - cbn in Hn. destruct n as [|[|n]]; [lia..|].
    destruct Hv as (Hdim & np & Hnp & _). cbn [encode document].
    rewrite (default_ndarray np) by done. rewrite Hnp. cbn [mbind result_bind].
    rewrite <-!map_fmap_singleton. apply encode_strings.
Qed.

(** [ObjectJSONDecoder] reads a faithful value back from its document. *)
Lemma decode_document `{World} n v :
  (levels v ≤ n)%nat → faithful v →
  decode from_jsonable (document v) = Ok v.
Proof.
  revert v. induction n as [|n IH]; intros v Hn Hv.
  { destruct v; cbn in Hn; lia. }
  destruct v as [| | | | |l|l|d|d|t|a|m q a]; try done.
  - apply faithful_list in Hv. cbn [decode document].
    rewrite mapM_fmap_ok; [done|].
    apply Forall_forall. intros x Hx. apply IH.
    + by eapply levels_list_le.
    + by eapply Forall_forall in Hv.
  - apply faithful_dict in Hv as [Hr Hv]. cbn [decode document].
    rewrite map_mapM_fmap_ok.
    + cbn. by apply from_jsonable_unreserved.
    + intros k x Hx. apply IH.
      * by eapply levels_dict_le.
      * by eapply Hv.
  - cbn [document]. rewrite <-map_fmap_singleton, decode_strings.
    rewrite map_fmap_singleton, from_jsonable_dispatch. keys.
    unfold _decode_date. cbn. rewrite lookup_singleton_eq. cbn.
    cbn in Hv. by rewrite Hv.
  - cbn [document]. rewrite <-map_fmap_singleton, decode_strings.
    rewrite map_fmap_singleton, from_jsonable_dispatch. keys.
    unfold _decode_datetime. cbn. rewrite lookup_singleton_eq. cbn.
    cbn in Hv. by rewrite Hv.
  - destruct Hv as (Hdim & np & Hnp & Hload). cbn [document]. rewrite Hnp.
    rewrite <-map_fmap_singleton, decode_strings.
    rewrite map_fmap_singleton, from_jsonable_dispatch. keys.
    unfold _decode_ndarray. cbn. rewrite lookup_singleton_eq. cbn.
    by rewrite Hnp, Hload.
Qed.

(** What goes through [json.dumps] and [json.loads] with the two codec
    classes of the module comes back as it was, for a faithful value that
    fits the recursion limit. *)
Lemma json_roundtrip `{World} v :
  (levels v ≤ recursionlimit)%nat → faithful v →
  json_dumps ObjectJSONEncoder v = Ok (TJson (document v)) ∧
  json_loads ObjectJSONDecoder (TJson (document v)) = Ok v.
Proof.
  intros Hn Hv. split.
  - unfold json_dumps. cbn. by rewrite encode_document.
  - cbn. by eapply decode_document.
Qed.

(** ** The generic object hook *)

Lemma class_tag_strings (m q : string) :
  ({[ "__class__" := VStr q; "__module__" := VStr m ]} : attrs)
  = VStr <$> ({[ "__class__" := q; "__module__" := m ]} : gmap string string).
Proof. by rewrite fmap_insert, map_fmap_singleton. Qed.

Lemma bind_Ok {A B} (a : A) (f : A → result B) : Ok a ≫= f = f a.
Proof. done. Qed.

Lemma fmap_Ok {A B} (a : A) (f : A → B) : f <$> Ok a = Ok (f a).
Proof. done. Qed.

Lemma encode_object n f m q a :
  encode (S n) f (VObj m q a) = f (VObj m q a) ≫= encode n f.
Proof. done. Qed.

(** Decoding a tag that holds the two names only. *)
Lemma from_jsonable_class_tag `{World} m q md cls :
  import_module (VStr m) = Ok md →
  resolve_attr md (VStr q) = Ok cls →
  from_jsonable (VDict {[ "__class__" := VStr q; "__module__" := VStr m ]})
  = call cls ∅.
Proof.
  intros Him Hre. rewrite from_jsonable_dispatch. keys.
  unfold _decode_class. cbn [py_pop].
  rewrite lookup_insert_eq. cbn [mbind result_bind].
  rewrite delete_insert_eq, delete_singleton_ne by done. cbn [py_pop].
  rewrite lookup_singleton_eq. cbn [mbind result_bind].
  rewrite Him. cbn [mbind result_bind]. rewrite Hre. cbn [mbind result_bind].
  rewrite delete_singleton_eq.
  destruct (call cls ∅) as [obj|x]; done.
Qed.

(** C10.  For an object that the last branch of [default] encodes, the
    encoded form holds the qualified class name and the module name and
    nothing of the attributes: two objects of a class are written as the
    same text.  Decoding that form calls what the two names resolve to
    with no keyword argument, and that call is the whole outcome, so what
    comes back through JSON is what the constructor builds by itself, not
    the attributes the object had. *)
Theorem class_tag_drops_attributes `{World} :
  (∀ m q a,
     ObjectJSONEncoder_default (VObj m q a)
     = Ok (VDict {[ "__class__" := VStr q; "__module__" := VStr m ]})) ∧
  (∀ m q a a',
     json_dumps ObjectJSONEncoder (VObj m q a)
     = json_dumps ObjectJSONEncoder (VObj m q a')) ∧
  (∀ m q md cls,
     import_module (VStr m) = Ok md →
     resolve_attr md (VStr q) = Ok cls →
     from_jsonable (VDict {[ "__class__" := VStr q; "__module__" := VStr m ]})
     = call cls ∅) ∧
  (∀ m q a md cls,
     (3 ≤ recursionlimit)%nat →
     import_module (VStr m) = Ok md →
     resolve_attr md (VStr q) = Ok cls →
     (text ← json_dumps ObjectJSONEncoder (VObj m q a);
      json_loads ObjectJSONDecoder text) = call cls ∅).
Proof.
  split; [apply default_object|]. split; [|split].
  - intros m q a a'. unfold json_dumps.
    destruct recursionlimit as [|n]; [done|].
    cbn [ObjectJSONEncoder enc_default]. by rewrite !encode_object, !default_object.
  - apply from_jsonable_class_tag.
  - intros m q a md cls Hn Him Hre. unfold json_dumps.
    destruct recursionlimit as [|[|[|n]]]; [lia..|].
    cbn [ObjectJSONEncoder enc_default].
    rewrite encode_object, default_object, bind_Ok.
    rewrite class_tag_strings, encode_strings, fmap_Ok, bind_Ok.
    cbn [json_loads ObjectJSONDecoder object_hook default].
    rewrite decode_strings, <-class_tag_strings.
    by eapply from_jsonable_class_tag.
Qed.

Lemma class_tag_drops_attributes_witness :
  (text ← json_dumps (H:=Shop.program) (ObjectJSONEncoder (H:=Shop.program))
            (VObj "shop" "Money" {[ "amount" := VInt 5 ]});
   json_loads (ObjectJSONDecoder (H:=Shop.program)) text)
  = Ok (VObj "shop" "Money" {[ "amount" := VInt 0 ]}).
Proof.
  destruct (class_tag_drops_attributes (H:=Shop.program)) as (_ & _ & _ & Hloss).
  rewrite (Hloss "shop" "Money" _ Shop.shop (SymType Shop.Money)).
  - reflexivity.
  - cbn. lia.
  - reflexivity.
  - reflexivity.
Defined.

(** The first tier: the constructor takes the attributes that are left. *)
Lemma decode_class_constructor `{World} (d : attrs) class_name module_name md cls obj :
  d !! "__ndarray__" = None →
  d !! "__class__" = Some class_name →
  d !! "__module__" = Some module_name →
  import_module module_name = Ok md →
  resolve_attr md class_name = Ok cls →
  call cls (delete "__module__" (delete "__class__" d)) = Ok obj →
  from_jsonable (VDict d) = Ok obj.
Proof.
  intros Hnd Hc Hm Him Hre Hcall.
  rewrite from_jsonable_dispatch. unfold has_key. rewrite Hnd, Hc, Hm.
  rewrite bool_decide_eq_false_2 by (by intros []).
  rewrite !bool_decide_eq_true_2 by eauto. cbn [andb].
  unfold _decode_class. cbn [py_pop]. rewrite Hc. cbn [mbind result_bind].
  rewrite lookup_delete_ne, Hm by done. cbn [mbind result_bind].
  rewrite Him. cbn [mbind result_bind]. rewrite Hre. cbn [mbind result_bind].
  by rewrite Hcall.
Qed.

(** The second tier: when the constructor raised, an attribute whose value
    is a number stops the loop, since [from_jsonable] asks whether a key
    is [in] the number. *)
Lemma decode_class_fallback_number `{World} (d : attrs) class_name module_name md cls x attr n :
  d !! "__ndarray__" = None →
  d !! "__class__" = Some class_name →
  d !! "__module__" = Some module_name →
  import_module module_name = Ok md →
  resolve_attr md class_name = Ok cls →
  call cls (delete "__module__" (delete "__class__" d)) = Err x →
  attr ≠ "__class__" → attr ≠ "__module__" →
  d !! attr = Some (VInt n) →
  ∃ e, from_jsonable (VDict d) = Err e.
Proof.
  intros Hnd Hc Hm Him Hre Hcall Ha1 Ha2 Hattr.
  rewrite from_jsonable_dispatch. unfold has_key. rewrite Hnd, Hc, Hm.
  rewrite bool_decide_eq_false_2 by (by intros []).
  rewrite !bool_decide_eq_true_2 by eauto. cbn [andb].
  unfold _decode_class. cbn [py_pop]. rewrite Hc. cbn [mbind result_bind].
  rewrite lookup_delete_ne, Hm by done. cbn [mbind result_bind].
  rewrite Him. cbn [mbind result_bind]. rewrite Hre. cbn [mbind result_bind].
  rewrite Hcall. destruct (call cls ∅) as [obj|y]; cbn [mbind result_bind]; [|by eauto].
  assert (Hv : delete "__module__" (delete "__class__" (from_jsonable <$> d)) !! attr
               = Some (Err (TypeError "argument of type int is not iterable"))).
  { rewrite !lookup_delete_ne by done. rewrite lookup_fmap, Hattr. done. }
  revert Hv. generalize (delete "__module__" (delete "__class__" (from_jsonable <$> d))).
  intros values. clear Ha1 Ha2 Hattr. revert attr.
  apply (map_fold_weak_ind (λ r (m : gmap string (result pyval)),
    ∀ attr, m !! attr = Some (Err (TypeError "argument of type int is not iterable")) →
    ∃ e, r = Err e)).
  - intros attr. by rewrite lookup_empty.
  - intros i v m r Hi IH attr. rewrite lookup_insert.
    case_decide as Hk.
    + intros [= ->]. destruct r; cbn; eauto.
    + intros Hl. destruct (IH _ Hl) as [e ->]. cbn. eauto.
Qed.

(** C8.  A tagged object with an attribute the constructor does not take,
    [{"__class__": "Money", "__module__": "shop", "amount": 5}]: the call
    with the keyword raises, the call without arguments gives the
    instance, and the loop that assigns the attributes raises a
    [TypeError] on the number, so no object comes back.  With a string in
    the place of the number the second tier does assign the attribute. *)
Theorem decode_class_fallback_fails :
  cls_call Shop.Money {[ "amount" := VInt 5 ]}
  = Err (TypeError "__init__() got an unexpected keyword argument") ∧
  cls_call Shop.Money ∅ = Ok (VObj "shop" "Money" {[ "amount" := VInt 0 ]}) ∧
  from_jsonable (H:=Shop.program)
    (VDict {[ "__class__" := VStr "Money"; "__module__" := VStr "shop";
              "amount" := VInt 5 ]})
  = Err (TypeError "argument of type int is not iterable") ∧
  from_jsonable (H:=Shop.program)
    (VDict {[ "__class__" := VStr "Money"; "__module__" := VStr "shop";
              "amount" := VStr "5" ]})
  = Ok (VObj "shop" "Money" {[ "amount" := VStr "5" ]}).
Proof. repeat split; vm_compute; reflexivity. Qed.

(** ** Reserved keys *)

(** C6, as the code has it.  A mapping with none of the reserved keys is
    handed back by the hook as it is, and a mapping of values that JSON
    keeps, with no reserved key at any depth, comes back from JSON as it
    went in.  A mapping that has the key [__ndarray__], or the two keys
    [__class__] and [__module__], or [ISO8601_datetime], or
    [ISO8601_date] is handed to the decoder of that hook, in this order,
    on the presence of the key alone. *)
Theorem reserved_keys_dispatch `{World} :
  (∀ d : attrs, reserved d = false → from_jsonable (VDict d) = Ok (VDict d)) ∧
  (∀ d : attrs,
     faithful (VDict d) → (levels (VDict d) ≤ recursionlimit)%nat →
     (text ← json_dumps ObjectJSONEncoder (VDict d);
      json_loads ObjectJSONDecoder text) = Ok (VDict d)) ∧
  (∀ d : attrs,
     from_jsonable (VDict d) =
       if has_key d "__ndarray__" then _decode_ndarray (VDict d)
       else if has_key d "__class__" && has_key d "__module__"
            then _decode_class (from_jsonable <$> d) (VDict d)
       else if has_key d "ISO8601_datetime" then _decode_datetime (VDict d)
       else if has_key d "ISO8601_date" then _decode_date (VDict d)
       else Ok (VDict d)).
Proof.
  split; [apply from_jsonable_unreserved|]. split; [|apply from_jsonable_dispatch].
  intros d Hd Hn. destruct (json_roundtrip (VDict d) Hn Hd) as [-> Hloads].
  rewrite bind_Ok. exact Hloads.
Qed.

Lemma reserved_keys_dispatch_witness :
  (text ← json_dumps (H:=Shop.program) (ObjectJSONEncoder (H:=Shop.program))
            (VDict {[ "__class__" := VStr "gold";
                      "rows" := VList [VDict {[ "ISO" := VInt 8601 ]}] ]});
   json_loads (ObjectJSONDecoder (H:=Shop.program)) text)
  = Ok (VDict {[ "__class__" := VStr "gold";
                 "rows" := VList [VDict {[ "ISO" := VInt 8601 ]}] ]}).
Proof.
  destruct (reserved_keys_dispatch (H:=Shop.program)) as (_ & Hplain & _).
  apply Hplain.
  - vm_compute. tauto.
  - vm_compute. lia.
Defined.

(** A plain mapping with the key of the date hook comes back as a date. *)
Lemma reserved_key_reinterpreted :
  (text ← json_dumps (H:=Shop.program) (ObjectJSONEncoder (H:=Shop.program))
            (VDict {[ "ISO8601_date" := VStr "2020-01-02"; "note" := VStr "due" ]});
   json_loads (ObjectJSONDecoder (H:=Shop.program)) text)
  = Ok (VDate (Date 2020 1 2)).
Proof. vm_compute. reflexivity. Qed.

(** ** Round trip *)

Lemma with_decoder_default_id `{World} t :
  json_decoder_cls t = Some ObjectJSONDecoder → with_decoder_default t = t.
Proof. intros Hc. unfold with_decoder_default. destruct t; cbn in *. by subst. Qed.

(** [deserialize] of a JSON payload that decodes to a dictionary, for a
    topic that resolves to a class of the family whose instances have a
    [__dict__], in uuid1 mode. *)
Lemma deserialize_json `{World} r s c ptx tx d0 :
  topics !! event_topic r = Some (SymType c) →
  cls_is_domain_event c = true →
  cls_new c = NewDict →
  serialize_without_json (self s) = false →
  serialize_with_uuid1 (self s) = true →
  default ObjectJSONDecoder (json_decoder_cls (self s)) = ObjectJSONDecoder →
  event_attrs r = PText ptx →
  (if always_encrypt (self s) || cls_always_encrypt c
   then ∃ ci, cipher (self s) = Some ci ∧ decrypt ci ptx = tx
   else ptx = tx) →
  json_loads ObjectJSONDecoder tx = Ok (VDict d0) →
  deserialize r s
  = (Ok {| inst_class := c; inst_dict := Some (fresh (dom (heap s))) |},
     {| self := with_decoder_default (self s);
        heap := <[fresh (dom (heap s)):=<["domain_event_id":=event_id r]> d0]>
                  (heap s) |}).
Proof.
  intros Ht Hc Hnew Hj Hu Hdec Hp Henc Hloads. destruct s as [t h]. cbn in *.
  unfold deserialize, resolve_domain_topic. rewrite Ht. unfold_py.
  rewrite Hc. cbn.
  unfold decode_event_attrs, default_json_decoder_cls. rewrite Hj. cbn.
  unfold_py. rewrite Hp.
  assert (Hfin : ∀ t' d1,
    t' = with_decoder_default t →
    reinstantiate c (event_topic r) (PVal (VDict d1)) {| self := t'; heap := h |}
    = (Ok {| inst_class := c; inst_dict := Some (fresh (dom h)) |},
       {| self := with_decoder_default t; heap := <[fresh (dom h):=d1]> h |})).
  { intros t' d1 ->.
    exact (reinstantiate_NewDict c _ _ {| self := _; heap := h |} Hnew). }
  assert (Hcls' : match json_decoder_cls t with
                  | Some cls => cls = ObjectJSONDecoder ∧ with_decoder_default t = t
                  | None => True
                  end).
  { destruct (json_decoder_cls t) as [cls|] eqn:Hcls; [|done].
    unfold default, id in Hdec. subst. split; [done|].
    by apply with_decoder_default_id. }
  destruct (json_decoder_cls t) as [cls|] eqn:Hcls;
    [destruct Hcls' as [-> Hid]|]; cbn;
    (destruct (always_encrypt t || cls_always_encrypt c);
      [destruct Henc as (ci & Hci & <-); rewrite Hci|subst tx]);
    cbn; rewrite Hloads; cbn; rewrite Hu; cbn;
    apply Hfin;
    first [ by rewrite Hid
          | unfold with_decoder_default; destruct t; cbn in *; by simplify_eq ].
Qed.

(** [deserialize] of a record of pass-through mode, which holds a
    dictionary. *)
Lemma deserialize_passthrough `{World} r s c l0 d0 :
  topics !! event_topic r = Some (SymType c) →
  cls_is_domain_event c = true →
  cls_new c = NewDict →
  serialize_without_json (self s) = true →
  serialize_with_uuid1 (self s) = true →
  event_attrs r = PDict l0 →
  heap s !! l0 = Some d0 →
  let d1 := <["domain_event_id":=event_id r]> d0 in
  let h1 := <[l0:=d1]> (heap s) in
  deserialize r s
  = (Ok {| inst_class := c; inst_dict := Some (fresh (dom h1)) |},
     {| self := self s; heap := <[fresh (dom h1):=d1]> h1 |}).
Proof.
  intros Ht Hc Hnew Hj Hu Hp Hd0 d1 h1. destruct s as [t h]. cbn in *.
  assert (Hne : fresh (dom h1) ≠ l0).
  { apply (fresh_loc_ne h1 l0 d1). unfold h1. apply lookup_insert_eq. }
  unfold deserialize, resolve_domain_topic. rewrite Ht. unfold_py.
  rewrite Hc. cbn.
  unfold decode_event_attrs. rewrite Hj. cbn. unfold_py.
  rewrite Hu, Hp. cbn. unfold_py. rewrite Hd0. cbn.
  unfold reinstantiate, except_TypeError, object_new, get_dict, dict_update.
  rewrite Hnew. unfold_py. fold d1. fold h1.
  rewrite lookup_insert_ne by done. unfold h1 at 1. rewrite lookup_insert_eq. cbn.
  rewrite lookup_insert_eq. cbn.
  by rewrite insert_insert_eq, (right_id_L ∅ (∪)).
Qed.

(** C1, as the code has it.  For an event of the family in uuid1 mode,
    with its identifier and its entity id among its attributes, whose
    class is what its topic resolves to and has instances with a
    [__dict__], and a transcoder with the codec classes of this module:
    [deserialize (serialize e)] is a new object of the class of [e] whose
    attribute bag is the bag of [e], identifier included, and [e] is left
    as it was.  In pass-through mode this holds for all attribute values;
    when JSON is written it holds for the values JSON keeps ([None],
    booleans, integers, floats, strings, lists and dictionaries of such
    values without a reserved key, and the dates, timestamps and arrays
    that the libraries read back from what they print), within the
    recursion limit, with encryption off, and with encryption on given a
    cipher whose [decrypt] inverts its [encrypt]. *)
Theorem roundtrip `{World} u e t h l d id entity_id :
  inst_dict e = Some l → h !! l = Some d →
  d !! "domain_event_id" = Some id →
  d !! "entity_id" = Some entity_id →
  cls_is_domain_event (inst_class e) = true →
  cls_new (inst_class e) = NewDict →
  topics !! topic_from_domain_class (inst_class e) = Some (SymType (inst_class e)) →
  serialize_with_uuid1 t = true →
  default ObjectJSONEncoder (json_encoder_cls t) = ObjectJSONEncoder →
  default ObjectJSONDecoder (json_decoder_cls t) = ObjectJSONDecoder →
  (serialize_without_json t = false →
   faithful (VDict (delete "domain_event_id" d)) ∧
   (levels (VDict (delete "domain_event_id" d)) ≤ recursionlimit)%nat ∧
   (always_encrypt t || cls_always_encrypt (inst_class e) = true →
    ∃ c, cipher t = Some c ∧ ∀ x, decrypt c (encrypt c x) = x)) →
  ∃ r s1 e' l' s2,
    serialize u e {| self := t; heap := h |} = (Ok r, s1) ∧
    deserialize r s1 = (Ok e', s2) ∧
    inst_class e' = inst_class e ∧
    inst_dict e' = Some l' ∧ l' ≠ l ∧
    heap s2 !! l' = Some d ∧
    heap s2 !! l = Some d.
Proof.
  intros Hl Hd Hid Heid Hfam Hnew Htopic Hu Henc Hdec Hjson.
  destruct (split_cons "." (cls_qualname (inst_class e))) as (p & ps & Hsplit).
  assert (Hp : id_prefix_from_event e = Ok p).
  { unfold id_prefix_from_event, id_prefix_from_event_class.
    rewrite Hfam. cbn. by rewrite Hsplit. }
  pose proof (serialize_run u e t h l d p entity_id Hl Hd Hp Heid
                (λ _, ex_intro _ id Hid)) as Hrun.
  cbn zeta in Hrun. rewrite Hu, Hid in Hrun. cbn [default] in Hrun.
  pose proof (fresh_loc_ne h l d Hd) as Hl1.
  set (l1 := fresh (dom h)) in *.
  set (d' := delete "domain_event_id" d) in *.
  assert (Hd' : <["domain_event_id":=id]> d' = d).
  { unfold d'. rewrite insert_delete_eq. by apply insert_id. }
  destruct (serialize_without_json t) eqn:Hw.
  - (* pass-through *)
    eexists _, _, _, _, _. split; [exact Hrun|].
    split.
    { eapply (deserialize_passthrough _ _ (inst_class e) l1 d'); cbn; try done.
      apply lookup_insert_eq. }
    cbn. rewrite Hd', insert_insert_eq.
    set (h1 := <[l1:=d]> h).
    assert (Hl2 : fresh (dom h1) ≠ l).
    { apply (fresh_loc_ne h1 l d). unfold h1. by rewrite lookup_insert_ne. }
    repeat split; try done.
    + apply lookup_insert_eq.
    + rewrite lookup_insert_ne by done. unfold h1. by rewrite lookup_insert_ne.
  - (* JSON *)
    destruct (Hjson eq_refl) as (Hfaith & Hlev & Hcipher).
    destruct (json_roundtrip _ Hlev Hfaith) as [Hdumps Hloads].
    rewrite Henc, Hdumps in Hrun.
    set (h1 := <[l1:=d']> h) in *.
    assert (Hl2 : fresh (dom h1) ≠ l).
    { apply (fresh_loc_ne h1 l d). unfold h1. by rewrite lookup_insert_ne. }
    destruct (always_encrypt t || cls_always_encrypt (inst_class e)) eqn:Hae.
    + destruct (Hcipher eq_refl) as (c & Hc & Hinv). rewrite Hc in Hrun.
      eexists _, _, _, _, _. split; [exact Hrun|].
      split.
      { eapply (deserialize_json _ _ (inst_class e) _ _ d'); cbn; try done.
        rewrite Hae. exists c. split; [done|]. apply Hinv. }
      cbn. rewrite Hd'. repeat split; try done.
      * apply lookup_insert_eq.
      * rewrite lookup_insert_ne by done. unfold h1. by rewrite lookup_insert_ne.
    + eexists _, _, _, _, _. split; [exact Hrun|].
      split.
      { eapply (deserialize_json _ _ (inst_class e) _ _ d'); cbn; try done.
        by rewrite Hae. }
      cbn. rewrite Hd'. repeat split; try done.
      * apply lookup_insert_eq.
      * rewrite lookup_insert_ne by done. unfold h1. by rewrite lookup_insert_ne.
Qed.

Lemma roundtrip_witness :
  (∃ r s1 e' l' s2,
    serialize (H:=Shop.program) "ffff" Shop.order_placed
      (Shop.order_state (Shop.transcoder false true None false))
    = (Ok r, s1) ∧
    deserialize (H:=Shop.program) r s1 = (Ok e', s2) ∧
    inst_class e' = Shop.OrderPlaced ∧
    inst_dict e' = Some l' ∧ l' ≠ 1%positive ∧
    heap s2 !! l' = Some Shop.order_attrs ∧
    heap s2 !! 1%positive = Some Shop.order_attrs) ∧
  (∃ r s1 e' l' s2,
    serialize (H:=Shop.program) "ffff" Shop.paid
      (Shop.state (Shop.transcoder false true (Some Shop.envelope) false))
    = (Ok r, s1) ∧
    deserialize (H:=Shop.program) r s1 = (Ok e', s2) ∧
    inst_class e' = Shop.Paid ∧
    inst_dict e' = Some l' ∧ l' ≠ 1%positive ∧
    heap s2 !! l' = Some Shop.placed_attrs ∧
    heap s2 !! 1%positive = Some Shop.placed_attrs).
Proof.
  split.
  - apply (roundtrip (H:=Shop.program) "ffff" Shop.order_placed _ Shop.order_store
             1%positive Shop.order_attrs (VStr "0003") (VStr "ord-1"));
      try reflexivity.
    intros _. split; [|split].
    + vm_compute. tauto.
    + vm_compute. lia.
    + intros Henc. vm_compute in Henc. discriminate Henc.
  - apply (roundtrip (H:=Shop.program) "ffff" Shop.paid _ Shop.store 1%positive
             Shop.placed_attrs (VStr "0001") (VStr "ord-1")); try reflexivity.
    intros _. split; [|split].
    + vm_compute. tauto.
    + vm_compute. lia.
    + intros _. exists Shop.envelope. split; [reflexivity|]. by intros [[]|].
Defined.

(** A tuple comes back as a list, and an object as what its constructor
    builds: the bag that comes back is not the bag of the event. *)
Lemma roundtrip_loses_tuples_and_objects :
  bag (Shop.basket_state (Shop.transcoder false true None false)) Shop.placed
  = Some Shop.basket_attrs ∧
  there_and_back (H:=Shop.program) "ffff" Shop.placed
    (Shop.basket_state (Shop.transcoder false true None false))
  = Ok ("shop", "Order.Placed",
        Some {[ "domain_event_id" := VStr "0002";
                "entity_id" := VStr "ord-1";
                "lines" := VList [VStr "tea"; VStr "cup"];
                "price" := VObj "shop" "Money" {[ "amount" := VInt 0 ]} ]}) ∧
  ({[ "domain_event_id" := VStr "0002";
      "entity_id" := VStr "ord-1";
      "lines" := VList [VStr "tea"; VStr "cup"];
      "price" := VObj "shop" "Money" {[ "amount" := VInt 0 ]} ]} : attrs)
  ≠ Shop.basket_attrs.
Proof.
  split; [reflexivity|]. split; [vm_compute; reflexivity|].
  intros Heq. apply (f_equal (λ m : attrs, m !! "lines")) in Heq.
  vm_compute in Heq. discriminate.
Qed.

(** ** State *)

Lemma with_default_codecs_inv `{World} t1 t2 :
  with_default_codecs t1 = with_default_codecs t2 →
  serialize_without_json t1 = serialize_without_json t2 ∧
  serialize_with_uuid1 t1 = serialize_with_uuid1 t2 ∧
  default ObjectJSONEncoder (json_encoder_cls t1)
  = default ObjectJSONEncoder (json_encoder_cls t2) ∧
  default ObjectJSONDecoder (json_decoder_cls t1)
  = default ObjectJSONDecoder (json_decoder_cls t2) ∧
  cipher t1 = cipher t2 ∧
  always_encrypt t1 = always_encrypt t2.
Proof.
  unfold with_default_codecs, with_decoder_default, with_encoder_default. cbn.
  intros [= ? ? ? ? ? ?]. done.
Qed.

Lemma with_default_codecs_encoder `{World} t :
  with_default_codecs (with_encoder_default t) = with_default_codecs t.
Proof.
  unfold with_default_codecs, with_decoder_default, with_encoder_default. cbn.
  by destruct (json_encoder_cls t).
Qed.

Lemma with_default_codecs_decoder `{World} t :
  with_default_codecs (with_decoder_default t) = with_default_codecs t.
Proof.
  unfold with_default_codecs, with_decoder_default, with_encoder_default. cbn.
  by destruct (json_decoder_cls t).
Qed.

(** The outcome of [serialize] is a function of the configuration of the
    transcoder and of the attributes of the event. *)
Lemma serialize_deterministic `{World} u1 u2 e s1 s2 :
  with_default_codecs (self s1) = with_default_codecs (self s2) →
  bag s1 e = bag s2 e →
  serialize_with_uuid1 (self s1) = true →
  record_of (serialize u1 e s1) = record_of (serialize u2 e s2).
Proof.
  intros Hcfg Hbag Hu1.
  apply with_default_codecs_inv in Hcfg as (Hw & Hu & Henc & _ & Hci & Hal).
  destruct s1 as [t1 h1], s2 as [t2 h2]. cbn in *.
  assert (Hu2 : serialize_with_uuid1 t2 = true) by congruence.
  unfold bag in Hbag. unfold record_of.
  unfold serialize, DomainEvent_entity_id, get_dict, dict_pop, default_json_encoder_cls.
  unfold_py.
  destruct (inst_dict e) as [l|] eqn:Hl; cbn in *; [|done].
  rewrite Hbag.
  destruct (h2 !! l) as [d|] eqn:Hd2; cbn; [|done].
  pose proof (fresh_loc_ne h1 l d Hbag) as Hne1.
  pose proof (fresh_loc_ne h2 l d Hd2) as Hne2.
  rewrite Hu1, Hu2. cbn. rewrite !lookup_insert_eq. cbn.
  destruct (d !! "domain_event_id") as [i|]; cbn; [|done].
  destruct (id_prefix_from_event e) as [p|]; cbn; [|done].
  rewrite !insert_insert_eq, !lookup_insert_ne by done. rewrite Hbag, Hd2. cbn.
  destruct (d !! "entity_id") as [eid|]; cbn; [|done].
  rewrite <-Hw, <-Hal, <-Hci.
  destruct (serialize_without_json t1); cbn.
  { by rewrite !lookup_insert_eq. }
  destruct (json_encoder_cls t1) as [c1|], (json_encoder_cls t2) as [c2|];
    cbn in Henc; subst; cbn; rewrite !lookup_insert_eq; cbn;
    (destruct (json_dumps _ _) as [tx|]; cbn; [|done]);
    destruct (always_encrypt t1 || cls_always_encrypt (inst_class e)); cbn;
    try destruct (cipher t1); cbn; done.
Qed.

Lemma same_payload_PVal h1 h2 v : same_payload h1 h2 (PVal v).
Proof. split; [by eexists|done]. Qed.

Lemma same_payload_PText h1 h2 tx : same_payload h1 h2 (PText tx).
Proof. split; [by eexists|done]. Qed.

Lemma same_payload_PDict h1 h2 l :
  same_payload h1 h2 (PDict l) → ∃ d, h1 !! l = Some d ∧ h2 !! l = Some d.
Proof.
  intros [[x Hx] Heq]. cbn in *.
  destruct (h1 !! l) as [d|], (h2 !! l); cbn in *; simplify_eq. eauto.
Qed.

(** The three blocks of [deserialize], on two states that show the same
    payload. *)
Lemma decode_event_attrs_deterministic `{World} c p s1 s2 :
  with_default_codecs (self s1) = with_default_codecs (self s2) →
  same_payload (heap s1) (heap s2) p →
  (decode_event_attrs (self s1) c p s1).1 = (decode_event_attrs (self s2) c p s2).1 ∧
  heap (decode_event_attrs (self s1) c p s1).2 = heap s1 ∧
  heap (decode_event_attrs (self s2) c p s2).2 = heap s2 ∧
  ∀ p', (decode_event_attrs (self s1) c p s1).1 = Ok p' →
        same_payload (heap s1) (heap s2) p'.
Proof.
  intros Hcfg Hp.
  apply with_default_codecs_inv in Hcfg as (Hw & Hu & _ & Hdec & Hci & Hal).
  destruct s1 as [t1 h1], s2 as [t2 h2]. cbn in *.
  unfold decode_event_attrs, default_json_decoder_cls. unfold_py.
  rewrite <-Hw, <-Hal, <-Hci.
  destruct (serialize_without_json t1); cbn.
  { split_and!; try done. by intros p' [= <-]. }
  destruct (json_decoder_cls t1) as [c1|], (json_decoder_cls t2) as [c2|];
    cbn in Hdec; subst; cbn;
    (destruct (always_encrypt t1 || cls_always_encrypt c); cbn;
     [destruct (cipher t1) as [ci|]; cbn; [destruct (decrypt_payload ci p); cbn|]|]);
    try (destruct (loads_payload _ _); cbn);
    split_and!; try done; intros p' [= <-]; apply same_payload_PVal.
Qed.

Lemma setitem_deterministic p key value s1 s2 :
  same_payload (heap s1) (heap s2) p →
  (setitem p key value s1).1 = (setitem p key value s2).1 ∧
  self (setitem p key value s1).2 = self s1 ∧
  self (setitem p key value s2).2 = self s2 ∧
  ∀ p', (setitem p key value s1).1 = Ok p' →
        same_payload (heap (setitem p key value s1).2)
                     (heap (setitem p key value s2).2) p'.
Proof.
  intros Hp. destruct s1 as [t1 h1], s2 as [t2 h2]. cbn in *.
  destruct p as [l|tx|v]; cbn [setitem].
  - apply same_payload_PDict in Hp as (d & Hd1 & Hd2). unfold_py.
    rewrite Hd1, Hd2. cbn.
    split_and!; try done. intros p' [= <-]. split; cbn; rewrite !lookup_insert_eq; by eauto.
  - by unfold_py.
  - destruct v; unfold_py; split_and!; try done;
      intros p' [= <-]; apply same_payload_PVal.
Qed.

Local Opaque update_items.

Lemma reinstantiate_deterministic c topic p s1 s2 :
  same_payload (heap s1) (heap s2) p →
  event_of (reinstantiate c topic p s1) = event_of (reinstantiate c topic p s2).
Proof.
  intros Hp. destruct s1 as [t1 h1], s2 as [t2 h2]. cbn in *.
  unfold event_of, bag, reinstantiate, except_TypeError, object_new, get_dict,
    snapshot, dict_update.
  destruct (cls_new c); unfold_py.
  - destruct p as [l|tx|v].
    + apply same_payload_PDict in Hp as (d & Hd1 & Hd2). unfold_py.
      rewrite !lookup_insert_ne by (by eapply fresh_loc_ne).
      rewrite Hd1, Hd2. cbn. rewrite !lookup_insert_eq. cbn.
      by rewrite !lookup_insert_eq.
    + destruct tx as [doc|[|a0 s0]]; unfold_py; try done.
      by rewrite !lookup_insert_eq.
    + destruct v; unfold_py; rewrite ?lookup_insert_eq; cbn;
        rewrite ?lookup_insert_eq; try done.
      all: destruct (update_items _) as [items|[]]; cbn;
        rewrite ?lookup_insert_eq; cbn; rewrite ?lookup_insert_eq; done.
  - done.
  - destruct p as [l|tx|v]; unfold_py; try done.
    apply same_payload_PDict in Hp as (d & Hd1 & Hd2). by rewrite Hd1, Hd2.
Qed.

Local Transparent update_items.

(** The outcome of [deserialize] is a function of the configuration of
    the transcoder, of the record and of what its payload holds. *)
Lemma deserialize_deterministic `{World} r s1 s2 :
  with_default_codecs (self s1) = with_default_codecs (self s2) →
  same_payload (heap s1) (heap s2) (event_attrs r) →
  event_of (deserialize r s1) = event_of (deserialize r s2).
Proof.
  intros Hcfg Hp.
  destruct (with_default_codecs_inv _ _ Hcfg) as (_ & Hu & _).
  unfold deserialize. unfold_py.
  destruct (resolve_domain_topic (event_topic r)) as [[c|v]|x]; cbn; try done.
  destruct (cls_is_domain_event c); cbn; [|done].
  destruct (decode_event_attrs_deterministic c (event_attrs r) s1 s2 Hcfg Hp)
    as (Hres & Hh1 & Hh2 & Hsame).
  destruct (decode_event_attrs (self s1) c (event_attrs r) s1) as [r1 sa1].
  destruct (decode_event_attrs (self s2) c (event_attrs r) s2) as [r2 sa2].
  cbn in *. subst r2. destruct r1 as [pa|x]; [|done].
  specialize (Hsame pa eq_refl). rewrite <-Hh1, <-Hh2 in Hsame.
  rewrite <-Hu.
  destruct (serialize_with_uuid1 (self s1)).
  - destruct (setitem_deterministic pa "domain_event_id" (event_id r) sa1 sa2 Hsame)
      as (Hres & _ & _ & Hsame').
    destruct (setitem pa "domain_event_id" (event_id r) sa1) as [r1 sb1].
    destruct (setitem pa "domain_event_id" (event_id r) sa2) as [r2 sb2].
    cbn in *. subst r2. destruct r1 as [pb|x]; [|done].
    by apply reinstantiate_deterministic, Hsame'.
  - by apply reinstantiate_deterministic.
Qed.

Local Opaque update_items.

Lemma reinstantiate_self c topic p s : self (reinstantiate c topic p s).2 = self s.
Proof.
  destruct s as [t h].
  unfold reinstantiate, except_TypeError, object_new, get_dict, snapshot, dict_update.
  destruct (cls_new c); unfold_py; try done.
  - destruct p as [l|tx|v]; unfold_py.
    + destruct (<[fresh (dom h):=∅]> h !! l); cbn;
        rewrite ?lookup_insert_eq; done.
    + by destruct tx as [doc|[|a0 s0]].
    + destruct v; unfold_py; rewrite ?lookup_insert_eq; try done.
      all: destruct (update_items _) as [items|[]]; cbn;
        rewrite ?lookup_insert_eq; done.
  - destruct p as [l|tx|v]; unfold_py; try done. by destruct (h !! l).
Qed.

Local Transparent update_items.

Lemma setitem_self p key value s : self (setitem p key value s).2 = self s.
Proof.
  destruct s as [t h]. destruct p as [l|tx|v]; cbn [setitem]; unfold_py.
  - by destruct (h !! l).
  - done.
  - by destruct v.
Qed.

Lemma decode_event_attrs_self `{World} c p s :
  self (decode_event_attrs (self s) c p s).2 = self s ∨
  self (decode_event_attrs (self s) c p s).2 = with_decoder_default (self s).
Proof.
  destruct s as [t h]. cbn.
  unfold decode_event_attrs, default_json_decoder_cls. unfold_py.
  destruct (serialize_without_json t) eqn:Hw; cbn; [by left|].
  destruct (json_decoder_cls t) as [c1|] eqn:Hc1; cbn;
    (destruct (always_encrypt t || cls_always_encrypt c); cbn;
     [destruct (cipher t) as [ci|] eqn:Hci; cbn; [destruct (decrypt_payload ci p); cbn|]|]);
    try (destruct (loads_payload _ _); cbn);
    first [ by left
          | right; unfold with_decoder_default; rewrite ?Hw, ?Hc1, ?Hci; done ].
Qed.

(** Whatever a call of [deserialize] does, it changes the transcoder at
    most by the default decoder class. *)
Lemma deserialize_self `{World} r s :
  self (deserialize r s).2 = self s ∨
  self (deserialize r s).2 = with_decoder_default (self s).
Proof.
  unfold deserialize. unfold_py.
  destruct (resolve_domain_topic (event_topic r)) as [[c|v]|x]; cbn; try by left.
  destruct (cls_is_domain_event c); cbn; [|by left].
  pose proof (decode_event_attrs_self c (event_attrs r) s) as Hdec.
  destruct (decode_event_attrs (self s) c (event_attrs r) s) as [[pa|x] sa];
    cbn in *; [|done].
  destruct (serialize_with_uuid1 (self s)).
  - pose proof (setitem_self pa "domain_event_id" (event_id r) sa) as Hset.
    destruct (setitem pa "domain_event_id" (event_id r) sa) as [[pb|x] sb];
      cbn in *; [|by rewrite Hset].
    by rewrite reinstantiate_self, Hset.
  - by rewrite reinstantiate_self.
Qed.

(** C9, as the code has it.  A call of [serialize] or [deserialize] changes
    the transcoder at most by putting the default class of this module in
    the place of a codec class that was not set, which leaves its
    configuration, read with the defaults filled in, as it was.  In uuid1
    mode the outcome of [serialize] is a function of that configuration
    and of the attributes of the event: two calls on states that agree on
    both return the same record or the same error, whatever the draws, the
    rest of the store and earlier calls.  The outcome of [deserialize] is
    a function of the configuration, the record and what its payload
    holds. *)
Theorem calls_are_functions_of_input `{World} :
  (∀ u e s,
     with_default_codecs (self (serialize u e s).2) = with_default_codecs (self s)) ∧
  (∀ r s,
     with_default_codecs (self (deserialize r s).2) = with_default_codecs (self s)) ∧
  (∀ u1 u2 e s1 s2,
     with_default_codecs (self s1) = with_default_codecs (self s2) →
     bag s1 e = bag s2 e →
     serialize_with_uuid1 (self s1) = true →
     record_of (serialize u1 e s1) = record_of (serialize u2 e s2)) ∧
  (∀ r s1 s2,
     with_default_codecs (self s1) = with_default_codecs (self s2) →
     same_payload (heap s1) (heap s2) (event_attrs r) →
     event_of (deserialize r s1) = event_of (deserialize r s2)).
Proof.
  split_and!.
  - intros u e s. destruct (serialize_frame u e s) as [_ [->| ->]]; [done|].
    apply with_default_codecs_encoder.
  - intros r s. destruct (deserialize_self r s) as [->| ->]; [done|].
    apply with_default_codecs_decoder.
  - apply serialize_deterministic.
  - apply deserialize_deterministic.
Qed.

Lemma calls_are_functions_of_input_witness :
  let s1 := Shop.state (Shop.transcoder false true None false) in
  let s2 := (serialize (H:=Shop.program) "aaaa" Shop.placed s1).2 in
  record_of (serialize (H:=Shop.program) "aaaa" Shop.placed s1)
  = record_of (serialize (H:=Shop.program) "bbbb" Shop.placed s2).
Proof.
  intros s1 s2.
  destruct (calls_are_functions_of_input (H:=Shop.program))
    as (Hself & _ & Hsame & _).
  apply Hsame.
  - symmetry. apply Hself.
  - symmetry. apply serialize_bag.
  - reflexivity.
Defined.

(** When the steps before it succeed, the JSON branch of [serialize]
    leaves the transcoder with an encoder class. *)
Lemma serialize_fills_encoder `{World} u e t h l d prefix entity_id :
  inst_dict e = Some l → h !! l = Some d →
  id_prefix_from_event e = Ok prefix →
  d !! "entity_id" = Some entity_id →
  (serialize_with_uuid1 t = true → is_Some (d !! "domain_event_id")) →
  serialize_without_json t = false →
  self (serialize u e {| self := t; heap := h |}).2 = with_encoder_default t.
Proof.
  intros Hl Hd Hp He Hi Hw.
  rewrite (serialize_run u e t h l d prefix entity_id Hl Hd Hp He Hi). cbn zeta.
  rewrite Hw. destruct (json_dumps _ _); [|done].
  destruct (always_encrypt t || cls_always_encrypt (inst_class e)); [|done].
  by destruct (cipher t).
Qed.

(** A call of [serialize] on a transcoder made without an encoder class
    leaves it with one, so the transcoder is not as it was; and in
    random-token mode the identifier of the record is the draw, so two
    calls on the same event return different records. *)
Lemma serialize_changes_the_transcoder :
  let s := Shop.state (Shop.transcoder false true None false) in
  let s' := Shop.state (Shop.transcoder false false None false) in
  json_encoder_cls (self s) = None ∧
  json_encoder_cls (self (serialize (H:=Shop.program) "aaaa" Shop.placed s).2)
  = Some (ObjectJSONEncoder (H:=Shop.program)) ∧
  self (serialize (H:=Shop.program) "aaaa" Shop.placed s).2 ≠ self s ∧
  event_id <$> (serialize (H:=Shop.program) "aaaa" Shop.placed s').1
  = Ok (VStr "aaaa") ∧
  event_id <$> (serialize (H:=Shop.program) "bbbb" Shop.placed s').1
  = Ok (VStr "bbbb").
Proof.
  intros s s'.
  assert (Henc : json_encoder_cls
            (self (serialize (H:=Shop.program) "aaaa" Shop.placed s).2)
          = Some (ObjectJSONEncoder (H:=Shop.program))).
  { unfold s, Shop.state.
    rewrite (serialize_fills_encoder (H:=Shop.program) "aaaa" Shop.placed _
               Shop.store 1%positive Shop.placed_attrs "Order" (VStr "ord-1"));
      [reflexivity..| |reflexivity].
    intros _. by eexists. }
  split; [reflexivity|]. split; [exact Henc|]. split.
  - intros Heq.
    pose proof (eq_trans (eq_sym Henc) (f_equal json_encoder_cls Heq)) as Hbad.
    discriminate Hbad.
  - split; vm_compute; reflexivity.
Qed.

(** * More of the code *)

(** ** More of [serialize] *)

Lemma map_mapM_dom {A B} (f : A → result B) (m : gmap string A) m' :
  map_mapM f m = Ok m' → dom m' = dom m.
Proof.
  unfold map_mapM. revert m'.
  apply (map_fold_weak_ind (λ r m, ∀ m', r = Ok m' → dom m' = dom m)).
  - intros m' [= <-]. by rewrite !dom_empty_L.
  - intros i x m0 r Hi IH m'. destruct r as [m1|]; [|done]. cbn.
    destruct (f x) as [y|]; [|done]. cbn. intros [= <-].
    by rewrite !dom_insert_L, (IH m1).
Qed.

(** The text written for a dictionary is a JSON object with its keys,
    whatever the encoder class. *)
Lemma json_dumps_dict `{World} cls (d : attrs) text :
  json_dumps cls (VDict d) = Ok text →
  ∃ o, text = TJson (JObj o) ∧ dom o = dom d.
Proof.
  unfold json_dumps. destruct recursionlimit as [|n]; [done|]. cbn [encode].
  destruct (map_mapM _ d) as [o|] eqn:Ho; [|done]. cbn. intros [= <-].
  exists o. split; [done|]. by eapply map_mapM_dom.
Qed.

(** X1.  [serialize] works on a copy: whatever the outcome of a call,
    every dictionary that was in the store before it, the attributes of
    the event among them, is as it was.  In pass-through mode the payload
    of the record is a dictionary that did not exist before the call, not
    the [__dict__] of the event, and it holds the attributes of the event,
    without the identifier in uuid1 mode. *)
Theorem serialize_copies `{World} u e s :
  (∀ l, is_Some (heap s !! l) → heap (serialize u e s).2 !! l = heap s !! l) ∧
  (∀ r, (serialize u e s).1 = Ok r →
        serialize_without_json (self s) = true →
        ∃ l' d,
          event_attrs r = PDict l' ∧
          heap s !! l' = None ∧ inst_dict e ≠ Some l' ∧
          bag s e = Some d ∧
          heap (serialize u e s).2 !! l'
          = Some (if serialize_with_uuid1 (self s)
                  then delete "domain_event_id" d else d)).
Proof.
  split; [apply serialize_frame|].
  intros r Hr Hw. apply run_eq in Hr.
  destruct (serialize_Ok _ _ _ _ _ Hr) as (l & d & p & eid & Hl & Hd & Hp & He & Hi).
  destruct s as [t h]. cbn in *.
  rewrite (serialize_run u e t h l d p eid Hl Hd Hp He Hi) in Hr |- *.
  cbn zeta in *. rewrite Hw in Hr |- *. injection Hr as <-. cbn.
  exists (fresh (dom h)), d. split_and!; try done.
  - apply fresh_loc_None.
  - rewrite Hl. intros [= ->]. by rewrite fresh_loc_None in Hd.
  - unfold bag. rewrite Hl. done.
  - apply lookup_insert_eq.
Qed.

Lemma serialize_copies_witness :
  heap (serialize (H:=Shop.program) "ffff" Shop.placed
          (Shop.state (Shop.transcoder true true None false))).2 !! 1%positive
  = Shop.store !! 1%positive.
Proof.
  destruct (serialize_copies (H:=Shop.program) "ffff" Shop.placed
              (Shop.state (Shop.transcoder true true None false))) as [Hframe _].
  apply Hframe. exists Shop.placed_attrs. reflexivity.
Defined.

(** X2.  The order in which [serialize] fails.  An event without a
    [__dict__] is an [AttributeError].  With a [__dict__], in uuid1 mode
    an event without the attribute [domain_event_id] is the [KeyError] of
    [pop].  Past that, an event whose class is not of the event family is
    an [AssertionError], whether it has an [entity_id] or not: the prefix
    is the first argument of [make_stored_entity_id].  An event of the
    family without an [entity_id] in its [__dict__] is the [KeyError] of
    the property that reads it. *)
Theorem serialize_checks_in_order `{World} u e s :
  (inst_dict e = None → (serialize u e s).1 = Err (AttributeError "__dict__")) ∧
  (∀ d, bag s e = Some d →
     serialize_with_uuid1 (self s) = true →
     d !! "domain_event_id" = None →
     (serialize u e s).1 = Err (KeyError "domain_event_id")) ∧
  (∀ d, bag s e = Some d →
     (serialize_with_uuid1 (self s) = true → is_Some (d !! "domain_event_id")) →
     cls_is_domain_event (inst_class e) = false →
     (serialize u e s).1 = Err AssertionError) ∧
  (∀ d, bag s e = Some d →
     (serialize_with_uuid1 (self s) = true → is_Some (d !! "domain_event_id")) →
     cls_is_domain_event (inst_class e) = true →
     d !! "entity_id" = None →
     (serialize u e s).1 = Err (KeyError "entity_id")).
Proof.
  destruct s as [t h]. unfold bag. cbn.
  unfold serialize, DomainEvent_entity_id, get_dict, dict_pop, default_json_encoder_cls.
  split_and!.
  - intros ->. by unfold_py.
  - intros d Hd Hu Hi. destruct (inst_dict e) as [l|]; [|done]. cbn in Hd.
    unfold_py. rewrite Hd. cbn. rewrite Hu. cbn.
    rewrite lookup_insert_eq. cbn. by rewrite Hi.
  - intros d Hd Hi Hf. destruct (inst_dict e) as [l|]; [|done]. cbn in Hd.
    unfold_py. rewrite Hd. cbn.
    unfold id_prefix_from_event. rewrite Hf. cbn.
    destruct (serialize_with_uuid1 t); cbn; [|done].
    rewrite lookup_insert_eq. cbn. destruct Hi as [i Hi]; [done|]. by rewrite Hi.
  - intros d Hd Hi Hf He. destruct (inst_dict e) as [l|]; [|done]. cbn in Hd.
    pose proof (fresh_loc_ne h l d Hd) as Hne.
    unfold_py. rewrite Hd. cbn.
    unfold id_prefix_from_event, id_prefix_from_event_class. rewrite Hf. cbn.
    destruct (split_cons "." (cls_qualname (inst_class e))) as (p & ps & ->). cbn.
    destruct (serialize_with_uuid1 t); cbn.
    + rewrite lookup_insert_eq. cbn. destruct Hi as [i Hi]; [done|]. rewrite Hi. cbn.
      rewrite insert_insert_eq, lookup_insert_ne by done. rewrite Hd. cbn.
      by rewrite He.
    + rewrite lookup_insert_ne by done. rewrite Hd. cbn. by rewrite He.
Qed.

Lemma serialize_checks_in_order_witness :
  (serialize (H:=Shop.program) "ffff"
     {| inst_class := Shop.Money; inst_dict := Some 1%positive |}
     (Shop.state (Shop.transcoder false true None false))).1
  = Err AssertionError.
Proof.
  destruct (serialize_checks_in_order (H:=Shop.program) "ffff"
     {| inst_class := Shop.Money; inst_dict := Some 1%positive |}
     (Shop.state (Shop.transcoder false true None false))) as (_ & _ & Hassert & _).
  apply (Hassert Shop.placed_attrs).
  - reflexivity.
  - intros _. by eexists.
  - reflexivity.
Defined.

(** X3.  In uuid1 mode the identifier moves from the attributes to the
    record: the [event_id] of a record that [serialize] returns is the
    [domain_event_id] attribute of the event, and the payload holds the
    other attributes only.  In pass-through mode the payload is the
    dictionary of the attributes less the identifier; otherwise it is the
    text of a JSON object, encrypted if encryption is asked for, whose
    keys are the names of the attributes less [domain_event_id]. *)
Theorem identifier_leaves_payload `{World} u e s r s' :
  serialize u e s = (Ok r, s') →
  serialize_with_uuid1 (self s) = true →
  ∃ d, bag s e = Some d ∧
    d !! "domain_event_id" = Some (event_id r) ∧
    if serialize_without_json (self s)
    then ∃ l', event_attrs r = PDict l' ∧
               heap s' !! l' = Some (delete "domain_event_id" d)
    else ∃ o, o !! "domain_event_id" = None ∧
              dom o = dom d ∖ {["domain_event_id"]} ∧
              if always_encrypt (self s) || cls_always_encrypt (inst_class e)
              then ∃ c, cipher (self s) = Some c ∧
                        event_attrs r = PText (encrypt c (TJson (JObj o)))
              else event_attrs r = PText (TJson (JObj o)).
Proof.
  intros Hrun Hu.
  destruct (serialize_Ok _ _ _ _ _ Hrun) as (l & d & p & eid & Hl & Hd & Hp & He & Hi).
  destruct (serialize_Ok_fields _ _ _ _ _ Hrun)
    as (l0 & d0 & p0 & eid0 & Hl0 & Hd0 & _ & _ & Hid & _ & _ & Hpay).
  rewrite Hl in Hl0. injection Hl0 as <-. rewrite Hd in Hd0. injection Hd0 as <-.
  destruct (Hi Hu) as [i Hi']. rewrite Hu, Hi' in Hid. cbn in Hid.
  exists d. split; [by unfold bag; rewrite Hl|]. split; [by rewrite Hid|].
  rewrite Hu in Hpay.
  destruct (serialize_without_json (self s)) eqn:Hw.
  - exists (fresh (dom (heap s))). split; [done|].
    destruct s as [t h]. cbn in *.
    rewrite (serialize_run u e t h l d p eid Hl Hd Hp He Hi) in Hrun.
    cbn zeta in Hrun. rewrite Hw, Hu in Hrun. injection Hrun as _ <-. cbn.
    apply lookup_insert_eq.
  - destruct Hpay as (text & Hdumps & Hpay).
    apply json_dumps_dict in Hdumps as (o & -> & Hdom).
    exists o. split_and!.
    + apply not_elem_of_dom. rewrite Hdom, dom_delete_L.
      apply not_elem_of_difference. right. by apply elem_of_singleton.
    + by rewrite Hdom, dom_delete_L.
    + done.
Qed.

Lemma identifier_leaves_payload_witness :
  ∃ r, (serialize (H:=Shop.program) "ffff" Shop.placed
          (Shop.state (Shop.transcoder false true None false))).1 = Ok r ∧
       event_id r = VStr "0001" ∧
       ∃ o, o !! "domain_event_id" = None ∧ event_attrs r = PText (TJson (JObj o)).
Proof.
  eassert (Hrun : (serialize (H:=Shop.program) "ffff" Shop.placed
      (Shop.state (Shop.transcoder false true None false))).1 = Ok _)
    by (vm_compute; reflexivity).
  eexists. split; [exact Hrun|].
  destruct (identifier_leaves_payload (H:=Shop.program) _ _ _ _ _
              (run_eq _ _ Hrun) eq_refl) as (d & _ & _ & o & Ho & _ & Hpay).
  split; [reflexivity|].
  exists o. split; [exact Ho|exact Hpay].
Defined.

(** ** More of [deserialize] *)

(** The resolver of topics returns what the registry holds. *)
Lemma resolve_domain_topic_Ok `{World} topic sym :
  resolve_domain_topic topic = Ok sym → topics !! topic = Some sym.
Proof. unfold resolve_domain_topic. destruct (topics !! topic); by intros [= <-]. Qed.

(** [deserialize] up to the end of its decoding block, when JSON is read:
    what is left is the assignment of the identifier and the last block,
    run on the decoded value with the decoder class filled in. *)
Lemma deserialize_decoding `{World} r s c :
  topics !! event_topic r = Some (SymType c) →
  cls_is_domain_event c = true →
  serialize_without_json (self s) = false →
  let s' := {| self := with_decoder_default (self s); heap := heap s |} in
  deserialize r s =
    if always_encrypt (self s) || cls_always_encrypt c then
      match cipher (self s) with
      | None => (Err (ValueError CantDecrypt), s')
      | Some ci =>
          match decrypt_payload ci (event_attrs r) with
          | Err x => (Err x, s')
          | Ok p =>
              match loads_payload (default ObjectJSONDecoder (json_decoder_cls (self s))) p with
              | Err x => (Err x, s')
              | Ok v =>
                  (p' ← (if serialize_with_uuid1 (self s)
                         then setitem (PVal v) "domain_event_id" (event_id r)
                         else mret (PVal v));
                   reinstantiate c (event_topic r) p') s'
              end
          end
      end
    else
      match loads_payload (default ObjectJSONDecoder (json_decoder_cls (self s)))
              (event_attrs r) with
      | Err x => (Err x, s')
      | Ok v =>
          (p' ← (if serialize_with_uuid1 (self s)
                 then setitem (PVal v) "domain_event_id" (event_id r)
                 else mret (PVal v));
           reinstantiate c (event_topic r) p') s'
      end.
Proof.
  intros Ht Hc Hj. destruct s as [t h]. cbn in *.
  unfold deserialize, resolve_domain_topic. rewrite Ht. unfold_py.
  rewrite Hc. cbn.
  unfold decode_event_attrs, default_json_decoder_cls. rewrite Hj. cbn.
  unfold_py.
  assert (Hself : ∀ cls, json_decoder_cls t = Some cls → with_decoder_default t = t).
  { intros cls Hcls. unfold with_decoder_default. destruct t; cbn in *. by subst. }
  assert (Hu' : serialize_with_uuid1 (with_decoder_default t) = serialize_with_uuid1 t)
    by done.
  destruct (json_decoder_cls t) as [cls|] eqn:Hcls; cbn.
  - rewrite (Hself cls eq_refl).
    destruct (always_encrypt t || cls_always_encrypt c).
    + destruct (cipher t) as [ci|]; cbn; [|done].
      destruct (decrypt_payload ci (event_attrs r)) as [p|]; cbn; [|done].
      by destruct (loads_payload cls p).
    + cbn. by destruct (loads_payload cls (event_attrs r)).
  - fold (with_decoder_default t).
    replace {| serialize_without_json := serialize_without_json t;
               serialize_with_uuid1 := serialize_with_uuid1 t;
               json_encoder_cls := json_encoder_cls t;
               json_decoder_cls := Some ObjectJSONDecoder;
               cipher := cipher t;
               always_encrypt := always_encrypt t |}
      with (with_decoder_default t)
      by (unfold with_decoder_default; by rewrite Hcls).
    destruct (always_encrypt t || cls_always_encrypt c).
    + destruct (cipher t) as [ci|]; cbn; [|done].
      destruct (decrypt_payload ci (event_attrs r)) as [p|]; cbn; [|done].
      by destruct (loads_payload ObjectJSONDecoder p).
    + cbn. by destruct (loads_payload ObjectJSONDecoder (event_attrs r)).
Qed.

(** X5.  [deserialize] without a cipher.  When JSON is read, the topic
    resolves to a class of the event family, encryption is asked for by
    the transcoder or by the class, and no cipher is configured, the call
    raises the [ValueError] "Can't decrypt stored event without a cipher",
    whatever the payload is.  The store is as it was, and the decoder
    class has been filled in. *)
Theorem deserialize_without_cipher `{World} r s c :
  resolve_domain_topic (event_topic r) = Ok (SymType c) →
  cls_is_domain_event c = true →
  serialize_without_json (self s) = false →
  cipher (self s) = None →
  always_encrypt (self s) || cls_always_encrypt c = true →
  deserialize r s
  = (Err (ValueError CantDecrypt),
     {| self := with_decoder_default (self s); heap := heap s |}).
Proof.
  intros Ht%resolve_domain_topic_Ok Hc Hj Hci Henc.
  rewrite (deserialize_decoding r s c Ht Hc Hj). cbn zeta.
  by rewrite Henc, Hci.
Qed.

Lemma deserialize_without_cipher_witness :
  deserialize (H:=Shop.program) (Shop.stored "shop.Order.Paid")
    (Shop.state (Shop.transcoder false true None false))
  = (Err (ValueError CantDecrypt),
     {| self := with_decoder_default (H:=Shop.program)
                  (Shop.transcoder false true None false);
        heap := Shop.store |}).
Proof.
  exact (deserialize_without_cipher (H:=Shop.program) (Shop.stored "shop.Order.Paid")
           (Shop.state (Shop.transcoder false true None false)) Shop.Paid
           eq_refl eq_refl eq_refl eq_refl eq_refl).
Defined.



(** The last block on a dictionary of the store. *)
Lemma reinstantiate_PDict c topic l d s :
  cls_new c = NewDict → heap s !! l = Some d →
  reinstantiate c topic (PDict l) s
  = (Ok {| inst_class := c; inst_dict := Some (fresh (dom (heap s))) |},
     {| self := self s; heap := <[fresh (dom (heap s)):=d]> (heap s) |}).
Proof.
  intros Hc Hd. pose proof (fresh_loc_ne (heap s) l d Hd) as Hne.
  unfold reinstantiate, except_TypeError, object_new, get_dict, dict_update.
  rewrite Hc. unfold_py. rewrite lookup_insert_ne by done. rewrite Hd. cbn.
  rewrite lookup_insert_eq. cbn.
  by rewrite insert_insert_eq, (right_id_L ∅ (∪)).
Qed.

(** The assignment of the identifier followed by the last block. *)
Lemma reinstantiate_after_setitem c topic p v s e' s' :
  (p' ← setitem p "domain_event_id" v; reinstantiate c topic p') s = (Ok e', s') →
  attribute s' e' "domain_event_id" = Some v.
Proof.
  destruct s as [t h]. unfold setitem. destruct p as [l|tx|v0].
  - unfold_py. destruct (h !! l) as [d0|] eqn:Hd0; cbn; [|done].
    intros Hrun. destruct (reinstantiate_Ok _ _ _ _ _ _ Hrun) as (_ & Hnew & _).
    rewrite (reinstantiate_PDict c topic l (<["domain_event_id":=v]> d0)
               {| self := t; heap := <[l:=<["domain_event_id":=v]> d0]> h |} Hnew)
      in Hrun by apply lookup_insert_eq.
    injection Hrun as <- <-. unfold attribute. cbn.
    rewrite lookup_insert_eq. cbn. apply lookup_insert_eq.
  - by unfold_py.
  - destruct v0; unfold_py; try done.
    intros Hrun. destruct (reinstantiate_Ok _ _ _ _ _ _ Hrun) as (_ & Hnew & _).
    rewrite (reinstantiate_NewDict c topic _ {| self := t; heap := h |} Hnew) in Hrun.
    injection Hrun as <- <-. unfold attribute. cbn.
    rewrite lookup_insert_eq. cbn. apply lookup_insert_eq.
Qed.

(** X8.  In uuid1 mode the [domain_event_id] of an event that
    [deserialize] returns is the [event_id] of the record, in pass-through
    mode and in JSON mode, with or without encryption, and whatever the
    payload holds under that key. *)
Theorem deserialize_sets_identifier `{World} r s e' s' :
  deserialize r s = (Ok e', s') →
  serialize_with_uuid1 (self s) = true →
  attribute s' e' "domain_event_id" = Some (event_id r).
Proof.
  intros Hrun Hu.
  destruct (topics !! event_topic r) as [[c|v]|] eqn:Ht;
    [|revert Hrun; unfold deserialize, resolve_domain_topic; rewrite Ht;
      by unfold_py..].
  destruct (cls_is_domain_event c) eqn:Hc;
    [|revert Hrun; unfold deserialize, resolve_domain_topic; rewrite Ht;
      unfold_py; by rewrite Hc].
  destruct (serialize_without_json (self s)) eqn:Hj.
  - revert Hrun. unfold deserialize, resolve_domain_topic. rewrite Ht.
    destruct s as [t h]. cbn in *. unfold_py. rewrite Hc. cbn.
    unfold decode_event_attrs. rewrite Hj, Hu. cbn. unfold_py.
    apply reinstantiate_after_setitem.
  - rewrite (deserialize_decoding r s c Ht Hc Hj) in Hrun. cbn zeta in Hrun.
    rewrite Hu in Hrun.
    destruct (always_encrypt (self s) || cls_always_encrypt c).
    + destruct (cipher (self s)) as [ci|]; [|done].
      destruct (decrypt_payload ci (event_attrs r)) as [p|]; [|done].
      destruct (loads_payload _ p) as [v|]; [|done].
      by eapply reinstantiate_after_setitem.
    + destruct (loads_payload _ (event_attrs r)) as [v|]; [|done].
      by eapply reinstantiate_after_setitem.
Qed.

Lemma deserialize_sets_identifier_witness :
  ∃ e' s',
    deserialize (H:=Shop.program)
      {| event_id := VStr "0009"; stored_entity_id := "Order::ord-1";
         event_topic := "shop.Order.Placed";
         event_attrs := PText (TJson (JObj {[ "domain_event_id" := JStr "0001" ]})) |}
      (Shop.state (Shop.transcoder false true None false)) = (Ok e', s') ∧
    attribute s' e' "domain_event_id" = Some (VStr "0009").
Proof.
  eassert (Hrun : (deserialize (H:=Shop.program)
      {| event_id := VStr "0009"; stored_entity_id := "Order::ord-1";
         event_topic := "shop.Order.Placed";
         event_attrs := PText (TJson (JObj {[ "domain_event_id" := JStr "0001" ]})) |}
      (Shop.state (Shop.transcoder false true None false))).1 = Ok _)
    by (vm_compute; reflexivity).
  eexists _, _. split; [exact (run_eq _ _ Hrun)|].
  exact (deserialize_sets_identifier (H:=Shop.program) _ _ _ _ (run_eq _ _ Hrun) eq_refl).
Defined.



(** X6.  In pass-through mode with uuid1, [deserialize] writes into the
    record: the identifier is assigned to the dictionary the record
    holds, which from then on has the key [domain_event_id], and the event
    gets a new dictionary with the same content, so the event and the
    record do not share their attributes.  No other dictionary changes.
    Deserializing the same record again gives one more event, with a
    dictionary of its own and the same attributes as the first, which is
    left as it was. *)
Theorem deserialize_passthrough_writes_record `{World} r s c l0 d0 :
  resolve_domain_topic (event_topic r) = Ok (SymType c) →
  cls_is_domain_event c = true →
  cls_new c = NewDict →
  serialize_without_json (self s) = true →
  serialize_with_uuid1 (self s) = true →
  event_attrs r = PDict l0 →
  heap s !! l0 = Some d0 →
  ∃ e1 l1 s1 e2 l2 s2,
    deserialize r s = (Ok e1, s1) ∧
    inst_dict e1 = Some l1 ∧ l1 ≠ l0 ∧ heap s !! l1 = None ∧
    heap s1 !! l0 = Some (<["domain_event_id":=event_id r]> d0) ∧
    heap s1 !! l1 = Some (<["domain_event_id":=event_id r]> d0) ∧
    (∀ l, l ≠ l0 → l ≠ l1 → heap s1 !! l = heap s !! l) ∧
    deserialize r s1 = (Ok e2, s2) ∧
    inst_dict e2 = Some l2 ∧ l2 ≠ l1 ∧ l2 ≠ l0 ∧
    bag s2 e2 = bag s1 e1 ∧ bag s2 e1 = bag s1 e1.
Proof.
  intros Ht%resolve_domain_topic_Ok Hc Hnew Hj Hu Hp Hd0.
  pose proof (deserialize_passthrough r s c l0 d0 Ht Hc Hnew Hj Hu Hp Hd0) as Hrun1.
  cbn zeta in Hrun1.
  set (d1 := <["domain_event_id":=event_id r]> d0) in *.
  set (h1 := <[l0:=d1]> (heap s)) in *.
  set (l1 := fresh (dom h1)) in *.
  set (s1 := {| self := self s; heap := <[l1:=d1]> h1 |}) in *.
  assert (Hl1 : l1 ≠ l0).
  { apply (fresh_loc_ne h1 l0 d1). unfold h1. apply lookup_insert_eq. }
  assert (Hfr : h1 !! l1 = None) by apply fresh_loc_None.
  assert (Hd1 : heap s1 !! l0 = Some d1).
  { cbn. rewrite lookup_insert_ne by done. unfold h1. apply lookup_insert_eq. }
  pose proof (deserialize_passthrough r s1 c l0 d1 Ht Hc Hnew Hj Hu Hp Hd1) as Hrun2.
  cbn zeta in Hrun2.
  assert (Hsame : <["domain_event_id":=event_id r]> d1 = d1)
    by (unfold d1; apply insert_insert_eq).
  rewrite Hsame in Hrun2.
  assert (Hh2 : <[l0:=d1]> (heap s1) = heap s1) by (by apply insert_id).
  rewrite Hh2 in Hrun2.
  set (l2 := fresh (dom (heap s1))) in *.
  assert (Hl2 : l2 ≠ l1).
  { apply (fresh_loc_ne (heap s1) l1 d1). cbn. apply lookup_insert_eq. }
  assert (Hl20 : l2 ≠ l0) by (by apply (fresh_loc_ne (heap s1) l0 d1)).
  eexists _, l1, s1, _, l2, _.
  split; [exact Hrun1|]. split; [done|]. split; [done|].
  split. { unfold h1 in Hfr. by rewrite lookup_insert_ne in Hfr. }
  split; [done|]. split; [cbn; apply lookup_insert_eq|].
  split. { intros l Hl0 Hl1'. cbn. rewrite lookup_insert_ne by done.
           unfold h1. by rewrite lookup_insert_ne. }
  split; [exact Hrun2|]. split; [done|]. split; [done|]. split; [done|].
  unfold bag. cbn. rewrite !lookup_insert_eq.
  split; [done|]. by rewrite lookup_insert_ne, lookup_insert_eq.
Qed.

Lemma deserialize_passthrough_writes_record_witness :
  ∃ e1 l1 s1 e2 l2 s2,
    deserialize (H:=Shop.program)
      {| event_id := VStr "0009"; stored_entity_id := "Order::ord-1";
         event_topic := "shop.Order.Placed"; event_attrs := PDict 1%positive |}
      (Shop.state (Shop.transcoder true true None false)) = (Ok e1, s1) ∧
    inst_dict e1 = Some l1 ∧ l1 ≠ 1%positive ∧ Shop.store !! l1 = None ∧
    heap s1 !! 1%positive
    = Some (<["domain_event_id":=VStr "0009"]> Shop.placed_attrs) ∧
    heap s1 !! l1 = Some (<["domain_event_id":=VStr "0009"]> Shop.placed_attrs) ∧
    (∀ l, l ≠ 1%positive → l ≠ l1 → heap s1 !! l = Shop.store !! l) ∧
    deserialize (H:=Shop.program)
      {| event_id := VStr "0009"; stored_entity_id := "Order::ord-1";
         event_topic := "shop.Order.Placed"; event_attrs := PDict 1%positive |}
      s1 = (Ok e2, s2) ∧
    inst_dict e2 = Some l2 ∧ l2 ≠ l1 ∧ l2 ≠ 1%positive ∧
    bag s2 e2 = bag s1 e1 ∧ bag s2 e1 = bag s1 e1.
Proof.
  exact (deserialize_passthrough_writes_record (H:=Shop.program)
    {| event_id := VStr "0009"; stored_entity_id := "Order::ord-1";
       event_topic := "shop.Order.Placed"; event_attrs := PDict 1%positive |}
    (Shop.state (Shop.transcoder true true None false)) Shop.Placed
    1%positive Shop.placed_attrs
    eq_refl eq_refl eq_refl eq_refl eq_refl eq_refl eq_refl).
Defined.

(** [deserialize] of a record of pass-through mode in random-token mode:
    the record's dictionary is read, not written. *)
Lemma deserialize_passthrough_random `{World} r s c l0 d0 :
  topics !! event_topic r = Some (SymType c) →
  cls_is_domain_event c = true →
  cls_new c = NewDict →
  serialize_without_json (self s) = true →
  serialize_with_uuid1 (self s) = false →
  event_attrs r = PDict l0 →
  heap s !! l0 = Some d0 →
  deserialize r s
  = (Ok {| inst_class := c; inst_dict := Some (fresh (dom (heap s))) |},
     {| self := self s; heap := <[fresh (dom (heap s)):=d0]> (heap s) |}).
Proof.
  intros Ht Hc Hnew Hj Hu Hp Hd0. destruct s as [t h]. cbn in *.
  unfold deserialize, resolve_domain_topic. rewrite Ht. unfold_py.
  rewrite Hc. cbn.
  unfold decode_event_attrs. rewrite Hj. cbn. unfold_py.
  rewrite Hu, Hp. cbn. unfold_py.
  exact (reinstantiate_PDict c _ l0 d0 {| self := t; heap := h |} Hnew Hd0).
Qed.

(** [deserialize] of a JSON payload that decodes to a dictionary, in
    random-token mode. *)
Lemma deserialize_json_random `{World} r s c ptx tx d0 :
  topics !! event_topic r = Some (SymType c) →
  cls_is_domain_event c = true →
  cls_new c = NewDict →
  serialize_without_json (self s) = false →
  serialize_with_uuid1 (self s) = false →
  default ObjectJSONDecoder (json_decoder_cls (self s)) = ObjectJSONDecoder →
  event_attrs r = PText ptx →
  (if always_encrypt (self s) || cls_always_encrypt c
   then ∃ ci, cipher (self s) = Some ci ∧ decrypt ci ptx = tx
   else ptx = tx) →
  json_loads ObjectJSONDecoder tx = Ok (VDict d0) →
  deserialize r s
  = (Ok {| inst_class := c; inst_dict := Some (fresh (dom (heap s))) |},
     {| self := with_decoder_default (self s);
        heap := <[fresh (dom (heap s)):=d0]> (heap s) |}).
Proof.
  intros Ht Hc Hnew Hj Hu Hdec Hp Henc Hloads.
  rewrite (deserialize_decoding r s c Ht Hc Hj). cbn zeta.
  rewrite Hdec, Hu, Hp.
  destruct (always_encrypt (self s) || cls_always_encrypt c).
  - destruct Henc as (ci & -> & <-). cbn [decrypt_payload loads_payload].
    rewrite Hloads. unfold_py.
    exact (reinstantiate_NewDict c _ _ {| self := _; heap := heap s |} Hnew).
  - subst tx. cbn [loads_payload]. rewrite Hloads. unfold_py.
    exact (reinstantiate_NewDict c _ _ {| self := _; heap := heap s |} Hnew).
Qed.

(** X4.  The round trip in random-token mode.  For an event of the
    family with an [entity_id], whose class is what its topic resolves to
    and has instances with a [__dict__], and a transcoder with the codec
    classes of this module: the [event_id] of the record is the token that
    was drawn, and [deserialize (serialize e)] is a new object of the
    class of [e] whose attribute bag is the bag of [e]; the token is not
    added to it, and [e] is left as it was.  In pass-through mode this
    holds for all attribute values; when JSON is written it holds for the
    values JSON keeps ([None], booleans, integers, floats, strings, lists
    and dictionaries of such values without a reserved key, and the dates,
    timestamps and arrays that the libraries read back from what they
    print), within the recursion limit, with encryption off, and with
    encryption on given a cipher whose [decrypt] inverts its [encrypt]. *)
Theorem roundtrip_random_token `{World} u e t h l d entity_id :
  inst_dict e = Some l → h !! l = Some d →
  d !! "entity_id" = Some entity_id →
  cls_is_domain_event (inst_class e) = true →
  cls_new (inst_class e) = NewDict →
  resolve_domain_topic (topic_from_domain_class (inst_class e))
  = Ok (SymType (inst_class e)) →
  serialize_with_uuid1 t = false →
  default ObjectJSONEncoder (json_encoder_cls t) = ObjectJSONEncoder →
  default ObjectJSONDecoder (json_decoder_cls t) = ObjectJSONDecoder →
  (serialize_without_json t = false →
   faithful (VDict d) ∧
   (levels (VDict d) ≤ recursionlimit)%nat ∧
   (always_encrypt t || cls_always_encrypt (inst_class e) = true →
    ∃ c, cipher t = Some c ∧ ∀ x, decrypt c (encrypt c x) = x)) →
  ∃ r s1 e' l' s2,
    serialize u e {| self := t; heap := h |} = (Ok r, s1) ∧
    event_id r = VStr u ∧
    deserialize r s1 = (Ok e', s2) ∧
    inst_class e' = inst_class e ∧
    inst_dict e' = Some l' ∧ l' ≠ l ∧
    heap s2 !! l' = Some d ∧
    heap s2 !! l = Some d.
Proof.
  intros Hl Hd Heid Hfam Hnew Htopic%resolve_domain_topic_Ok Hu Henc Hdec Hjson.
  destruct (split_cons "." (cls_qualname (inst_class e))) as (p & ps & Hsplit).
  assert (Hp : id_prefix_from_event e = Ok p).
  { unfold id_prefix_from_event, id_prefix_from_event_class.
    rewrite Hfam. cbn. by rewrite Hsplit. }
  assert (Hi : serialize_with_uuid1 t = true → is_Some (d !! "domain_event_id"))
    by (by rewrite Hu).
  pose proof (serialize_run u e t h l d p entity_id Hl Hd Hp Heid Hi) as Hrun.
  cbn zeta in Hrun. rewrite Hu in Hrun.
  pose proof (fresh_loc_ne h l d Hd) as Hl1.
  set (l1 := fresh (dom h)) in *.
  set (h1 := <[l1:=d]> h) in *.
  assert (Hl2 : fresh (dom h1) ≠ l).
  { apply (fresh_loc_ne h1 l d). unfold h1. by rewrite lookup_insert_ne. }
  assert (Hkeep : (<[fresh (dom h1):=d]> h1) !! l = Some d).
  { rewrite lookup_insert_ne by done. unfold h1. by rewrite lookup_insert_ne. }
  destruct (serialize_without_json t) eqn:Hw.
  - eexists _, _, _, _, _. split; [exact Hrun|]. split; [done|].
    split.
    { eapply (deserialize_passthrough_random _ _ (inst_class e) l1 d); cbn; try done.
      apply lookup_insert_eq. }
    cbn. split_and!; try done. apply lookup_insert_eq.
  - destruct (Hjson eq_refl) as (Hfaith & Hlev & Hcipher).
    destruct (json_roundtrip _ Hlev Hfaith) as [Hdumps Hloads].
    rewrite Henc, Hdumps in Hrun.
    destruct (always_encrypt t || cls_always_encrypt (inst_class e)) eqn:Hae.
    + destruct (Hcipher eq_refl) as (c & Hc & Hinv). rewrite Hc in Hrun.
      eexists _, _, _, _, _. split; [exact Hrun|]. split; [done|].
      split.
      { eapply (deserialize_json_random _ _ (inst_class e) _ _ d); cbn; try done.
        rewrite Hae. exists c. split; [done|]. apply Hinv. }
      cbn. split_and!; try done. apply lookup_insert_eq.
    + eexists _, _, _, _, _. split; [exact Hrun|]. split; [done|].
      split.
      { eapply (deserialize_json_random _ _ (inst_class e) _ _ d); cbn; try done.
        by rewrite Hae. }
      cbn. split_and!; try done. apply lookup_insert_eq.
Qed.

Lemma roundtrip_random_token_witness :
  ∃ r s1 e' l' s2,
    serialize (H:=Shop.program) "ffff" Shop.order_placed
      (Shop.order_state (Shop.transcoder false false (Some Shop.envelope) true))
    = (Ok r, s1) ∧
    event_id r = VStr "ffff" ∧
    deserialize (H:=Shop.program) r s1 = (Ok e', s2) ∧
    inst_class e' = Shop.OrderPlaced ∧
    inst_dict e' = Some l' ∧ l' ≠ 1%positive ∧
    heap s2 !! l' = Some Shop.order_attrs ∧
    heap s2 !! 1%positive = Some Shop.order_attrs.
Proof.
  apply (roundtrip_random_token (H:=Shop.program) "ffff" Shop.order_placed _
           Shop.order_store 1%positive Shop.order_attrs (VStr "ord-1"));
    try reflexivity.
  intros _. split; [|split].
  - vm_compute. tauto.
  - vm_compute. lia.
  - intros _. exists Shop.envelope. split; [reflexivity|]. by intros [[]|].
Defined.

(** ** Domain entities *)

(** X10.  [deserialize_domain_entity] on a topic that resolves to a
    class whose instances have a [__dict__], with attributes given as a
    dictionary: the entity is a new instance of that class, event class or
    not, whose attribute bag is a copy of the dictionary given; its
    [__dict__] is a new dictionary, not the one given, no dictionary that
    was there changes, and the transcoder is not involved. *)
Theorem deserialize_domain_entity_builds `{World} entity_topic entity_attrs s c d :
  resolve_domain_topic entity_topic = Ok (SymType c) →
  cls_new c = NewDict →
  content (heap s) entity_attrs = Some (PVal (VDict d)) →
  ∃ entity l s',
    deserialize_domain_entity entity_topic entity_attrs s = (Ok entity, s') ∧
    inst_class entity = c ∧
    inst_dict entity = Some l ∧ heap s !! l = None ∧ entity_attrs ≠ PDict l ∧
    bag s' entity = Some d ∧
    (∀ l0, l0 ≠ l → heap s' !! l0 = heap s !! l0) ∧
    self s' = self s.
Proof.
  intros Ht Hnew Hd. destruct s as [t h]. cbn in *.
  exists {| inst_class := c; inst_dict := Some (fresh (dom h)) |}, (fresh (dom h)),
         {| self := t; heap := <[fresh (dom h):=d]> h |}.
  assert (Hrun : deserialize_domain_entity entity_topic entity_attrs
                   {| self := t; heap := h |}
                 = (Ok {| inst_class := c; inst_dict := Some (fresh (dom h)) |},
                    {| self := t; heap := <[fresh (dom h):=d]> h |})).
  { unfold deserialize_domain_entity. rewrite Ht. unfold_py.
    unfold object_new, get_dict, dict_update. rewrite Hnew. unfold_py.
    destruct entity_attrs as [l0|tx|v]; cbn in Hd.
    - destruct (h !! l0) as [d0|] eqn:Hd0; cbn in Hd; [|done].
      injection Hd as ->.
      pose proof (fresh_loc_ne h l0 d Hd0) as Hne.
      unfold_py. rewrite lookup_insert_ne by done. rewrite Hd0. cbn.
      rewrite lookup_insert_eq. cbn.
      by rewrite insert_insert_eq, (right_id_L ∅ (∪)).
    - done.
    - injection Hd as ->. unfold_py. rewrite lookup_insert_eq. cbn.
      by rewrite insert_insert_eq, (right_id_L ∅ (∪)). }
  split; [exact Hrun|]. split; [done|]. split; [done|].
  split; [apply fresh_loc_None|]. split.
  { intros ->. cbn in Hd. by rewrite fresh_loc_None in Hd. }
  split; [unfold bag; cbn; apply lookup_insert_eq|].
  split; [|done]. intros l0 Hl0. cbn. by rewrite lookup_insert_ne.
Qed.

Lemma deserialize_domain_entity_builds_witness :
  ∃ entity l s',
    deserialize_domain_entity (H:=Shop.program) "shop.Money" (PDict 1%positive)
      (Shop.state (Shop.transcoder false true None false)) = (Ok entity, s') ∧
    inst_class entity = Shop.Money ∧
    inst_dict entity = Some l ∧ Shop.store !! l = None ∧
    PDict 1%positive ≠ PDict l ∧
    bag s' entity = Some Shop.placed_attrs ∧
    (∀ l0, l0 ≠ l → heap s' !! l0 = Shop.store !! l0) ∧
    self s' = Shop.transcoder false true None false.
Proof.
  exact (deserialize_domain_entity_builds (H:=Shop.program) "shop.Money"
           (PDict 1%positive) (Shop.state (Shop.transcoder false true None false))
           Shop.Money Shop.placed_attrs eq_refl eq_refl eq_refl).
Defined.



(** ** Prefixes *)

Lemma split_app sep p rest :
  is_substring (String sep EmptyString) p = false →
  split sep (p ++ String sep rest) = p :: split sep rest.
Proof.
  induction p as [|a p IH]; intros Hp.
  - change (EmptyString ++ String sep rest) with (String sep rest).
    cbn [split]. by rewrite Ascii.eqb_refl.
  - change (String a p ++ String sep rest) with (String a (p ++ String sep rest)).
    cbn [split]. cbn in Hp.
    apply orb_false_iff in Hp as [Ha Hp].
    rewrite andb_true_r in Ha. rewrite Ascii.eqb_sym in Ha. rewrite Ha.
    by rewrite (IH Hp).
Qed.

(** X12.  An event class declared inside an entity class has the prefix
    of the entity.  For an event class of the family whose qualified name
    is the [__name__] of an entity class, a dot and the rest, where the
    name of the entity class has no dot: [id_prefix_from_event_class] is
    that name, which is what [id_prefix_from_entity_class] and
    [id_prefix_from_entity] return for the entity class, so the stored
    entity id made from the event and the one made from the entity are
    the same for the same entity id. *)
Theorem event_prefix_is_entity_prefix `{World} (event_class : pyclass)
    (domain_class : entity_class) rest :
  cls_is_domain_event event_class = true →
  ent_is_entity domain_class = true →
  is_substring "." (ent_name domain_class) = false →
  cls_qualname event_class = ent_name domain_class ++ "." ++ rest →
  id_prefix_from_event_class event_class = Ok (ent_name domain_class) ∧
  id_prefix_from_event_class event_class = id_prefix_from_entity_class domain_class ∧
  id_prefix_from_entity domain_class = id_prefix_from_entity_class domain_class ∧
  ∀ event_prefix entity_prefix entity_id,
    id_prefix_from_event_class event_class = Ok event_prefix →
    id_prefix_from_entity domain_class = Ok entity_prefix →
    make_stored_entity_id (VStr event_prefix) entity_id
    = make_stored_entity_id (VStr entity_prefix) entity_id.
Proof.
  intros He Hd Hdot Hq.
  assert (Hev : id_prefix_from_event_class event_class = Ok (ent_name domain_class)).
  { unfold id_prefix_from_event_class. rewrite He, Hq. cbn [negb].
    change (ent_name domain_class ++ "." ++ rest)
      with (ent_name domain_class ++ String "."%char rest).
    by rewrite split_app. }
  assert (Hen : id_prefix_from_entity_class domain_class = Ok (ent_name domain_class)).
  { unfold id_prefix_from_entity_class. by rewrite Hd. }
  assert (Hen' : id_prefix_from_entity domain_class = Ok (ent_name domain_class)).
  { unfold id_prefix_from_entity. by rewrite Hd. }
  split; [done|]. split; [by rewrite Hev, Hen|]. split; [by rewrite Hen, Hen'|].
  intros p1 p2 eid. rewrite Hev, Hen'. by intros [= <-] [= <-].
Qed.

Lemma event_prefix_is_entity_prefix_witness :
  id_prefix_from_event_class Shop.Placed = Ok "Order" ∧
  id_prefix_from_event_class Shop.Placed
  = id_prefix_from_entity_class {| ent_name := "Order"; ent_is_entity := true |}.
Proof.
  destruct (event_prefix_is_entity_prefix (H:=Shop.program) Shop.Placed
              {| ent_name := "Order"; ent_is_entity := true |} "Placed"
              eq_refl eq_refl eq_refl eq_refl) as (Hp & Heq & _).
  exact (conj Hp Heq).
Defined.

(** ** More of the codec classes *)

(** A special value whose [default] is a dictionary with one string
    under one key, through the encoder, and that dictionary through the
    decoder. *)
Lemma encode_special `{World} n v k s :
  match v with VDate _ | VDatetime _ | VNdarray _ => True | _ => False end →
  ObjectJSONEncoder_default v = Ok (VDict {[ k := VStr s ]}) →
  encode (S (S (S n))) ObjectJSONEncoder_default v = Ok (JObj {[ k := JStr s ]}).
Proof.
  intros Hv Hdef.
  destruct v; try done; cbn [encode]; rewrite Hdef; cbn [mbind result_bind];
    rewrite <-!map_fmap_singleton; apply encode_strings.
Qed.

Lemma decode_singleton `{World} k s :
  json_loads ObjectJSONDecoder (TJson (JObj {[ k := JStr s ]}))
  = from_jsonable (VDict {[ k := VStr s ]}).
Proof.
  cbn [json_loads ObjectJSONDecoder object_hook default].
  rewrite <-!map_fmap_singleton. apply decode_strings.
Qed.

(** X13.  Dates, timestamps and arrays through the two codec classes.
    With three levels of recursion available, [json.dumps] with
    [ObjectJSONEncoder] followed by [json.loads] with [ObjectJSONDecoder]
    gives, for a date, what [strptime] parses from its [isoformat]; for a
    timestamp, what [dateutil] parses from its [strftime]; and, with numpy
    present, for an array of one dimension, what [numpy.load] reads from
    what [numpy.save] wrote.  The encoder never fails on these values, and
    the value comes back exactly when the library reads back what it
    printed. *)
Theorem special_values_through_json `{World} :
  (3 ≤ recursionlimit)%nat →
  (∀ d, json_dumps ObjectJSONEncoder (VDate d) ≫= json_loads ObjectJSONDecoder
        = VDate <$> strptime_date (isoformat d)) ∧
  (∀ t, json_dumps ObjectJSONEncoder (VDatetime t) ≫= json_loads ObjectJSONDecoder
        = VDatetime <$> dateutil_parse (strftime t)) ∧
  (∀ np a, numpy = Some np → ndim a = 1%nat →
        json_dumps ObjectJSONEncoder (VNdarray a) ≫= json_loads ObjectJSONDecoder
        = VNdarray <$> np_load np (np_save np a)).
Proof.
  intros Hn. unfold json_dumps.
  change (enc_default ObjectJSONEncoder) with ObjectJSONEncoder_default.
  destruct recursionlimit as [|[|[|n]]]; [lia..|]. clear Hn.
  split_and!.
  - intros d.
    rewrite (encode_special n (VDate d) "ISO8601_date" (isoformat d) I (default_date d)).
    rewrite fmap_Ok, bind_Ok, decode_singleton, from_jsonable_dispatch. keys.
    unfold _decode_date. cbn [py_getitem]. by rewrite lookup_singleton_eq.
  - intros t.
    rewrite (encode_special n (VDatetime t) "ISO8601_datetime" (strftime t) I
               (default_datetime t)).
    rewrite fmap_Ok, bind_Ok, decode_singleton, from_jsonable_dispatch. keys.
    unfold _decode_datetime. cbn [py_getitem]. by rewrite lookup_singleton_eq.
  - intros np a Hnp Hdim.
    rewrite (encode_special n (VNdarray a) "__ndarray__" (np_save np a) I
               (default_ndarray np a Hnp Hdim)).
    rewrite fmap_Ok, bind_Ok, decode_singleton, from_jsonable_dispatch. keys.
    unfold _decode_ndarray. cbn [py_getitem]. rewrite lookup_singleton_eq.
    cbn [mbind result_bind]. by rewrite Hnp.
Qed.

Lemma special_values_through_json_witness :
  json_dumps (H:=Shop.program) (ObjectJSONEncoder (H:=Shop.program))
    (VDate (Date 2020 1 2)) ≫= json_loads (ObjectJSONDecoder (H:=Shop.program))
  = Ok (VDate (Date 2020 1 2)).
Proof.
  assert (Hn : (3 ≤ recursionlimit (World:=Shop.program))%nat) by (vm_compute; lia).
  destruct (special_values_through_json (H:=Shop.program) Hn) as (Hdate & _).
  rewrite Hdate. vm_compute. reflexivity.
Defined.

(** X14.  Without numpy, the key [__ndarray__] cannot be decoded: the
    hook raises a [NameError] for [BytesIO], which is imported together
    with numpy, on every dictionary that has the key, whatever the value
    under it and the other keys; and [json.loads] with [ObjectJSONDecoder]
    raises it for a JSON object whose items decode to such a
    dictionary. *)
Theorem ndarray_key_without_numpy `{World} (d : attrs) :
  numpy = None →
  is_Some (d !! "__ndarray__") →
  from_jsonable (VDict d) = Err (NameError "BytesIO") ∧
  ∀ o, map_mapM (decode from_jsonable) o = Ok d →
       json_loads ObjectJSONDecoder (TJson (JObj o)) = Err (NameError "BytesIO").
Proof.
  intros Hnp Hk.
  assert (Hhook : from_jsonable (VDict d) = Err (NameError "BytesIO")).
  { rewrite from_jsonable_dispatch. unfold has_key.
    rewrite bool_decide_eq_true_2 by done.
    unfold _decode_ndarray. cbn [py_getitem]. destruct Hk as [v ->].
    cbn [mbind result_bind]. by rewrite Hnp. }
  split; [done|]. intros o Ho.
  change (decode from_jsonable (JObj o) = Err (NameError "BytesIO")).
  cbn [decode]. rewrite Ho. exact Hhook.
Qed.

Lemma ndarray_key_without_numpy_witness :
  json_loads (ObjectJSONDecoder (H:=Shop.program))
    (TJson (JObj {[ "__ndarray__" := JStr "1,2,3"; "unit" := JStr "cm" ]}))
  = Err (NameError "BytesIO").
Proof.
  destruct (ndarray_key_without_numpy (H:=Shop.program)
              {[ "__ndarray__" := VStr "1,2,3"; "unit" := VStr "cm" ]}
              eq_refl) as [_ Hloads].
  - by eexists.
  - apply Hloads. vm_compute. reflexivity.
Defined.

(** X15.  Decoding a dictionary with the keys [__class__] and
    [__module__] (and without [__ndarray__]).  The lookup of the class
    comes before the [try]: an error of [import_module] and an error of
    [resolve_attr] leave [from_jsonable] as they are, they do not reach
    the second attempt.  When the class is found and accepts the
    remaining items as keyword arguments, what the call returns is the
    result of the hook. *)
Theorem decode_class_lookup `{World} (d : attrs) class_name module_name :
  d !! "__ndarray__" = None →
  d !! "__class__" = Some class_name →
  d !! "__module__" = Some module_name →
  (∀ x, import_module module_name = Err x → from_jsonable (VDict d) = Err x) ∧
  (∀ md x, import_module module_name = Ok md →
     resolve_attr md class_name = Err x → from_jsonable (VDict d) = Err x) ∧
  (∀ md cls obj, import_module module_name = Ok md →
     resolve_attr md class_name = Ok cls →
     call cls (delete "__module__" (delete "__class__" d)) = Ok obj →
     from_jsonable (VDict d) = Ok obj).
Proof.
  intros Hnd Hc Hm.
  assert (Hstart : from_jsonable (VDict d) =
    (module ← import_module module_name;
     cls ← resolve_attr module class_name;
     match call cls (delete "__module__" (delete "__class__" d)) with
     | Ok obj => Ok obj
     | Err _ =>
         obj ← call cls ∅;
         map_fold
           (λ attr r acc, obj ← acc; value ← r; set_in_dict obj attr value)
           (Ok obj)
           (delete "__module__" (delete "__class__" (from_jsonable <$> d)))
     end)).
  { rewrite from_jsonable_dispatch. unfold has_key. rewrite Hnd, Hc, Hm.
    rewrite bool_decide_eq_false_2 by (by intros []).
    rewrite !bool_decide_eq_true_2 by eauto. cbn [andb].
    unfold _decode_class. cbn [py_pop]. rewrite Hc. cbn [mbind result_bind].
    rewrite lookup_delete_ne, Hm by done. done. }
  rewrite Hstart. split_and!.
  - by intros x ->.
  - intros md x -> . cbn [mbind result_bind]. by intros ->.
  - intros md cls obj ->. cbn [mbind result_bind]. intros ->.
    cbn [mbind result_bind]. by intros ->.
Qed.

Lemma decode_class_lookup_witness :
  from_jsonable (H:=Shop.program)
    (VDict {[ "__class__" := VStr "Order.Placed"; "__module__" := VStr "warehouse" ]})
  = Err (ImportError "warehouse").
Proof.
  destruct (decode_class_lookup (H:=Shop.program)
    {[ "__class__" := VStr "Order.Placed"; "__module__" := VStr "warehouse" ]}
    (VStr "Order.Placed") (VStr "warehouse")) as (Himport & _).
  - vm_compute. reflexivity.
  - vm_compute. reflexivity.
  - vm_compute. reflexivity.
  - apply Himport. vm_compute. reflexivity.
Defined.

(** ** [SearchableContentApplication] *)

Module SearchableContentFacts.
Import SearchableContentApplication.

Lemma last_body_snoc new s ps p :
  last_body new s (ps ++ [p])%list
  = if bool_decide (is_new p = new ∧ slug p = s) then Some (body p)
    else last_body new s ps.
Proof.
  unfold last_body. rewrite filter_app, filter_cons, filter_nil.
  case_bool_decide as Hp.
  - rewrite decide_True by done. by rewrite last_snoc.
  - rewrite decide_False by done. by rewrite app_nil_r.
Qed.

Lemma pages_snoc objs obj :
  pages (objs ++ [obj])%list
  = (pages objs ++ match obj with Some (APage p) => [p] | _ => [] end)%list.
Proof.
  unfold pages. rewrite omap_app. f_equal. by destruct obj as [[]|].
Qed.

(** The two dictionaries the loop of [save] builds. *)
Lemma save_loop objs s :
  (foldl save_step (∅, ∅) objs).1 !! s = last_body true s (pages objs) ∧
  (foldl save_step (∅, ∅) objs).2 !! s = last_body false s (pages objs).
Proof.
  induction objs as [|obj objs IH] using rev_ind; [done|].
  rewrite foldl_app, pages_snoc. cbn [foldl].
  destruct (foldl save_step (∅, ∅) objs) as [ins upd]. cbn in IH.
  destruct IH as [IHi IHu].
  destruct obj as [[p|v]|]; cbn [save_step]; rewrite ?app_nil_r; try done.
  rewrite !last_body_snoc.
  destruct (is_new p) eqn:Hnew; cbn; rewrite lookup_insert.
  - split; [|rewrite bool_decide_eq_false_2 by (by intros [? _]); done].
    case_decide as Hs.
    + by rewrite bool_decide_eq_true_2.
    + by rewrite bool_decide_eq_false_2 by (by intros [_ ?]).
  - split; [rewrite bool_decide_eq_false_2 by (by intros [? _]); done|].
    case_decide as Hs.
    + by rewrite bool_decide_eq_true_2.
    + by rewrite bool_decide_eq_false_2 by (by intros [_ ?]).
Qed.

(** X16.  What [save] hands to the [save] of the base class: the same
    objects, and the keyword arguments with [insert_page_bodies] and
    [update_page_bodies] set, whatever they held, and the other keywords
    untouched.  The first dictionary maps a slug to the body of the last
    page among the objects that has this slug and is new (its version is
    the number of its pending events); the second does the same for the
    pages that are not new.  Objects that are not pages, [None] among
    them, do not count. *)
Theorem save_page_bodies {R} (super_save : list (option saveable) → gmap string kwarg → R)
    (objs : list (option saveable)) (kwargs : gmap string kwarg) :
  ∃ insert_page_bodies update_page_bodies kwargs',
    save super_save objs kwargs = super_save objs kwargs' ∧
    kwargs' !! "insert_page_bodies" = Some (Bodies insert_page_bodies) ∧
    kwargs' !! "update_page_bodies" = Some (Bodies update_page_bodies) ∧
    (∀ k, k ≠ "insert_page_bodies" → k ≠ "update_page_bodies" →
          kwargs' !! k = kwargs !! k) ∧
    (∀ s, insert_page_bodies !! s = last_body true s (pages objs)) ∧
    (∀ s, update_page_bodies !! s = last_body false s (pages objs)).
Proof.
  unfold save.
  pose proof (save_loop objs) as Hloop.
  destruct (foldl save_step (∅, ∅) objs) as [ins upd]. cbn in Hloop.
  eexists ins, upd, _. split; [reflexivity|]. split_and!.
  - by rewrite lookup_insert_ne, lookup_insert_eq.
  - by rewrite lookup_insert_eq.
  - intros k Hi Hu. by rewrite !lookup_insert_ne.
  - intros s. apply Hloop.
  - intros s. apply Hloop.
Qed.

Lemma save_page_bodies_witness :
  let draft := {| slug := "home"; body := "draft"; version := 1;
                  pending_events := [VNone] |} in
  let final := {| slug := "home"; body := "final"; version := 1;
                  pending_events := [VNone] |} in
  ∃ insert_page_bodies update_page_bodies kwargs',
    save (λ _ kwargs, kwargs) [Some (APage draft); None; Some (APage final)]
      {[ "tracking" := Any VNone; "insert_page_bodies" := Any (VInt 0) ]} = kwargs' ∧
    kwargs' !! "insert_page_bodies" = Some (Bodies insert_page_bodies) ∧
    kwargs' !! "update_page_bodies" = Some (Bodies update_page_bodies) ∧
    kwargs' !! "tracking" = Some (Any VNone) ∧
    insert_page_bodies !! "home" = Some "final" ∧
    update_page_bodies !! "home" = None.
Proof.
  intros draft final.
  destruct (save_page_bodies (λ _ kwargs, kwargs)
    [Some (APage draft); None; Some (APage final)]
    {[ "tracking" := Any VNone; "insert_page_bodies" := Any (VInt 0) ]})
    as (ins & upd & kw & Hsave & Hi & Hu & Hk & Hins & Hupd).
  exists ins, upd, kw. split_and!; [done|done|done| | |].
  - rewrite Hk by done. vm_compute. reflexivity.
  - rewrite Hins. vm_compute. reflexivity.
  - rewrite Hupd. vm_compute. reflexivity.
Defined.

Lemma last_body_Some new s ps b :
  last_body new s ps = Some b →
  ∃ p, p ∈ ps ∧ is_new p = new ∧ slug p = s ∧ body p = b.
Proof.
  unfold last_body. intros Hl.
  destruct (last (filter _ ps)) as [p|] eqn:Hp; [|done].
  apply last_Some_elem_of, list_elem_of_filter in Hp as [[? ?] ?].
  cbn in Hl. exists p. by simplify_eq.
Qed.

(** X17.  When no two pages among the objects have the same slug, every
    page is in exactly one of the two dictionaries [save] passes on, under
    its slug and with its body: in [insert_page_bodies] if it is new, in
    [update_page_bodies] if not; and a slug of none of the pages is in
    neither. *)
Theorem save_distinct_slugs {R}
    (super_save : list (option saveable) → gmap string kwarg → R)
    (objs : list (option saveable)) (kwargs : gmap string kwarg) :
  NoDup (slug <$> pages objs) →
  ∃ insert_page_bodies update_page_bodies kwargs',
    save super_save objs kwargs = super_save objs kwargs' ∧
    kwargs' !! "insert_page_bodies" = Some (Bodies insert_page_bodies) ∧
    kwargs' !! "update_page_bodies" = Some (Bodies update_page_bodies) ∧
    (∀ p, p ∈ pages objs →
       insert_page_bodies !! slug p = (if is_new p then Some (body p) else None) ∧
       update_page_bodies !! slug p = (if is_new p then None else Some (body p))) ∧
    (∀ s, s ∉ slug <$> pages objs →
       insert_page_bodies !! s = None ∧ update_page_bodies !! s = None).
Proof.
  intros Hnd. unfold save.
  pose proof (save_loop objs) as Hloop.
  destruct (foldl save_step (∅, ∅) objs) as [ins upd]. cbn in Hloop.
  eexists ins, upd, _. split; [reflexivity|]. split_and!.
  - by rewrite lookup_insert_ne, lookup_insert_eq.
  - by rewrite lookup_insert_eq.
  - intros p Hp. destruct (Hloop (slug p)) as [-> ->].
    assert (Huniq : ∀ q, q ∈ pages objs → slug q = slug p → q = p).
    { intros q Hq Hs.
      apply list_elem_of_lookup in Hq as [i Hi], Hp as [j Hj].
      assert (i = j) as ->; [|congruence].
      eapply NoDup_lookup; [exact Hnd| |]; rewrite list_lookup_fmap.
      - by rewrite Hi.
      - rewrite Hj. cbn. by rewrite Hs. }
    assert (Hlast : ∀ new, last_body new (slug p) (pages objs)
                    = if bool_decide (is_new p = new) then Some (body p) else None).
    { intros new. destruct (last_body new (slug p) (pages objs)) as [b|] eqn:Hl.
      - apply last_body_Some in Hl as (q & Hq & Hn & Hs & <-).
        rewrite (Huniq q Hq Hs) in *. by rewrite bool_decide_eq_true_2.
      - case_bool_decide as Hn; [|done]. exfalso.
        unfold last_body in Hl. apply fmap_None, last_None in Hl.
        assert (p ∈ filter (λ q, is_new q = new ∧ slug q = slug p) (pages objs)) as Hin.
        { apply list_elem_of_filter. done. }
        rewrite Hl in Hin. by apply elem_of_nil in Hin. }
    rewrite !Hlast. by destruct (is_new p).
  - intros s Hs. destruct (Hloop s) as [-> ->].
    split.
    + destruct (last_body true s (pages objs)) as [b|] eqn:Hl; [|done].
      apply last_body_Some in Hl as (q & Hq & _ & <- & _).
      destruct Hs. apply list_elem_of_fmap. eauto.
    + destruct (last_body false s (pages objs)) as [b|] eqn:Hl; [|done].
      apply last_body_Some in Hl as (q & Hq & _ & <- & _).
      destruct Hs. apply list_elem_of_fmap. eauto.
Qed.

Lemma save_distinct_slugs_witness :
  let home := {| slug := "home"; body := "welcome"; version := 1;
                 pending_events := [VNone] |} in
  let about := {| slug := "about"; body := "us"; version := 3;
                  pending_events := [VNone] |} in
  ∃ insert_page_bodies update_page_bodies kwargs',
    save (λ _ kwargs, kwargs)
      [Some (APage home); None; Some (AnyOther (VInt 7)); Some (APage about)]
      {[ "tracking" := Any VNone ]} = kwargs' ∧
    kwargs' !! "insert_page_bodies" = Some (Bodies insert_page_bodies) ∧
    kwargs' !! "update_page_bodies" = Some (Bodies update_page_bodies) ∧
    insert_page_bodies !! "home" = Some "welcome" ∧
    update_page_bodies !! "home" = None ∧
    insert_page_bodies !! "about" = None ∧
    update_page_bodies !! "about" = Some "us".
Proof.
  intros home about.
  destruct (save_distinct_slugs (λ _ kwargs, kwargs)
    [Some (APage home); None; Some (AnyOther (VInt 7)); Some (APage about)]
    {[ "tracking" := Any VNone ]})
    as (ins & upd & kw & Hsave & Hi & Hu & Hpages & _).
  { cbn. apply NoDup_cons. split; [|apply NoDup_singleton].
    rewrite list_elem_of_singleton. discriminate. }
  exists ins, upd, kw. split_and!; try done.
  - apply (Hpages home). cbn. left.
  - apply (Hpages home). cbn. left.
  - apply (Hpages about). cbn. right. left.
  - apply (Hpages about). cbn. right. left.
Defined.

(** The loop of [search] collects the details in order. *)
Lemma search_loop {D} (get_page_details : string → result D) (ds : list D) slugs :
  foldl (λ (pages : result (list D)) (slug : string),
           pages ← pages; page ← get_page_details slug; Ok (pages ++ [page])%list)
        (Ok ds) slugs
  = (λ ds', (ds ++ ds')%list) <$> mapM get_page_details slugs.
Proof.
  revert ds. induction slugs as [|s slugs IH]; intros ds; cbn.
  - by rewrite app_nil_r.
  - destruct (get_page_details s) as [d|x]; cbn.
    + rewrite IH. destruct (mapM get_page_details slugs); cbn; [|done].
      by rewrite <-app_assoc.
    + clear IH. induction slugs as [|s' slugs IH]; [done|]. exact IH.
Qed.

(** X18.  [search] returns the details of the pages the recorder found,
    one per slug and in the recorder's order.  An error of the recorder is
    passed on; when every slug has details, the result is the list of
    them; the first slug whose details cannot be got ends the call with
    the error of [get_page_details]; and a call that returns has got the
    details of every slug. *)
Theorem search_in_order {D} (search_page_bodies : string → result (list string))
    (get_page_details : string → result D) (query : string) :
  (∀ x, search_page_bodies query = Err x →
        search search_page_bodies get_page_details query = Err x) ∧
  (∀ slugs ds, search_page_bodies query = Ok slugs →
        Forall2 (λ slug d, get_page_details slug = Ok d) slugs ds →
        search search_page_bodies get_page_details query = Ok ds) ∧
  (∀ found slug rest ds x,
        search_page_bodies query = Ok (found ++ slug :: rest)%list →
        Forall2 (λ slug d, get_page_details slug = Ok d) found ds →
        get_page_details slug = Err x →
        search search_page_bodies get_page_details query = Err x) ∧
  (∀ ds, search search_page_bodies get_page_details query = Ok ds →
        ∃ slugs, search_page_bodies query = Ok slugs ∧
                 Forall2 (λ slug d, get_page_details slug = Ok d) slugs ds).
Proof.
  unfold search. split_and!.
  - by intros x ->.
  - intros slugs ds -> Hall. cbn. rewrite search_loop.
    induction Hall as [|s d slugs ds Hs _ IH]; [done|].
    cbn. rewrite Hs. cbn. cbn in IH.
    destruct (mapM get_page_details slugs); by simplify_eq/=.
  - intros found slug rest ds x -> Hall Hx. cbn. rewrite search_loop.
    induction Hall as [|s d slugs ds Hs _ IH]; cbn.
    + by rewrite Hx.
    + rewrite Hs. cbn. cbn in IH.
      destruct (mapM get_page_details (slugs ++ slug :: rest)); by simplify_eq/=.
  - intros ds. destruct (search_page_bodies query) as [slugs|x]; [|done].
    cbn. rewrite search_loop. intros Hds. exists slugs. split; [done|].
    destruct (mapM get_page_details slugs) as [ds'|] eqn:Hm; [|done].
    cbn in Hds. injection Hds as <-. clear query search_page_bodies.
    revert ds' Hm. induction slugs as [|s slugs IH]; intros ds' Hm; cbn in Hm.
    + injection Hm as <-. constructor.
    + destruct (get_page_details s) as [d|] eqn:Hs; [|done]. cbn in Hm.
      destruct (mapM get_page_details slugs) as [ds''|]; [|done].
      cbn in Hm. injection Hm as <-. constructor; [done|]. by apply IH.
Qed.

Lemma search_in_order_witness :
  search (λ query, Ok ["home"; "about"])
         (λ slug, if String.eqb slug "about"
                  then Err (Raised "PageNotFound") else Ok (String.length slug))
         "tea"
  = Err (Raised "PageNotFound").
Proof.
  destruct (search_in_order (λ query, Ok ["home"; "about"])
         (λ slug, if String.eqb slug "about"
                  then Err (Raised "PageNotFound") else Ok (String.length slug))
         "tea") as (_ & _ & Hfail & _).
  apply (Hfail ["home"] "about" [] [4%nat]).
  - reflexivity.
  - repeat constructor.
  - reflexivity.
Defined.

End SearchableContentFacts.
